(** * Pattern detection and Gann levels of the Artemesia stock analyzer

    A shallow embedding of the algorithmic core of [src/main.py] and
    [src/data_fetcher.py]: the [PatternDetector] class (its catalog, the
    dispatch in [detect_patterns] and the Head and Shoulders scan) and
    [calculate_gann_levels].

    Modelling choices.
    - A pandas [DataFrame] is the list of its rows ([Bar]); a column is
      the list of that field, [len(data)] the number of rows, [data.index]
      the list of timestamps.
    - A price is the rational ([Q]) a binary64 float stands for, and floats
      are compared as these rationals are.  The arithmetic of
      [calculate_gann_levels] is binary64 arithmetic: each operation
      returns the exact result rounded to the nearest float, ties to even
      ([round64]), and overflows to an infinity; the infinities and the
      [nan] pandas returns for the maximum of an empty column are kept
      ([pyfloat]).
    - Python exceptions are values ([Raised]) of an error monad; positional
      access is fallible ([iloc] raises [IndexError] out of range and wraps
      negative positions, as Python does).
    - Python [int] is [Z], so that [len(data) - 2] may be negative.
    - The rest of the two files ([fetch_data], [plot_chart] and the
      handlers [analyze_stock] and [export_results] with their closure
      [run_analysis]) acts on the outside: every such act (a download, a
      log entry, a message box, a chart element, a row written) is an
      event appended to a trace, and the answers of the outside
      ([yf.download], the file dialog, the date format) are parameters.
      The state of the form (entries, check boxes) is an argument of the
      handler; the layout of the widgets is not modelled. *)

From stdpp Require Import list strings gmap sorting pretty.
From Stdlib Require Import Ascii ZArith QArith Qabs Qround Qpower Lia Lqa.
From Stdlib Require PrimFloat SpecFloat FloatOps Uint63.

Local Open Scope string_scope.
Local Open Scope list_scope.
Local Open Scope Z_scope.

(** ** Exceptions and the error monad *)

Record exn := MkExn { exn_class : string; exn_msg : string }.

Inductive outcome (A : Type) : Type :=
  | Returned (a : A)
  | Raised (e : exn).
Arguments Returned {A} a.
Arguments Raised {A} e.

Global Instance outcome_ret : MRet outcome := λ A a, Returned a.
Global Instance outcome_bind : MBind outcome := λ A B f m,
  match m with
  | Returned a => f a
  | Raised e => Raised e
  end.

(** [raises cls o]: the call ended with an exception of class [cls]. *)
Definition raises {A} (cls : string) (o : outcome A) : Prop :=
  match o with
  | Returned _ => False
  | Raised e => exn_class e = cls
  end.

Definition IndexError : exn :=
  MkExn "IndexError" "single positional indexer is out-of-bounds".

Definition AttributeError (obj attr : string) : exn :=
  MkExn "AttributeError"
        ("'" +:+ obj +:+ "' object has no attribute '" +:+ attr +:+ "'").

(** A [for x in xs:] loop that threads one variable and may raise. *)
Fixpoint for_in {A B} (xs : list A) (acc : B) (body : B → A → outcome B)
  : outcome B :=
  match xs with
  | [] => mret acc
  | x :: xs' => acc' ← body acc x; for_in xs' acc' body
  end.

(** ** Numbers *)

Definition Qltb (x y : Q) : bool := negb (Qle_bool y x).

(** A Python float ([numpy.float64], IEEE 754 binary64) as far as the
    program can see one: a finite number, given by the rational it stands
    for, an infinity ([Inf true] is [-inf]) or [nan].  The sign of a zero
    is not kept: no comparison and no level computed here depends on it. *)
Inductive pyfloat : Type :=
  | Num (q : Q)
  | Inf (negative : bool)
  | NaN.

(** *** Rounding to binary64 *)

(** [ilog2 q], for [0 < q]: the exponent [k] with [2^k <= q < 2^(k+1)]. *)
Definition ilog2 (q : Q) : Z :=
  let k := Z.log2 (Qnum q) - Z.log2 (Zpos (Qden q)) in
  if Qle_bool (2 ^ k) q then k else k - 1.

(** The nearest integer, the even one of two that are equally near. *)
Definition rne (q : Q) : Z :=
  let f := Qfloor q in
  match (q - inject_Z f ?= 1 # 2)%Q with
  | Lt => f
  | Eq => if Z.even f then f else f + 1
  | Gt => f + 1
  end.

(** [nearest q], for [0 < q]: the multiple of [2^e] nearest to [q], where
    [2^e] is the unit in the last place of a 53-bit significand at the
    magnitude of [q], and [2^-1074] among the subnormal numbers. *)
Definition nearest (q : Q) : Q :=
  let e := Z.max (ilog2 q - 52) (-1074) in
  (inject_Z (rne (q / 2 ^ e)) * 2 ^ e)%Q.

(** A rounded value of [2^1024] or more overflows to infinity. *)
Definition round_pos (q : Q) : pyfloat :=
  let v := nearest q in
  if Qle_bool (2 ^ 1024) v then Inf false else Num (Qred v).

Definition fneg (a : pyfloat) : pyfloat :=
  match a with
  | Num x => Num (- x)
  | Inf s => Inf (negb s)
  | NaN => NaN
  end.

(** The float an exact result is rounded to (round to nearest, ties to
    even), with the rational in lowest terms. *)
Definition round64 (q : Q) : pyfloat :=
  match (q ?= 0)%Q with
  | Eq => Num 0
  | Gt => round_pos (Qred q)
  | Lt => fneg (round_pos (Qred (- q)))
  end.

(** *** Arithmetic

    Each operation returns the exact result rounded; infinities and [nan]
    follow IEEE 754, and no operation raises ([numpy.float64] divides by
    zero to an infinity or [nan]). *)

(** [float(i)], for an integer within the range of the floats (the
    source converts 1 to 8). *)
Definition of_int (i : Z) : pyfloat := round64 (inject_Z i).

Definition fadd (a b : pyfloat) : pyfloat :=
  match a, b with
  | Num x, Num y => round64 (x + y)
  | Num _, Inf s | Inf s, Num _ => Inf s
  | Inf s, Inf s' => if Bool.eqb s s' then Inf s else NaN
  | _, _ => NaN
  end.

Definition fsub (a b : pyfloat) : pyfloat :=
  match a, b with
  | Num x, Num y => round64 (x - y)
  | Num _, Inf s => Inf (negb s)
  | Inf s, Num _ => Inf s
  | Inf s, Inf s' => if Bool.eqb s s' then NaN else Inf s
  | _, _ => NaN
  end.

Definition fmul (a b : pyfloat) : pyfloat :=
  match a, b with
  | Num x, Num y => round64 (x * y)
  | Num x, Inf s | Inf s, Num x =>
      if Qeq_bool x 0 then NaN else Inf (xorb s (Qltb x 0))
  | Inf s, Inf s' => Inf (xorb s s')
  | _, _ => NaN
  end.

Definition fdiv (a b : pyfloat) : pyfloat :=
  match a, b with
  | Num x, Num y =>
      if Qeq_bool y 0
      then (if Qeq_bool x 0 then NaN else Inf (Qltb x 0))
      else round64 (x / y)
  | Num _, Inf _ => Num 0
  | Inf s, Num y => Inf (xorb s (Qltb y 0))
  | _, _ => NaN
  end.

(** [i * x] and [x / 8] with an integer on one side: the integer is
    converted to a float first. *)
Definition fmul_int (i : Z) (a : pyfloat) : pyfloat := fmul (of_int i) a.
Definition fdiv_int (a : pyfloat) (d : Z) : pyfloat := fdiv a (of_int d).

(** *** The floats of the machine

    Rocq's primitive floats are the binary64 numbers of the processor, the
    ones CPython and numpy compute with.  [of_prim] reads one as a
    [pyfloat]; the levels computed on them are compared with the model
    below. *)
Definition of_prim (f : PrimFloat.float) : pyfloat :=
  match FloatOps.Prim2SF f with
  | SpecFloat.S754_zero _ => Num 0
  | SpecFloat.S754_infinity s => Inf s
  | SpecFloat.S754_nan => NaN
  | SpecFloat.S754_finite s m e =>
      Num (Qred ((if s then -1 else 1) * inject_Z (Zpos m) * 2 ^ e))
  end.

(** [float(n)], [n / d] and [n * 2**e] on the machine, for [n] and [d]
    from 0 to below [2^63]. *)
Definition prim_int (n : Z) : PrimFloat.float :=
  PrimFloat.of_uint63 (Uint63.of_Z n).
Definition prim_ratio (n d : Z) : PrimFloat.float :=
  PrimFloat.div (prim_int n) (prim_int d).
Definition prim_pow2 (n e : Z) : PrimFloat.float :=
  FloatOps.Z.ldexp (prim_int n) e.

(** [min_price + (i * range_price / 8)] on the machine. *)
Definition prim_level (lo hi : PrimFloat.float) (i : Z) : PrimFloat.float :=
  PrimFloat.add lo
    (PrimFloat.div (PrimFloat.mul (prim_int i) (PrimFloat.sub hi lo))
                   (prim_int 8)).

(** ** Data model *)

Record Bar := MkBar {
  timestamp : Z;
  Open : Q;
  High : Q;
  Low : Q;
  Close : Q
}.

Definition DataFrame := list Bar.

(** [len(data)] *)
Definition len (data : DataFrame) : Z := Z.of_nat (length data).

(** [data['High']], [data['Low']], [data.index] *)
Definition col_High (data : DataFrame) : list Q := map High data.
Definition col_Low (data : DataFrame) : list Q := map Low data.
Definition index (data : DataFrame) : list Z := map timestamp data.

(** Positional access [s.iloc[i]] (and [s[i]] of a column whose index is
    not made of integers, and [data.index[i]]). *)
Definition iloc {A} (s : list A) (i : Z) : outcome A :=
  let n := Z.of_nat (length s) in
  let j := if i <? 0 then n + i else i in
  if (0 <=? j) && (j <? n) then
    match s !! Z.to_nat j with
    | Some x => Returned x
    | None => Raised IndexError
    end
  else Raised IndexError.

(** [range(lo, hi)] *)
Definition py_range (lo hi : Z) : list Z := seqZ lo (hi - lo).

(** [a < b < c]: [c] is only evaluated when [a < b]. *)
Definition chained_lt (a b c : outcome Q) : outcome bool :=
  x ← a; y ← b;
  if Qltb x y then z ← c; mret (Qltb y z) else mret false.

(** [a > b] *)
Definition py_gt (a b : outcome Q) : outcome bool :=
  x ← a; y ← b; mret (Qltb y x).

(** [s.max()] and [s.min()] of a column: [nan] when it is empty. *)
Definition Qmaxb (x y : Q) : Q := if Qle_bool x y then y else x.
Definition Qminb (x y : Q) : Q := if Qle_bool x y then x else y.

Definition series_max (s : list Q) : pyfloat :=
  match s with
  | [] => NaN
  | x :: s' => Num (fold_left Qmaxb s' x)
  end.

Definition series_min (s : list Q) : pyfloat :=
  match s with
  | [] => NaN
  | x :: s' => Num (fold_left Qminb s' x)
  end.

(** A detected pattern: the tuple [(date, label, price)]. *)
Record PatternMatch := MkMatch {
  anchor_timestamp : Z;
  kind : string;
  anchor_price : Q
}.

(** [PatternDetector.available_patterns], the same list in both files. *)
Definition available_patterns : list string :=
  [ "Head and Shoulders";
    "Inverted Head and Shoulders";
    "Double Top";
    "Double Bottom";
    "Bullish Engulfing";
    "Bearish Engulfing";
    "Doji";
    "Hammer";
    "Shooting Star";
    "Morning Star";
    "Evening Star" ].

(** ** Python strings

    A character is a code point below 256. *)

(** [c.isspace()] *)
Definition py_isspace (c : ascii) : bool :=
  let n := Z.of_N (N_of_ascii c) in
  ((9 <=? n) && (n <=? 13)) || ((28 <=? n) && (n <=? 32)) ||
  (n =? 133) || (n =? 160).

(** [s.lstrip()], [s.rstrip()], [s.strip()] *)
Fixpoint lstrip (s : string) : string :=
  match s with
  | EmptyString => EmptyString
  | String c s' => if py_isspace c then lstrip s' else s
  end.

Definition rstrip (s : string) : string :=
  String.rev (lstrip (String.rev s)).

Definition strip (s : string) : string := rstrip (lstrip s).

(** [s.split(sep)] for a separator of one character. *)
Fixpoint py_split (sep : ascii) (s : string) : list string :=
  match s with
  | EmptyString => [EmptyString]
  | String c s' =>
      if Ascii.eqb c sep then EmptyString :: py_split sep s'
      else match py_split sep s' with
           | piece :: rest => String c piece :: rest
           | [] => [String c EmptyString]
           end
  end.

(** [sep.join(l)] *)
Fixpoint py_join (sep : string) (l : list string) : string :=
  match l with
  | [] => ""
  | x :: l' =>
      match l' with
      | [] => x
      | _ :: _ => x +:+ sep +:+ py_join sep l'
      end
  end.

(** [s[i]] on a string: the one-character string at position [i]. *)
Definition str_index (s : string) (i : Z) : outcome string :=
  let n := Z.of_nat (String.length s) in
  let j := if i <? 0 then n + i else i in
  if (0 <=? j) && (j <? n) then
    match String.get (Z.to_nat j) s with
    | Some c => Returned (String c EmptyString)
    | None => Raised (MkExn "IndexError" "string index out of range")
    end
  else Raised (MkExn "IndexError" "string index out of range").

(** ** Dicts that are iterated

    A Python dict keeps its keys in insertion order; an assignment to a key
    already present keeps the key's place. *)
Definition odict (V : Type) : Type := list (string * V).

Fixpoint od_set {V} (k : string) (v : V) (d : odict V) : odict V :=
  match d with
  | [] => [(k, v)]
  | (k', v') :: d' =>
      if String.eqb k k' then (k, v) :: d' else (k', v') :: od_set k v d'
  end.

Fixpoint od_get {V} (k : string) (d : odict V) : option V :=
  match d with
  | [] => None
  | (k', v') :: d' => if String.eqb k k' then Some v' else od_get k d'
  end.

(** [d[k]] *)
Definition od_item {V} (d : odict V) (k : string) : outcome V :=
  match od_get k d with
  | Some v => Returned v
  | None => Raised (MkExn "KeyError" k)
  end.

(** ** Effects

    What the program does to the outside is recorded as a trace of events,
    oldest first; what the outside answers (a download, a file dialog) is a
    function of the trace so far. *)

(** A value handed to the chart or to the CSV writer. *)
Inductive pyval : Type :=
  | VStr (s : string)
  | VDate (t : Z)
  | VNum (q : Q).

Inductive event : Type :=
  | Download (symbol start : string)
  | LogError (msg : string)
  | ShowError (title msg : string)
  | ShowInfo (title msg : string)
  | AddTrace (name : string) (ticker_data : DataFrame)
  | AddAnnotation (x y text : pyval)
  | AddHline (y : pyfloat)
  | UpdateLayout
  | ShowFigure
  | AskSaveAs
  | OpenFile (filename : string)
  | WriteRow (row : list pyval)
  | CloseFile
  | SetStatus (text : string)
  | HistoryClear
  | HistoryInsert (text : string)
  | StartThread.

(** A computation that extends the trace and returns or raises. *)
Definition prog (A : Type) : Type := list event → outcome A * list event.

Global Instance prog_ret : MRet prog := λ A a tr, (Returned a, tr).
Global Instance prog_bind : MBind prog := λ A B f m tr,
  match m tr with
  | (Returned a, tr') => f a tr'
  | (Raised e, tr') => (Raised e, tr')
  end.

Definition emit (ev : event) : prog unit := λ tr, (Returned (), tr ++ [ev]).
Definition throw {A} (e : exn) : prog A := λ tr, (Raised e, tr).
Definition lift {A} (o : outcome A) : prog A := λ tr, (o, tr).

(** [try: body except Exception as e: handler] *)
Definition try_except {A} (body : prog A) (handler : exn → prog A) : prog A :=
  λ tr,
  match body tr with
  | (Returned a, tr') => (Returned a, tr')
  | (Raised e, tr') => handler e tr'
  end.

(** [with open(filename, mode='w', newline='') as file: body]; opening and
    writing are taken to succeed. *)
Definition with_open {A} (filename : string) (body : prog A) : prog A :=
  λ tr,
  let '(r, tr') := body (tr ++ [OpenFile filename]) in (r, tr' ++ [CloseFile]).

(** [for x in xs:] with a loop variable, and without. *)
Fixpoint for_each {A B} (xs : list A) (acc : B) (body : B → A → prog B)
  : prog B :=
  match xs with
  | [] => mret acc
  | x :: xs' => acc' ← body acc x; for_each xs' acc' body
  end.

Fixpoint for_do {A} (xs : list A) (body : A → prog unit) : prog unit :=
  match xs with
  | [] => mret ()
  | x :: xs' => body x ;; for_do xs' body
  end.

(** [raise ValueError(f"No data found for {ticker}.")] *)
Definition ValueError_no_data (ticker : string) : exn :=
  MkExn "ValueError" ("No data found for " +:+ ticker +:+ ".").

(** The ticker field of the form: [entry.strip().split(',')] and the test
    [not tickers or all(ticker.strip() == "" for ticker in tickers)]. *)
Definition parse_tickers (entry : string) : list string :=
  py_split "," (strip entry).

Definition no_ticker (tickers : list string) : bool :=
  match tickers with
  | [] => true
  | _ :: _ => forallb (λ ticker, String.eqb (strip ticker) "") tickers
  end.

(** ** [src/main.py] *)
Module Main.

(** One turn of the loop of [detect_head_and_shoulders]. *)
Definition hs_body (data : DataFrame) (patterns : list PatternMatch) (i : Z)
  : outcome (list PatternMatch) :=
  left_shoulder ← chained_lt (iloc (col_High data) (i - 2))
                             (iloc (col_High data) (i - 1))
                             (iloc (col_High data) i);
  head ← py_gt (iloc (col_High data) (i - 1)) (iloc (col_High data) (i + 1));
  right_shoulder ← chained_lt (iloc (col_High data) (i + 1))
                              (iloc (col_High data) (i + 2))
                              (iloc (col_High data) i);
  if left_shoulder && head && right_shoulder then
    t ← iloc (index data) i;
    h ← iloc (col_High data) i;
    mret (patterns ++ [MkMatch t "Head and Shoulders" h])
  else mret patterns.

Definition detect_head_and_shoulders (data : DataFrame)
  : outcome (list PatternMatch) :=
  for_in (py_range 2 (len data - 2)) [] (hs_body data).

(** [detect_patterns(self, data, selected_pattern)]: one pattern name. *)
Definition detect_patterns (data : DataFrame) (selected_pattern : string)
  : outcome (list PatternMatch) :=
  let patterns := [] in
  if String.eqb selected_pattern "Head and Shoulders" then
    r ← detect_head_and_shoulders data;
    mret (patterns ++ r)
  else mret patterns.

Section Program.
(** The outside: what [yf.download] returns for a symbol and a start date
    (the end date is today's), the name the file dialog returns (empty when
    cancelled), and the text [strftime('%Y-%m-%d')] gives for a date. *)
Context (yf_download : list event → string → string → outcome DataFrame).
Context (ask_filename : list event → string).
Context (strftime : Z → string).

Definition download (symbol start : string) : prog DataFrame :=
  λ tr, (yf_download tr symbol start, tr ++ [Download symbol start]).

Definition ask_save_as : prog string :=
  λ tr, (Returned (ask_filename tr), tr ++ [AskSaveAs]).

(** [fetch_data(tickers, start)] *)
Definition fetch_data (tickers : list string) (start : string)
  : prog (odict DataFrame) :=
  for_each tickers [] (λ data ticker,
    try_except
      (ticker_data ← download (strip ticker) start;
       match ticker_data with
       | [] => throw (ValueError_no_data ticker)
       | _ :: _ => mret (od_set ticker ticker_data data)
       end)
      (λ e,
       emit (LogError ("Error fetching data for '" +:+ ticker +:+ "': "
                       +:+ exn_msg e));;
       emit (ShowError "Data Error"
                       ("Error fetching data for '" +:+ ticker +:+ "': "
                        +:+ exn_msg e));;
       mret data)).

(** [plot_chart(data, patterns=None)] *)
Definition plot_chart (data : odict DataFrame)
    (patterns : option (odict (list PatternMatch))) : prog unit :=
  for_do data (λ '(ticker, ticker_data), emit (AddTrace ticker ticker_data));;
  match patterns with
  | Some ((_ :: _) as patterns) =>
      for_do patterns (λ '(ticker, ticker_patterns),
        for_do ticker_patterns (λ pattern_info,
          emit (AddAnnotation (VDate (anchor_timestamp pattern_info))
                              (VNum (anchor_price pattern_info))
                              (VStr (kind pattern_info)))))
  | _ => mret ()
  end;;
  emit UpdateLayout;;
  emit ShowFigure.

(** The closure [run_analysis] of [analyze_stock], run in its thread. *)
Definition run_analysis (tickers : list string)
    (start_date selected_pattern : string) : prog unit :=
  data ← fetch_data tickers start_date;
  match data with
  | [] => mret ()
  | _ :: _ =>
      patterns ← for_each data [] (λ patterns '(ticker, ticker_data),
        r ← lift (detect_patterns ticker_data selected_pattern);
        mret (od_set ticker r patterns));
      plot_chart data (Some patterns);;
      emit (SetStatus ("Analysis complete for " +:+ py_join ", " tickers
                       +:+ "."));;
      emit (HistoryInsert (py_join ", " tickers +:+ " - " +:+ selected_pattern
                           +:+ " on " +:+ start_date))
  end.

(** [analyze_stock(self, event=None)] up to the start of the thread; the
    result tells whether the thread was started, and with which
    [tickers]. *)
Definition analyze_stock (ticker_entry start_date selected_pattern : string)
  : prog (option (list string)) :=
  let tickers := parse_tickers ticker_entry in
  if no_ticker tickers then
    emit (ShowError "Input Error" "Please enter at least one ticker symbol.");;
    mret None
  else
    emit (SetStatus "Analyzing...");;
    emit StartThread;;
    mret (Some tickers).

(** [export_results(self)] *)
Definition export_results (ticker_entry start_date selected_pattern : string)
  : prog unit :=
  let tickers := parse_tickers ticker_entry in
  if no_ticker tickers then
    emit (ShowError "Input Error" "Please enter at least one ticker symbol.")
  else
    data ← fetch_data tickers start_date;
    match data with
    | [] => mret ()
    | _ :: _ =>
        filename ← ask_save_as;
        if String.eqb filename "" then mret ()
        else
          with_open filename
            (emit (WriteRow [VStr "Ticker"; VStr "Pattern"; VStr "Date";
                             VStr "Price"]);;
             for_do data (λ '(ticker, ticker_data),
               patterns ← lift (detect_patterns ticker_data selected_pattern);
               for_do patterns (λ pattern_info,
                 emit (WriteRow [VStr ticker;
                                 VStr (kind pattern_info);
                                 VStr (strftime (anchor_timestamp pattern_info));
                                 VNum (anchor_price pattern_info)]))));;
          emit (ShowInfo "Export Successful" "Results exported successfully.")
    end.

End Program.

End Main.

(** ** [src/data_fetcher.py] *)
Module DataFetcher.

(** One turn of the loop of [detect_head_and_shoulders]; this file reads
    the column with [data['High'][i]]. *)
Definition hs_body (data : DataFrame) (patterns : list PatternMatch) (i : Z)
  : outcome (list PatternMatch) :=
  left_shoulder ← chained_lt (iloc (col_High data) (i - 2))
                             (iloc (col_High data) (i - 1))
                             (iloc (col_High data) i);
  head ← py_gt (iloc (col_High data) (i - 1)) (iloc (col_High data) (i + 1));
  right_shoulder ← chained_lt (iloc (col_High data) (i + 1))
                              (iloc (col_High data) (i + 2))
                              (iloc (col_High data) i);
  if left_shoulder && head && right_shoulder then
    t ← iloc (index data) i;
    h ← iloc (col_High data) i;
    mret (patterns ++ [MkMatch t "Head and Shoulders" h])
  else mret patterns.

Definition detect_head_and_shoulders (data : DataFrame)
  : outcome (list PatternMatch) :=
  for_in (py_range 2 (len data - 2)) [] (hs_body data).

(** Attribute lookup [self.<name>] for a detection method: the class
    defines [detect_head_and_shoulders] and no other detector. *)
Definition getattr (name : string)
  : outcome (DataFrame → outcome (list PatternMatch)) :=
  if String.eqb name "detect_head_and_shoulders"
  then mret detect_head_and_shoulders
  else Raised (AttributeError "PatternDetector" name).

(** [patterns[selected_pattern] = self.<name>(data)] *)
Definition assign_call (data : DataFrame)
    (patterns : gmap string (list PatternMatch))
    (selected_pattern name : string)
  : outcome (gmap string (list PatternMatch)) :=
  m ← getattr name;
  r ← m data;
  mret (<[selected_pattern := r]> patterns).

(** The body of the loop of [detect_patterns]: the [if]/[elif] chain. *)
Definition dispatch (data : DataFrame)
    (patterns : gmap string (list PatternMatch)) (selected_pattern : string)
  : outcome (gmap string (list PatternMatch)) :=
  if String.eqb selected_pattern "Head and Shoulders" then
    assign_call data patterns selected_pattern "detect_head_and_shoulders"
  else if String.eqb selected_pattern "Inverted Head and Shoulders" then
    assign_call data patterns selected_pattern
                "detect_inverted_head_and_shoulders"
  else if String.eqb selected_pattern "Double Top" then
    assign_call data patterns selected_pattern "detect_double_top"
  else if String.eqb selected_pattern "Double Bottom" then
    assign_call data patterns selected_pattern "detect_double_bottom"
  else if String.eqb selected_pattern "Bullish Engulfing" then
    assign_call data patterns selected_pattern "detect_bullish_engulfing"
  else if String.eqb selected_pattern "Bearish Engulfing" then
    assign_call data patterns selected_pattern "detect_bearish_engulfing"
  else if String.eqb selected_pattern "Doji" then
    assign_call data patterns selected_pattern "detect_doji"
  else if String.eqb selected_pattern "Hammer" then
    assign_call data patterns selected_pattern "detect_hammer"
  else if String.eqb selected_pattern "Shooting Star" then
    assign_call data patterns selected_pattern "detect_shooting_star"
  else if String.eqb selected_pattern "Morning Star" then
    assign_call data patterns selected_pattern "detect_morning_star"
  else if String.eqb selected_pattern "Evening Star" then
    assign_call data patterns selected_pattern "detect_evening_star"
  else mret patterns.

(** [detect_patterns(self, data, selected_patterns)]: a list of names,
    the result a dict from name to match list. *)
Definition detect_patterns (data : DataFrame) (selected_patterns : list string)
  : outcome (gmap string (list PatternMatch)) :=
  for_in selected_patterns ∅ (dispatch data).

(** [calculate_gann_levels(data)] *)
Definition calculate_gann_levels (data : DataFrame) : outcome (list pyfloat) :=
  let max_price := series_max (col_High data) in
  let min_price := series_min (col_Low data) in
  let range_price := fsub max_price min_price in
  let gann_levels :=
    map (λ i, fadd min_price (fdiv_int (fmul_int i range_price) 8))
        (py_range 1 9) in
  mret gann_levels.

Section Program.
(** The outside: what [yf.download] returns for a symbol and a start date
    (the end date is today's) and the name the file dialog returns (empty
    when cancelled). *)
Context (yf_download : list event → string → string → outcome DataFrame).
Context (ask_filename : list event → string).

Definition download (symbol start : string) : prog DataFrame :=
  λ tr, (yf_download tr symbol start, tr ++ [Download symbol start]).

Definition ask_save_as : prog string :=
  λ tr, (Returned (ask_filename tr), tr ++ [AskSaveAs]).

(** The retry loop [for attempt in range(3):] of [fetch_data] for one
    ticker; [Some] is the [break]. *)
Fixpoint fetch_attempts (start ticker : string) (data : odict DataFrame)
    (attempts : list Z) : prog (odict DataFrame) :=
  match attempts with
  | [] => mret data
  | attempt :: attempts' =>
      r ← try_except
            (ticker_data ← download (strip ticker) start;
             match ticker_data with
             | [] => throw (ValueError_no_data ticker)
             | _ :: _ => mret (Some (od_set ticker ticker_data data))
             end)
            (λ e,
             emit (LogError ("Error fetching data for '" +:+ ticker
                             +:+ "' (attempt " +:+ pretty (attempt + 1)
                             +:+ "): " +:+ exn_msg e));;
             (if attempt =? 2 then
                emit (ShowError "Data Error"
                                ("Error fetching data for '" +:+ ticker
                                 +:+ "': " +:+ exn_msg e))
              else mret ());;
             mret None);
      match r with
      | Some data' => mret data'
      | None => fetch_attempts start ticker data attempts'
      end
  end.

(** [fetch_data(tickers, start)] *)
Definition fetch_data (tickers : list string) (start : string)
  : prog (odict DataFrame) :=
  for_each tickers [] (λ data ticker,
    fetch_attempts start ticker data (py_range 0 3)).

(** [for pattern_info in d]: the keys of the dict.  The dicts
    [detect_patterns] returns hold one key at most, so that the order of
    iteration plays no part. *)
Definition dict_keys {V} (d : gmap string V) : list string :=
  (map_to_list d).*1.

(** [s.strftime(fmt)] on a string: [str] has no such attribute. *)
Definition str_strftime (s : string) : outcome string :=
  Raised (AttributeError "str" "strftime").

(** [plot_chart(data, patterns=None, show_gann_levels=False)] *)
Definition plot_chart (data : odict DataFrame)
    (patterns : option (odict (gmap string (list PatternMatch))))
    (show_gann_levels : bool) : prog unit :=
  for_do data (λ '(ticker, ticker_data), emit (AddTrace ticker ticker_data));;
  match patterns with
  | Some ((_ :: _) as patterns) =>
      for_do patterns (λ '(ticker, detected_patterns),
        for_do (dict_keys detected_patterns) (λ pattern_info,
          x ← lift (str_index pattern_info 0);
          y ← lift (str_index pattern_info 2);
          text ← lift (str_index pattern_info 1);
          emit (AddAnnotation (VStr x) (VStr y) (VStr text))))
  | _ => mret ()
  end;;
  (if show_gann_levels then
     for_do data (λ '(ticker, ticker_data),
       gann_levels ← lift (calculate_gann_levels ticker_data);
       for_do gann_levels (λ level, emit (AddHline level)))
   else mret ());;
  emit UpdateLayout;;
  emit ShowFigure.

(** [[pattern for var, pattern in zip(self.pattern_vars,
    PatternDetector.available_patterns) if var.get()]] *)
Definition selected_patterns (pattern_vars : list bool) : list string :=
  map snd (List.filter fst (combine pattern_vars available_patterns)).

(** The closure [run_analysis] of [analyze_stock], run in its thread. *)
Definition run_analysis (tickers : list string) (start_date : string)
    (selected_patterns : list string) (show_gann_levels : bool) : prog unit :=
  data ← fetch_data tickers start_date;
  match data with
  | [] => mret ()
  | _ :: _ =>
      patterns ← for_each (map fst data) [] (λ patterns ticker,
        ticker_data ← lift (od_item data ticker);
        r ← lift (detect_patterns ticker_data selected_patterns);
        mret (od_set ticker r patterns));
      plot_chart data (Some patterns) show_gann_levels;;
      emit (SetStatus ("Analysis complete for " +:+ py_join ", " tickers
                       +:+ "."));;
      emit (HistoryInsert (py_join ", " tickers +:+ " - "
                           +:+ py_join ", " selected_patterns
                           +:+ " on " +:+ start_date))
  end.

(** [analyze_stock(self)] up to the start of the thread; the result tells
    whether the thread was started, and with which [tickers] and
    [selected_patterns]. *)
Definition analyze_stock (ticker_entry start_date : string)
    (pattern_vars : list bool) : prog (option (list string * list string)) :=
  let tickers := parse_tickers ticker_entry in
  let selected := selected_patterns pattern_vars in
  if no_ticker tickers then
    emit (ShowError "Input Error" "Please enter at least one ticker symbol.");;
    mret None
  else
    match selected with
    | [] =>
        emit (ShowError "Input Error" "Please select at least one pattern.");;
        mret None
    | _ :: _ =>
        emit (SetStatus "Analyzing...");;
        emit HistoryClear;;
        emit StartThread;;
        mret (Some (tickers, selected))
    end.

(** [export_results(self)] *)
Definition export_results (ticker_entry start_date : string)
    (pattern_vars : list bool) : prog unit :=
  let tickers := parse_tickers ticker_entry in
  let selected := selected_patterns pattern_vars in
  if no_ticker tickers then
    emit (ShowError "Input Error" "Please enter at least one ticker symbol.")
  else
    data ← fetch_data tickers start_date;
    match data with
    | [] => mret ()
    | _ :: _ =>
        filename ← ask_save_as;
        if String.eqb filename "" then mret ()
        else
          with_open filename
            (emit (WriteRow [VStr "Ticker"; VStr "Pattern"; VStr "Date";
                             VStr "Price"]);;
             for_do data (λ '(ticker, ticker_data),
               patterns ← lift (detect_patterns ticker_data selected);
               for_do (dict_keys patterns) (λ pattern_info,
                 label ← lift (str_index pattern_info 1);
                 first ← lift (str_index pattern_info 0);
                 date ← lift (str_strftime first);
                 price ← lift (str_index pattern_info 2);
                 emit (WriteRow [VStr ticker; VStr label; VStr date;
                                 VStr price]))));;
          emit (ShowInfo "Export Successful" "Results exported successfully.")
    end.

End Program.

End DataFetcher.

(** ** Vocabulary of the statements *)

(** [High_at data i], [Low_at data i], [time_at data i]: the High, the Low
    and the timestamp of bar [i] (0 outside the series). *)
Definition High_at (data : DataFrame) (i : Z) : Q :=
  default 0%Q (col_High data !! Z.to_nat i).
Definition Low_at (data : DataFrame) (i : Z) : Q :=
  default 0%Q (col_Low data !! Z.to_nat i).
Definition time_at (data : DataFrame) (i : Z) : Z :=
  default 0 (index data !! Z.to_nat i).

(** The Head and Shoulders test at bar [i], as a proposition ... *)
Definition hs_rule (data : DataFrame) (i : Z) : Prop :=
  (High_at data (i - 2) < High_at data (i - 1))%Q ∧
  (High_at data (i - 1) < High_at data i)%Q ∧
  (High_at data (i - 1) > High_at data (i + 1))%Q ∧
  (High_at data (i + 1) < High_at data (i + 2))%Q ∧
  (High_at data (i + 2) < High_at data i)%Q.

(** ... and as the boolean the loop computes. *)
Definition hs_test (data : DataFrame) (i : Z) : bool :=
  Qltb (High_at data (i - 2)) (High_at data (i - 1)) &&
  Qltb (High_at data (i - 1)) (High_at data i) &&
  Qltb (High_at data (i + 1)) (High_at data (i - 1)) &&
  (Qltb (High_at data (i + 1)) (High_at data (i + 2)) &&
   Qltb (High_at data (i + 2)) (High_at data i)).

(** The match the scan records at bar [i]. *)
Definition hs_match (data : DataFrame) (i : Z) : PatternMatch :=
  MkMatch (time_at data i) "Head and Shoulders" (High_at data i).

(** The bars at which the scan records a match, in scan order. *)
Definition hs_hits (data : DataFrame) : list Z :=
  List.filter (hs_test data) (py_range 2 (len data - 2)).

(** A catalog name other than Head and Shoulders. *)
Definition other_kind (k : string) : Prop :=
  k ∈ available_patterns ∧ k ≠ "Head and Shoulders".

Global Instance other_kind_dec (k : string) : Decision (other_kind k).
Proof. unfold other_kind. apply _. Defined.

(** The match lists of a detection result are in time order, one match
    per timestamp at most. *)
Definition chronological (l : list PatternMatch) : Prop :=
  StronglySorted Z.le (map anchor_timestamp l) ∧
  NoDup (map anchor_timestamp l).

(** Timestamps strictly increasing along the series. *)
Definition increasing_timestamps (data : DataFrame) : Prop :=
  StronglySorted Z.lt (index data).

(** The Highs (Lows) of the series, as numbers. *)
Definition has_Highs (data : DataFrame) (hs : list Q) : Prop :=
  Forall2 Qeq (col_High data) hs.
Definition has_Lows (data : DataFrame) (ls : list Q) : Prop :=
  Forall2 Qeq (col_Low data) ls.

(** [m] is a smallest (largest) element of [s]. *)
Definition is_min (m : Q) (s : list Q) : Prop :=
  In m s ∧ Forall (λ x, (m <= x)%Q) s.
Definition is_max (m : Q) (s : list Q) : Prop :=
  In m s ∧ Forall (λ x, (x <= m)%Q) s.

(** The [i]-th level between [lo] and [hi], as the specification writes it. *)
Definition gann_level (lo hi : Q) (i : Z) : Q :=
  (lo + inject_Z i * (hi - lo) / inject_Z 8)%Q.

(** The [i]-th level as the source computes it:
    [min_price + (i * range_price / 8)], every operation rounded. *)
Definition level64 (lo hi : Q) (i : Z) : pyfloat :=
  fadd (Num lo) (fdiv_int (fmul_int i (fsub (Num hi) (Num lo))) 8).

(** The numbers of the levels: [range(1, 9)]. *)
Definition level_numbers : list Z := [1; 2; 3; 4; 5; 6; 7; 8].

(** Python's [a <= b] on floats: false when either side is [nan]. *)
Definition fle (a b : pyfloat) : Prop :=
  match a, b with
  | NaN, _ | _, NaN => False
  | Inf true, _ | _, Inf false => True
  | Num x, Num y => (x <= y)%Q
  | _, _ => False
  end.

(** [q] is a binary64 number: rounding returns it. *)
Definition binary64 (q : Q) : Prop := ∃ x, round64 q = Num x ∧ (x == q)%Q.

(** No operation of the [i]-th level rounds: the difference, the product,
    the quotient and the sum are binary64 numbers. *)
Definition exact_level (lo hi : Q) (i : Z) : Prop :=
  binary64 (hi - lo) ∧ binary64 (inject_Z i * (hi - lo)) ∧
  binary64 (inject_Z i * (hi - lo) / 8) ∧ binary64 (gann_level lo hi i).

(** The binary64 numbers by significand and exponent: [m * 2^e] with a
    significand of at most 53 bits, no exponent below that of the
    subnormal numbers, and a magnitude below [2^1024]. *)
Definition representable (q : Q) : Prop :=
  ∃ m e : Z, (Z.abs m <= 2 ^ 53)%Z ∧ (-1074 <= e)%Z ∧
    (Qabs q < 2 ^ 1024)%Q ∧ (q == inject_Z m * 2 ^ e)%Q.

(** The finite value of a float, and the price a decimal denotes: the
    float nearest to it. *)
Definition value (a : pyfloat) : Q :=
  match a with Num x => x | _ => 0%Q end.
Definition price (q : Q) : Q := value (round64 q).

(** The Inverted Head and Shoulders test as the specification words it
    (the Head and Shoulders test on Lows, every inequality reversed); the
    source has no detector for it. *)
Definition spec_inverted_rule (data : DataFrame) (i : Z) : Prop :=
  (Low_at data (i - 2) > Low_at data (i - 1))%Q ∧
  (Low_at data (i - 1) > Low_at data i)%Q ∧
  (Low_at data (i - 1) < Low_at data (i + 1))%Q ∧
  (Low_at data (i + 1) > Low_at data (i + 2))%Q ∧
  (Low_at data (i + 2) > Low_at data i)%Q.

(** ** Sample series *)

(** A bar whose four prices agree. *)
Definition flat_bar (t : Z) (p : Q) : Bar := MkBar t p p p p.

(** Highs 10, 12, 15, 13, 11: a single peak. *)
Definition peak_series : DataFrame :=
  [flat_bar 0 10; flat_bar 1 12; flat_bar 2 15; flat_bar 3 13; flat_bar 4 11].

(** Highs 10, 12, 15, 11, 13: the shape the scan looks for. *)
Definition head_series : DataFrame :=
  [flat_bar 0 10; flat_bar 1 12; flat_bar 2 15; flat_bar 3 11; flat_bar 4 13].

(** Lows 15, 13, 10, 12, 14: a single trough. *)
Definition trough_series : DataFrame :=
  [flat_bar 0 15; flat_bar 1 13; flat_bar 2 10; flat_bar 3 12; flat_bar 4 14].

(** Lows 15, 13, 10, 14, 12: the shape the Inverted Head and Shoulders
    test of the specification accepts at bar 2. *)
Definition valley_series : DataFrame :=
  [flat_bar 0 15; flat_bar 1 13; flat_bar 2 10; flat_bar 3 14; flat_bar 4 12].


(** One bar from 100 to 200. *)
Definition span_series : DataFrame := [MkBar 0 150 200 100 150].

(** One bar from 20.04 to 100.01, and one from 1e16 to 1e16 + 2. *)
Definition uneven_series : DataFrame :=
  [MkBar 0 (price 20.04) (price 100.01) (price 20.04) (price 100.01)].

(** ** Vocabulary for the form and the trace *)

(** The characters of a string. *)
Abbreviation chars := String.list_ascii_of_string (only parsing).

(** A ticker field that holds white space and commas only. *)
Definition blank_entry (entry : string) : Prop :=
  Forall (λ c, py_isspace c = true ∨ c = ","%char) (chars entry).

(** The box shown for a ticker field without ticker, and for an empty
    selection of patterns. *)
Definition no_ticker_box : event :=
  ShowError "Input Error" "Please enter at least one ticker symbol.".
Definition no_pattern_box : event :=
  ShowError "Input Error" "Please select at least one pattern.".

(** The box [fetch_data] shows for a ticker it could not fetch. *)
Definition fetch_box (ticker msg : string) : event :=
  ShowError "Data Error"
            ("Error fetching data for '" +:+ ticker +:+ "': " +:+ msg).

(** The number of downloads in a trace. *)
Definition is_download (ev : event) : bool :=
  match ev with Download _ _ => true | _ => false end.
Definition downloads (tr : list event) : nat :=
  length (List.filter is_download tr).

(** The error boxes of a trace; the events [fetch_data] may add. *)
Definition is_box (ev : event) : bool :=
  match ev with ShowError _ _ => true | _ => false end.
Definition boxes (tr : list event) : list event := List.filter is_box tr.
Definition is_fetch_event (ev : event) : bool :=
  match ev with
  | Download _ _ | LogError _ | ShowError _ _ => true
  | _ => false
  end.

(** What one turn of the loop of [fetch_data] does for [ticker], with at
    most [tries] downloads: it stores a frame with bars and shows no box,
    or it stores nothing, has used all its tries and shows one box. *)
Definition fetched_one (tries : nat) (ticker : string)
    (data data' : odict DataFrame) (new : list event) : Prop :=
  Forall (λ ev, is_fetch_event ev = true) new ∧
  ((∃ df, df ≠ [] ∧ data' = od_set ticker df data ∧ boxes new = [] ∧
          (1 <= downloads new <= tries)%nat) ∨
   (data' = data ∧ (∃ msg, boxes new = [fetch_box ticker msg]) ∧
    downloads new = tries)).

(** What the whole loop does. *)
Definition fetched (tries : nat) (tickers : list string)
    (data data' : odict DataFrame) (new : list event) : Prop :=
  Forall (λ ev, is_fetch_event ev = true) new ∧
  (∀ k df, (k, df) ∈ data' → (k, df) ∈ data ∨ (k ∈ tickers ∧ df ≠ [])) ∧
  (∀ k, k ∈ data.*1 → k ∈ data'.*1) ∧
  (NoDup data.*1 → NoDup data'.*1) ∧
  (∀ t, t ∈ tickers → t ∈ data'.*1 ∨ ∃ msg, fetch_box t msg ∈ new) ∧
  (length tickers <= downloads new <= tries * length tickers)%nat ∧
  (NoDup tickers → Forall (λ t, t ∉ data.*1) tickers →
   (length data' + length (boxes new) = length data + length tickers)%nat).

(** The list [detect_patterns] of [src/main.py] returns, and the list
    [calculate_gann_levels] returns. *)
Definition Main_matches (selected_pattern : string) (data : DataFrame)
  : list PatternMatch :=
  match Main.detect_patterns data selected_pattern with
  | Returned l => l
  | Raised _ => []
  end.
Definition gann_list (data : DataFrame) : list pyfloat :=
  match DataFetcher.calculate_gann_levels data with
  | Returned l => l
  | Raised _ => []
  end.

(** The candlestick trace of a ticker; the annotation and the CSV row
    [src/main.py] makes of a match; the annotation [src/data_fetcher.py]
    makes of the key Head and Shoulders; the horizontal lines of a
    frame. *)
Definition trace_of (entry : string * DataFrame) : event :=
  AddTrace entry.1 entry.2.
Definition annotation_of (m : PatternMatch) : event :=
  AddAnnotation (VDate (anchor_timestamp m)) (VNum (anchor_price m))
                (VStr (kind m)).
Definition row_of (strftime : Z → string) (ticker : string)
    (m : PatternMatch) : event :=
  WriteRow [VStr ticker; VStr (kind m); VStr (strftime (anchor_timestamp m));
            VNum (anchor_price m)].
Definition key_annotation : event :=
  AddAnnotation (VStr "H") (VStr "a") (VStr "e").
Definition hlines_of (entry : string * DataFrame) : list event :=
  map AddHline (gann_list entry.2).

(** The last two events of a completed analysis. *)
Definition completion (tickers : list string) (what start_date : string)
  : list event :=
  [SetStatus ("Analysis complete for " +:+ py_join ", " tickers +:+ ".");
   HistoryInsert (py_join ", " tickers +:+ " - " +:+ what +:+ " on "
                  +:+ start_date)].

(** The header row of the CSV file. *)
Definition header_row : list pyval :=
  [VStr "Ticker"; VStr "Pattern"; VStr "Date"; VStr "Price"].

(** How [export_results] of [src/data_fetcher.py] can end once the fetch is
    over: nothing more; the file dialog alone; the header row and an
    [AttributeError], the file closed; or, [nothing_selected] holding, the
    header row and the report of success. *)
Definition header_only_export (nothing_selected : Prop) (r : outcome ())
    (tail : list event) : Prop :=
  (tail = [] ∧ r = Returned ()) ∨
  (tail = [AskSaveAs] ∧ r = Returned ()) ∨
  (∃ filename e,
     tail = [AskSaveAs; OpenFile filename; WriteRow header_row; CloseFile] ∧
     r = Raised e ∧ exn_class e = "AttributeError") ∨
  (∃ filename,
     tail = [AskSaveAs; OpenFile filename; WriteRow header_row; CloseFile;
             ShowInfo "Export Successful" "Results exported successfully."] ∧
     r = Returned () ∧ nothing_selected).

(** Downloads that always bring the same frame, and that always fail. *)
Definition always (df : DataFrame)
  : list event → string → string → outcome DataFrame :=
  λ _ _ _, Returned df.
Definition always_nothing
  : list event → string → string → outcome DataFrame :=
  λ _ _ _, Returned [].

(** ** Basic facts: comparisons, positional access, loops *)

Lemma Qltb_lt (x y : Q) : Qltb x y = true ↔ (x < y)%Q.
Proof.
  unfold Qltb. rewrite negb_true_iff. split.
  - intros Hb. apply Qnot_le_lt. intros Hle.
    apply Qle_bool_iff in Hle. congruence.
  - intros Hlt. destruct (Qle_bool y x) eqn:E; [|reflexivity].
    apply Qle_bool_iff in E. destruct (Qlt_not_le _ _ Hlt E).
Qed.

Lemma Qltb_compat (x x' y y' : Q) :
  (x == x')%Q → (y == y')%Q → Qltb x y = Qltb x' y'.
Proof.
  intros Hx Hy. apply eq_true_iff_eq.
  rewrite !Qltb_lt, Hx, Hy. reflexivity.
Qed.

Lemma iloc_lookup {A} (s : list A) (i : Z) (x : A) :
  0 <= i → s !! Z.to_nat i = Some x → iloc s i = Returned x.
Proof.
  intros Hi Hx. unfold iloc.
  pose proof (lookup_lt_Some _ _ _ Hx) as Hlt.
  destruct (Z.ltb_spec i 0) as [?|_]; [lia|].
  destruct (Z.leb_spec 0 i) as [_|?]; [|lia].
  destruct (Z.ltb_spec i (Z.of_nat (length s))) as [_|?]; [|lia].
  simpl. rewrite Hx. reflexivity.
Qed.

Lemma iloc_High (data : DataFrame) (i : Z) :
  0 <= i < len data → iloc (col_High data) i = Returned (High_at data i).
Proof.
  intros [Hlo Hhi]. unfold len in Hhi.
  destruct (lookup_lt_is_Some_2 (col_High data) (Z.to_nat i)) as [x Hx].
  { unfold col_High. rewrite length_map. lia. }
  unfold High_at. rewrite Hx. simpl. apply iloc_lookup; assumption.
Qed.

Lemma iloc_index (data : DataFrame) (i : Z) :
  0 <= i < len data → iloc (index data) i = Returned (time_at data i).
Proof.
  intros [Hlo Hhi]. unfold len in Hhi.
  destruct (lookup_lt_is_Some_2 (index data) (Z.to_nat i)) as [x Hx].
  { unfold index. rewrite length_map. lia. }
  unfold time_at. rewrite Hx. simpl. apply iloc_lookup; assumption.
Qed.

(** A loop whose body either appends one element or leaves the list alone
    computes the filtered, mapped range. *)
Lemma for_in_append {A B} (xs : list A) (test : A → bool) (mk : A → B)
    (body : list B → A → outcome (list B)) :
  (∀ acc x, x ∈ xs →
     body acc x = Returned (if test x then acc ++ [mk x] else acc)) →
  ∀ acc, for_in xs acc body = Returned (acc ++ map mk (List.filter test xs)).
Proof.
  induction xs as [|x xs IH]; intros Hbody acc; simpl.
  - rewrite app_nil_r. reflexivity.
  - rewrite Hbody by constructor. simpl.
    rewrite IH by (intros; apply Hbody; constructor; assumption).
    destruct (test x); simpl; [rewrite <- app_assoc|]; reflexivity.
Qed.

Lemma py_range_elem (lo hi k : Z) : k ∈ py_range lo hi ↔ lo <= k < hi.
Proof. unfold py_range. rewrite elem_of_seqZ. lia. Qed.

Lemma py_range_empty (lo hi : Z) : hi <= lo → py_range lo hi = [].
Proof. intros. unfold py_range. apply seqZ_nil. lia. Qed.

(** ** The Head and Shoulders scan *)

Lemma hs_test_rule (data : DataFrame) (i : Z) :
  hs_test data i = true ↔ hs_rule data i.
Proof.
  unfold hs_test, hs_rule. rewrite !andb_true_iff, !Qltb_lt.
  unfold Qgt. tauto.
Qed.

Lemma Main_hs_body_spec (data : DataFrame) (acc : list PatternMatch) (i : Z) :
  2 <= i < len data - 2 →
  Main.hs_body data acc i =
    Returned (if hs_test data i then acc ++ [hs_match data i] else acc).
Proof.
  intros Hi. unfold Main.hs_body, chained_lt, py_gt, hs_test, hs_match.
  rewrite !iloc_High, iloc_index by lia. simpl.
  destruct (Qltb (High_at data (i - 2)) (High_at data (i - 1))); simpl;
    destruct (Qltb (High_at data (i - 1)) (High_at data i)); simpl;
    destruct (Qltb (High_at data (i + 1)) (High_at data (i - 1))); simpl;
    destruct (Qltb (High_at data (i + 1)) (High_at data (i + 2))); simpl;
    destruct (Qltb (High_at data (i + 2)) (High_at data i)); reflexivity.
Qed.

Lemma DataFetcher_hs_body_spec (data : DataFrame) (acc : list PatternMatch)
    (i : Z) :
  2 <= i < len data - 2 →
  DataFetcher.hs_body data acc i =
    Returned (if hs_test data i then acc ++ [hs_match data i] else acc).
Proof. apply Main_hs_body_spec. Qed.

(** The scan never raises: every position it reads is inside the series. *)
Lemma Main_detect_hs_spec (data : DataFrame) :
  Main.detect_head_and_shoulders data =
    Returned (map (hs_match data) (hs_hits data)).
Proof.
  unfold Main.detect_head_and_shoulders, hs_hits.
  rewrite (for_in_append _ (hs_test data) (hs_match data)); [reflexivity|].
  intros acc i Hi. apply py_range_elem in Hi.
  apply Main_hs_body_spec. lia.
Qed.

Lemma DataFetcher_detect_hs_spec (data : DataFrame) :
  DataFetcher.detect_head_and_shoulders data =
    Returned (map (hs_match data) (hs_hits data)).
Proof. apply Main_detect_hs_spec. Qed.

Lemma hs_hits_elem (data : DataFrame) (i : Z) :
  i ∈ hs_hits data ↔ 2 <= i < len data - 2 ∧ hs_rule data i.
Proof.
  unfold hs_hits. rewrite list_elem_of_In, filter_In, <- list_elem_of_In.
  rewrite py_range_elem, hs_test_rule. reflexivity.
Qed.

Lemma hs_hits_short (data : DataFrame) : len data < 5 → hs_hits data = [].
Proof.
  intros Hlen. unfold hs_hits. rewrite py_range_empty by lia. reflexivity.
Qed.

(** ** Order of the matches *)

Section Sortedness.
Context {A B : Type} (R : relation A) (R' : relation B).

Lemma StronglySorted_lookup_lt (l : list A) (i j : nat) (x y : A) :
  StronglySorted R l → l !! i = Some x → l !! j = Some y → (i < j)%nat →
  R x y.
Proof.
  intros Hs. revert i j.
  induction Hs as [|a l Hs IH Ha]; intros i j Hi Hj Hij.
  - rewrite lookup_nil in Hi. discriminate.
  - destruct j as [|j]; [lia|]. simpl in Hj.
    destruct i as [|i]; simpl in Hi.
    + injection Hi as <-. rewrite Forall_forall in Ha.
      apply Ha. eapply list_elem_of_lookup_2. eassumption.
    + apply (IH i j); [assumption..|lia].
Qed.

Lemma StronglySorted_map_filter (f : A → B) (p : A → bool) (l : list A) :
  StronglySorted R l →
  (∀ x y, x ∈ l → y ∈ l → R x y → R' (f x) (f y)) →
  StronglySorted R' (map f (List.filter p l)).
Proof.
  induction 1 as [|a l Hs IH Ha]; intros Hf; simpl; [constructor|].
  assert (StronglySorted R' (map f (List.filter p l))) as Hrec.
  { apply IH. intros x y Hx Hy. apply Hf; constructor; assumption. }
  destruct (p a); [|assumption]. simpl. constructor; [assumption|].
  rewrite Forall_forall in Ha. rewrite Forall_forall. intros b Hb.
  apply list_elem_of_In, in_map_iff in Hb as (x & <- & Hx).
  apply filter_In in Hx as [Hx _]. apply list_elem_of_In in Hx.
  apply Hf; [left|right; assumption|apply Ha; assumption].
Qed.
End Sortedness.

Lemma StronglySorted_seqZ (m n : Z) : StronglySorted Z.lt (seqZ m n).
Proof.
  remember (Z.to_nat n) as k eqn:Hk. revert m n Hk.
  induction k as [|k IH]; intros m n Hk.
  - rewrite seqZ_nil by lia. constructor.
  - rewrite seqZ_cons by lia. constructor; [apply IH; lia|].
    rewrite Forall_forall. intros x Hx. apply elem_of_seqZ in Hx. lia.
Qed.

Lemma StronglySorted_lt_le (l : list Z) :
  StronglySorted Z.lt l → StronglySorted Z.le l.
Proof.
  induction 1 as [|a l Hs IH Ha]; constructor; [assumption|].
  eapply Forall_impl; [eassumption|]. intros; simpl in *; lia.
Qed.

Lemma StronglySorted_lt_NoDup (l : list Z) : StronglySorted Z.lt l → NoDup l.
Proof.
  induction 1 as [|a l Hs IH Ha]; constructor; [|assumption].
  intros Hin. rewrite Forall_forall in Ha. specialize (Ha _ Hin). lia.
Qed.

Lemma time_at_lt (data : DataFrame) (i j : Z) :
  increasing_timestamps data → 0 <= i → i < j → j < len data →
  time_at data i < time_at data j.
Proof.
  intros Hs Hi Hij Hj. unfold len in Hj.
  destruct (lookup_lt_is_Some_2 (index data) (Z.to_nat i)) as [x Hx].
  { unfold index. rewrite length_map. lia. }
  destruct (lookup_lt_is_Some_2 (index data) (Z.to_nat j)) as [y Hy].
  { unfold index. rewrite length_map. lia. }
  unfold time_at. rewrite Hx, Hy. simpl.
  apply (StronglySorted_lookup_lt Z.lt _ _ _ _ _ Hs Hx Hy). lia.
Qed.

Lemma time_at_inj (data : DataFrame) (i j : Z) :
  NoDup (index data) → 0 <= i < len data → 0 <= j < len data →
  time_at data i = time_at data j → i = j.
Proof.
  intros Hnd Hi Hj Heq. unfold len in *.
  destruct (lookup_lt_is_Some_2 (index data) (Z.to_nat i)) as [x Hx].
  { unfold index. rewrite length_map. lia. }
  destruct (lookup_lt_is_Some_2 (index data) (Z.to_nat j)) as [y Hy].
  { unfold index. rewrite length_map. lia. }
  unfold time_at in Heq. rewrite Hx, Hy in Heq. simpl in Heq. subst y.
  pose proof (NoDup_lookup _ _ _ _ Hnd Hx Hy). lia.
Qed.

(** The timestamps of the recorded matches are strictly increasing. *)
Lemma hs_matches_sorted (data : DataFrame) :
  increasing_timestamps data →
  StronglySorted Z.lt
    (map anchor_timestamp (map (hs_match data) (hs_hits data))).
Proof.
  intros Hs. rewrite map_map. simpl. unfold hs_hits.
  apply (StronglySorted_map_filter Z.lt Z.lt).
  - apply StronglySorted_seqZ.
  - intros i j Hi Hj Hij.
    apply py_range_elem in Hi. apply py_range_elem in Hj.
    apply time_at_lt; [assumption|lia..].
Qed.

(** ** The dispatch of [detect_patterns] in [src/data_fetcher.py] *)

Lemma Returned_inj {A} (a b : A) : Returned a = Returned b → a = b.
Proof.
  intros H.
  exact (f_equal (λ o, match o with Returned x => x | Raised _ => a end) H).
Qed.

Lemma for_in_cons {A B} (x : A) (xs : list A) (acc : B)
    (body : B → A → outcome B) :
  for_in (x :: xs) acc body = body acc x ≫= λ acc', for_in xs acc' body.
Proof. reflexivity. Qed.

Lemma bind_Returned {A B} (a : A) (f : A → outcome B) : Returned a ≫= f = f a.
Proof. reflexivity. Qed.

Lemma raises_bind {A B} (cls : string) (m : outcome A) (f : A → outcome B) :
  raises cls m → raises cls (m ≫= f).
Proof. destruct m; simpl; [tauto|auto]. Qed.

Lemma dispatch_head_and_shoulders (data : DataFrame)
    (d : gmap string (list PatternMatch)) :
  DataFetcher.dispatch data d "Head and Shoulders" =
    Returned (<["Head and Shoulders" := map (hs_match data) (hs_hits data)]> d).
Proof.
  unfold DataFetcher.dispatch, DataFetcher.assign_call. simpl.
  rewrite DataFetcher_detect_hs_spec. reflexivity.
Qed.

Lemma dispatch_other_kind (data : DataFrame)
    (d : gmap string (list PatternMatch)) (k : string) :
  other_kind k → raises "AttributeError" (DataFetcher.dispatch data d k).
Proof.
  intros [Hin Hne]. apply list_elem_of_In in Hin. simpl in Hin.
  repeat (destruct Hin as [<-|Hin]; [first [congruence|reflexivity]|]).
  destruct Hin.
Qed.

Lemma dispatch_unknown (data : DataFrame)
    (d : gmap string (list PatternMatch)) (k : string) :
  k ∉ available_patterns → DataFetcher.dispatch data d k = Returned d.
Proof.
  intros Hk. unfold DataFetcher.dispatch.
  repeat match goal with
  | |- context [String.eqb k ?s] =>
      destruct (String.eqb_spec k s) as [->|_];
      [exfalso; apply Hk, list_elem_of_In; simpl; tauto|]
  end.
  reflexivity.
Qed.

(** Every name is Head and Shoulders, another catalog name, or unknown. *)
Lemma kind_cases (k : string) :
  k = "Head and Shoulders" ∨ other_kind k ∨ k ∉ available_patterns.
Proof.
  destruct (decide (k = "Head and Shoulders")) as [?|Hne]; [auto|].
  destruct (decide (k ∈ available_patterns)); [|auto].
  right; left. split; assumption.
Qed.

Lemma other_kind_not_unknown (k : string) :
  other_kind k → k ∉ available_patterns → False.
Proof. intros [Hin _] Hout. exact (Hout Hin). Qed.

(** What the loop of [detect_patterns] does from any dict [d]: it raises
    [AttributeError] as soon as a catalog name other than Head and
    Shoulders is met, and otherwise leaves [d] alone but for the Head and
    Shoulders key. *)
Lemma detect_patterns_loop (data : DataFrame) (ks : list string) :
  ∀ d : gmap string (list PatternMatch),
  if decide (Exists other_kind ks) then
    raises "AttributeError" (for_in ks d (DataFetcher.dispatch data))
  else
    for_in ks d (DataFetcher.dispatch data) =
      Returned (if decide ("Head and Shoulders" ∈ ks)
                then <["Head and Shoulders" :=
                        map (hs_match data) (hs_hits data)]> d
                else d).
Proof.
  induction ks as [|k ks IH]; intros d.
  - rewrite decide_False by (rewrite Exists_nil; tauto).
    rewrite decide_False by (apply not_elem_of_nil). reflexivity.
  - rewrite for_in_cons. destruct (kind_cases k) as [->|[Hk|Hk]].
    + rewrite dispatch_head_and_shoulders, bind_Returned.
      specialize (IH (<["Head and Shoulders" :=
                         map (hs_match data) (hs_hits data)]> d)).
      rewrite (decide_True (P := "Head and Shoulders" ∈ _ :: ks))
        by constructor.
      destruct (decide (Exists other_kind ks)) as [He|Hne].
      * rewrite decide_True by (right; assumption). assumption.
      * rewrite decide_False.
        2:{ rewrite Exists_cons. intros [[_ Habs]|?]; [congruence|tauto]. }
        rewrite IH. destruct (decide (_ ∈ ks)); [|reflexivity].
        rewrite insert_insert_eq. reflexivity.
    + rewrite decide_True by (left; assumption).
      apply raises_bind, dispatch_other_kind, Hk.
    + rewrite dispatch_unknown, bind_Returned by assumption.
      specialize (IH d).
      destruct (decide (Exists other_kind ks)) as [He|Hne].
      * rewrite decide_True by (right; assumption). assumption.
      * rewrite decide_False.
        2:{ rewrite Exists_cons.
            intros [Habs|?]; [exact (other_kind_not_unknown _ Habs Hk)|tauto]. }
        rewrite IH.
        destruct (decide ("Head and Shoulders" ∈ ks)) as [Hin|Hnin].
        -- rewrite decide_True by (right; assumption). reflexivity.
        -- rewrite decide_False; [reflexivity|].
           rewrite elem_of_cons. intros [<-|?]; [|tauto].
           apply Hk, list_elem_of_In. simpl. tauto.
Qed.

(** ** Gann levels *)

Lemma Qmaxb_cases (x y : Q) :
  (Qmaxb x y = x ∨ Qmaxb x y = y) ∧ (x <= Qmaxb x y)%Q ∧ (y <= Qmaxb x y)%Q.
Proof.
  unfold Qmaxb. destruct (Qle_bool x y) eqn:E.
  - apply Qle_bool_iff in E. repeat split; [auto|assumption|apply Qle_refl].
  - assert (¬ (x <= y)%Q) as Hn by (rewrite <- Qle_bool_iff; congruence).
    apply Qnot_le_lt, Qlt_le_weak in Hn.
    repeat split; [auto|apply Qle_refl|assumption].
Qed.

Lemma Qminb_cases (x y : Q) :
  (Qminb x y = x ∨ Qminb x y = y) ∧ (Qminb x y <= x)%Q ∧ (Qminb x y <= y)%Q.
Proof.
  unfold Qminb. destruct (Qle_bool x y) eqn:E.
  - apply Qle_bool_iff in E. repeat split; [auto|apply Qle_refl|assumption].
  - assert (¬ (x <= y)%Q) as Hn by (rewrite <- Qle_bool_iff; congruence).
    apply Qnot_le_lt, Qlt_le_weak in Hn.
    repeat split; [auto|assumption|apply Qle_refl].
Qed.

Lemma fold_Qmaxb (s : list Q) (x : Q) :
  is_max (fold_left Qmaxb s x) (x :: s).
Proof.
  revert x. induction s as [|y s IH]; intros x; simpl.
  - split; [left; reflexivity|]. repeat constructor. apply Qle_refl.
  - destruct (IH (Qmaxb x y)) as [Hin Hall].
    destruct (Qmaxb_cases x y) as (Hc & Hx & Hy).
    apply Forall_cons in Hall as [Hm Hall]. split.
    + destruct Hin as [Hin|Hin]; [|right; right; assumption].
      rewrite <- Hin. destruct Hc as [->| ->]; simpl; auto.
    + repeat constructor; [| |assumption].
      * eapply Qle_trans; eassumption.
      * eapply Qle_trans; eassumption.
Qed.

Lemma fold_Qminb (s : list Q) (x : Q) :
  is_min (fold_left Qminb s x) (x :: s).
Proof.
  revert x. induction s as [|y s IH]; intros x; simpl.
  - split; [left; reflexivity|]. repeat constructor. apply Qle_refl.
  - destruct (IH (Qminb x y)) as [Hin Hall].
    destruct (Qminb_cases x y) as (Hc & Hx & Hy).
    apply Forall_cons in Hall as [Hm Hall]. split.
    + destruct Hin as [Hin|Hin]; [|right; right; assumption].
      rewrite <- Hin. destruct Hc as [->| ->]; simpl; auto.
    + repeat constructor; [| |assumption].
      * eapply Qle_trans; eassumption.
      * eapply Qle_trans; eassumption.
Qed.

Lemma series_max_spec (s : list Q) :
  s ≠ [] → ∃ m, series_max s = Num m ∧ is_max m s.
Proof.
  destruct s as [|x s]; [congruence|]. intros _.
  eexists. split; [reflexivity|apply fold_Qmaxb].
Qed.

Lemma series_min_spec (s : list Q) :
  s ≠ [] → ∃ m, series_min s = Num m ∧ is_min m s.
Proof.
  destruct s as [|x s]; [congruence|]. intros _.
  eexists. split; [reflexivity|apply fold_Qminb].
Qed.

(** *** Rounding to binary64 *)

Section Rounding.
Local Open Scope Q_scope.

Lemma pow2_pos (e : Z) : 0 < 2 ^ e.
Proof. apply Qpower_0_lt. reflexivity. Qed.

Lemma pow2_Z (n : Z) : (0 <= n)%Z → inject_Z (2 ^ n) == 2 ^ n.
Proof. intros H. apply (Zpower_Qpower 2 n H). Qed.

Lemma pow2_lt (n m : Z) : (n < m)%Z → 2 ^ n < 2 ^ m.
Proof. intros H. apply Qpower_lt_compat_l; [exact H|reflexivity]. Qed.

Lemma pow2_le (n m : Z) : (n <= m)%Z → 2 ^ n <= 2 ^ m.
Proof. intros H. apply Qpower_le_compat_l; [exact H|discriminate]. Qed.

Lemma pow2_lt_inv (n m : Z) : 2 ^ n < 2 ^ m → (n < m)%Z.
Proof. intros H. eapply Qpower_lt_compat_l_inv; [exact H|reflexivity]. Qed.

Lemma pow2_plus (n m : Z) : 2 ^ (n + m) == 2 ^ n * 2 ^ m.
Proof. apply Qpower_plus. discriminate. Qed.


(** [ilog2] is the binary exponent. *)
Lemma ilog2_spec (q : Q) : 0 < q → 2 ^ ilog2 q <= q ∧ q < 2 ^ (ilog2 q + 1).
Proof.
  intros Hq. destruct q as [n d]. unfold ilog2. cbn [Qnum Qden].
  assert (0 < n)%Z as Hn by (unfold Qlt in Hq; simpl in Hq; lia).
  pose proof (Z.log2_spec n Hn) as [Hn1 Hn2].
  pose proof (Z.log2_spec (Zpos d) (Pos2Z.is_pos d)) as [Hd1 Hd2].
  pose proof (Z.log2_nonneg n) as Ha. pose proof (Z.log2_nonneg (Zpos d)) as Hb.
  set (a := Z.log2 n) in *. set (b := Z.log2 (Zpos d)) in *.
  assert (n # d < 2 ^ (a - b + 1)) as Hup.
  { replace (a - b + 1)%Z with ((a + 1) - b)%Z by lia.
    rewrite Qpower_minus by discriminate.
    rewrite <- !pow2_Z by lia.
    apply Qlt_shift_div_l; [rewrite pow2_Z by lia; apply pow2_pos|].
    unfold Qlt, Qmult, inject_Z. cbn [Qnum Qden].
    replace (Z.succ a) with (a + 1)%Z in Hn2 by lia. nia. }
  assert (2 ^ (a - b - 1) <= n # d) as Hlow.
  { replace (a - b - 1)%Z with (a - (b + 1))%Z by lia.
    rewrite Qpower_minus by discriminate.
    rewrite <- !pow2_Z by lia.
    apply Qle_shift_div_r; [rewrite pow2_Z by lia; apply pow2_pos|].
    unfold Qle, Qmult, inject_Z. cbn [Qnum Qden].
    replace (Z.succ b) with (b + 1)%Z in Hd2 by lia. nia. }
  destruct (Qle_bool (2 ^ (a - b)) (n # d)) eqn:E.
  - apply Qle_bool_iff in E. split; assumption.
  - assert (¬ 2 ^ (a - b) <= n # d) as Hn' by (rewrite <- Qle_bool_iff; congruence).
    apply Qnot_le_lt in Hn'. split; [exact Hlow|].
    replace (a - b - 1 + 1)%Z with (a - b)%Z by lia. exact Hn'.
Qed.


(** [rne] is monotone, exact on integers and within a half. *)
Lemma rne_bounds (q : Q) : (Qfloor q <= rne q <= Qfloor q + 1)%Z.
Proof.
  unfold rne. destruct (q - inject_Z (Qfloor q) ?= 1 # 2);
    [destruct (Z.even (Qfloor q))|..]; lia.
Qed.

Lemma rne_mono (q1 q2 : Q) : q1 <= q2 → (rne q1 <= rne q2)%Z.
Proof.
  intros H12. pose proof (Qfloor_resp_le _ _ H12) as Hf.
  pose proof (rne_bounds q1). pose proof (rne_bounds q2).
  destruct (Z.eq_dec (Qfloor q1) (Qfloor q2)) as [Heq|Hne]; [|lia].
  unfold rne. rewrite <- Heq.
  destruct (q1 - inject_Z (Qfloor q1) ?= 1 # 2) eqn:E1;
    destruct (q2 - inject_Z (Qfloor q1) ?= 1 # 2) eqn:E2;
    try (destruct (Z.even (Qfloor q1))); try lia; exfalso;
    first [apply Qeq_alt in E1|apply Qlt_alt in E1|apply Qgt_alt in E1];
    first [apply Qeq_alt in E2|apply Qlt_alt in E2|apply Qgt_alt in E2]; lra.
Qed.

Lemma rne_Z (n : Z) : rne (inject_Z n) = n.
Proof.
  unfold rne. rewrite Qfloor_Z.
  assert ((inject_Z n - inject_Z n ?= 1 # 2) = Lt) as ->; [|reflexivity].
  rewrite <- Qlt_alt. lra.
Qed.



Lemma nearest_nonneg (q : Q) : 0 < q → 0 <= nearest q.
Proof.
  intros Hq. unfold nearest. cbv zeta.
  set (e := Z.max _ _). apply Qmult_le_0_compat; [|apply Qlt_le_weak, pow2_pos].
  change 0 with (inject_Z 0). rewrite <- Zle_Qle.
  etransitivity; [|apply rne_bounds].
  change 0%Z with (Qfloor 0). apply Qfloor_resp_le.
  apply Qle_shift_div_l; [apply pow2_pos|]. rewrite Qmult_0_l. apply Qlt_le_weak, Hq.
Qed.





Lemma round_pos_cases (q : Q) :
  0 < q → round_pos q = Inf false ∨ ∃ x, round_pos q = Num x ∧ 0 <= x.
Proof.
  intros Hq. unfold round_pos. cbv zeta.
  destruct (Qle_bool (2 ^ 1024) (nearest q)); [left; reflexivity|right].
  eexists. split; [reflexivity|]. rewrite Qred_correct. apply nearest_nonneg, Hq.
Qed.




Lemma fle_refl (a : pyfloat) : a ≠ NaN → fle a a.
Proof. destruct a as [x|[]|]; simpl; trivial; [intros _; apply Qle_refl|congruence]. Qed.

Lemma fle_not_nan (a b : pyfloat) : fle a b → a ≠ NaN ∧ b ≠ NaN.
Proof. destruct a as [x|[]|], b as [y|[]|]; simpl; intros H; try contradiction; split; discriminate. Qed.



Lemma Qcompare_0 (q : Q) :
  match q ?= 0 with Eq => q == 0 | Lt => q < 0 | Gt => 0 < q end.
Proof.
  destruct (q ?= 0) eqn:E; [apply Qeq_alt|apply Qlt_alt|apply Qgt_alt]; exact E.
Qed.

Lemma round64_cases (q : Q) :
  (q == 0 ∧ round64 q = Num 0) ∨
  (0 < q ∧ round64 q = round_pos (Qred q)) ∨
  (q < 0 ∧ round64 q = fneg (round_pos (Qred (- q)))).
Proof.
  unfold round64. pose proof (Qcompare_0 q) as H.
  destruct (q ?= 0); [left|right; right|right; left]; split; trivial.
Qed.

(** [round64] never returns [nan], does not depend on how the rational is
    written, and is monotone. *)
Lemma round64_not_nan (q : Q) : round64 q ≠ NaN.
Proof.
  destruct (round64_cases q) as [[_ ->]|[[Hq ->]|[Hq ->]]]; [discriminate|..].
  - destruct (round_pos_cases (Qred q)) as [->|(x & -> & _)];
      [rewrite Qred_correct; exact Hq|discriminate..].
  - destruct (round_pos_cases (Qred (- q))) as [->|(x & -> & _)];
      [rewrite Qred_correct; lra|discriminate..].
Qed.

Lemma round64_compat (q q' : Q) : q == q' → round64 q = round64 q'.
Proof.
  intros H. unfold round64. rewrite H.
  rewrite (Qred_complete _ _ H).
  assert (- q == - q') as H' by (rewrite H; reflexivity).
  rewrite (Qred_complete _ _ H'). reflexivity.
Qed.






(** The integers of the source, 1 to 8, convert exactly. *)
Lemma of_int_small (i : Z) : (0 <= i <= 8)%Z → of_int i = Num (inject_Z i).
Proof.
  intros H.
  assert (i = 0 ∨ i = 1 ∨ i = 2 ∨ i = 3 ∨ i = 4 ∨ i = 5 ∨ i = 6 ∨ i = 7 ∨ i = 8)%Z
    as Hi by lia.
  repeat (destruct Hi as [->|Hi]; [vm_compute; reflexivity|]).
  subst i. vm_compute. reflexivity.
Qed.

Lemma positive_int (i : Z) :
  (1 <= i)%Z → Qeq_bool (inject_Z i) 0 = false ∧ Qltb (inject_Z i) 0 = false.
Proof. intros H. destruct i; try lia. split; reflexivity. Qed.




Lemma fmul_int_defined (i : Z) (t : pyfloat) :
  (1 <= i <= 8)%Z → t ≠ NaN → fmul_int i t ≠ NaN.
Proof.
  intros Hi Ht. unfold fmul_int. rewrite of_int_small by lia.
  destruct (positive_int i) as [Ei Li]; [lia|].
  destruct t as [y|s|]; [apply round64_not_nan| |congruence].
  unfold fmul. rewrite Ei. discriminate.
Qed.

Lemma of_int_8 : of_int 8 = Num 8.
Proof. vm_compute. reflexivity. Qed.

Lemma fdiv_int_Num (x : Q) : fdiv_int (Num x) 8 = round64 (x / 8).
Proof. unfold fdiv_int. rewrite of_int_8. reflexivity. Qed.

Lemma fdiv_int_Inf (s : bool) : fdiv_int (Inf s) 8 = Inf s.
Proof. unfold fdiv_int. rewrite of_int_8. destruct s; reflexivity. Qed.


Lemma fdiv_int_defined (a : pyfloat) : a ≠ NaN → fdiv_int a 8 ≠ NaN.
Proof.
  destruct a as [x|s|]; rewrite ?fdiv_int_Num, ?fdiv_int_Inf;
    [intros _; apply round64_not_nan|discriminate|congruence].
Qed.


Lemma fadd_defined (lo : Q) (a : pyfloat) : a ≠ NaN → fadd (Num lo) a ≠ NaN.
Proof.
  destruct a as [x|s|]; simpl;
    [intros _; apply round64_not_nan|discriminate|congruence].
Qed.



Lemma level64_defined (lo hi : Q) (i : Z) :
  (1 <= i <= 8)%Z → level64 lo hi i ≠ NaN.
Proof.
  intros Hi. unfold level64.
  apply fadd_defined, fdiv_int_defined, fmul_int_defined; [assumption|].
  apply round64_not_nan.
Qed.

Lemma level64_compat (lo lo' hi hi' : Q) (i : Z) :
  lo == lo' → hi == hi' → level64 lo hi i = level64 lo' hi' i.
Proof.
  intros Hl Hh. unfold level64.
  assert (fsub (Num hi) (Num lo) = fsub (Num hi') (Num lo')) as ->.
  { simpl. apply round64_compat. rewrite Hl, Hh. reflexivity. }
  destruct (fdiv_int _ 8) as [y|s|]; simpl; trivial.
  apply round64_compat. rewrite Hl. reflexivity.
Qed.


(** When no operation rounds, a level is the exact one. *)
Lemma level64_exact (lo hi : Q) (i : Z) :
  (1 <= i <= 8)%Z → exact_level lo hi i →
  ∃ x, level64 lo hi i = Num x ∧ x == gann_level lo hi i.
Proof.
  intros Hi ((t & Ht & Et) & (m & Hm & Em) & (d & Hd & Ed) & (x & Hx & Ex)).
  exists x. split; [|exact Ex].
  unfold level64, fmul_int. rewrite of_int_small by lia.
  simpl fsub. rewrite Ht. simpl fmul.
  rewrite (round64_compat _ (inject_Z i * (hi - lo))), Hm
    by (rewrite Et; reflexivity).
  rewrite fdiv_int_Num.
  rewrite (round64_compat _ (inject_Z i * (hi - lo) / 8)), Hd
    by (rewrite Em; reflexivity).
  simpl fadd. rewrite <- Hx. apply round64_compat.
  unfold gann_level. rewrite Ed. reflexivity.
Qed.


Lemma rne_half (x : Q) :
  - (1 # 2) <= inject_Z (rne x) - x ∧ inject_Z (rne x) - x <= 1 # 2.
Proof.
  unfold rne. pose proof (Qfloor_le x) as Hl. pose proof (Qlt_floor x) as Hu.
  rewrite inject_Z_plus in Hu. change (inject_Z 1) with 1 in Hu.
  destruct (x - inject_Z (Qfloor x) ?= 1 # 2) eqn:E;
    [apply Qeq_alt in E; destruct (Z.even (Qfloor x))
    |apply Qlt_alt in E|apply Qgt_alt in E];
    rewrite ?inject_Z_plus; change (inject_Z 1) with 1; split; lra.
Qed.

Lemma nearest_error (q : Q) (e : Z) :
  0 < q → e = Z.max (ilog2 q - 52) (-1074) →
  Qabs (nearest q - q) <= 2 ^ e * (1 # 2).
Proof.
  intros Hq He. unfold nearest. cbv zeta. rewrite <- He.
  pose proof (pow2_pos e) as Hp. destruct (rne_half (q / 2 ^ e)) as [Hl Hu].
  assert (q == q / 2 ^ e * 2 ^ e) as Hq'.
  { unfold Qdiv. rewrite <- Qmult_assoc, (Qmult_comm (/ _)), Qmult_inv_r, Qmult_1_r;
      [reflexivity|]. intros H. rewrite H in Hp. discriminate. }
  set (n := inject_Z (rne (q / 2 ^ e))) in *. set (r := q / 2 ^ e) in *.
  set (p := 2 ^ e) in *.
  apply Qabs_Qle_condition. split; nra.
Qed.

Lemma nearest_accurate (q : Q) :
  0 < q → Qabs (nearest q - q) <= q * 2 ^ (-53) + 2 ^ (-1075).
Proof.
  intros Hq. eapply Qle_trans; [apply (nearest_error q _ Hq eq_refl)|].
  destruct (ilog2_spec q Hq) as [Hl _].
  pose proof (pow2_pos (-1075)) as H1. pose proof (pow2_pos (-53)) as H2.
  destruct (Z.max_spec (ilog2 q - 52) (-1074)) as [[_ ->]|[_ ->]].
  - assert (2 ^ (-1074) * (1 # 2) == 2 ^ (-1075)) as -> by reflexivity. nra.
  - assert (2 ^ (ilog2 q - 52) * (1 # 2) == 2 ^ ilog2 q * 2 ^ (-53)) as ->.
    { replace (ilog2 q - 52)%Z with (ilog2 q + -52)%Z by lia.
      rewrite pow2_plus, <- Qmult_assoc. reflexivity. }
    nra.
Qed.

Lemma fneg_involutive (a : pyfloat) : fneg (fneg a) = a.
Proof.
  destruct a as [[n d]|[]|]; simpl; trivial.
  unfold Qopp. simpl. rewrite Z.opp_involutive. reflexivity.
Qed.

Lemma round64_opp (q : Q) : round64 (- q) = fneg (round64 q).
Proof.
  destruct (round64_cases q) as [[E ->]|[[E ->]|[E ->]]].
  - rewrite (round64_compat _ 0); [reflexivity|lra].
  - destruct (round64_cases (- q)) as [[E' _]|[[E' _]|[_ ->]]]; [lra..|].
    rewrite (Qred_complete (- - q) q); [reflexivity|lra].
  - destruct (round64_cases (- q)) as [[E' _]|[[_ ->]|[E' _]]]; [lra| |lra].
    rewrite fneg_involutive. reflexivity.
Qed.

(** Every result of [round64] is within the error of one correctly rounded
    binary64 operation: relative error [2^-53], or absolute error
    [2^-1075] among the subnormal numbers. *)
Lemma round64_accurate (q x : Q) :
  round64 q = Num x → Qabs (x - q) <= Qabs q * 2 ^ (-53) + 2 ^ (-1075).
Proof.
  assert (∀ q x, 0 < q → round_pos (Qred q) = Num x →
            Qabs (x - q) <= Qabs q * 2 ^ (-53) + 2 ^ (-1075)) as Hpos.
  { intros p y Hp. unfold round_pos. cbv zeta.
    destruct (Qle_bool _ _); [discriminate|]. intros [= <-].
    rewrite Qred_correct, (Qabs_pos p) by lra.
    assert (0 < Qred p) as Hp' by (rewrite Qred_correct; exact Hp).
    pose proof (nearest_accurate (Qred p) Hp') as H.
    rewrite (Qred_correct p) in H at 2 3. exact H. }
  destruct (round64_cases q) as [[E ->]|[[E ->]|[E ->]]].
  - intros [= <-]. rewrite E. pose proof (pow2_pos (-1075)).
    assert (Qabs (0 - 0) == 0) as -> by reflexivity.
    assert (Qabs 0 == 0) as -> by reflexivity. lra.
  - apply Hpos, E.
  - destruct (round_pos (Qred (- q))) as [y|s|] eqn:Ey; try discriminate.
    intros [= <-]. assert (0 < - q) as E' by lra.
    pose proof (Hpos (- q) y E' Ey) as H.
    rewrite Qabs_opp in H.
    assert (- y - q == - (y - - q)) as -> by lra. rewrite Qabs_opp. exact H.
Qed.


Lemma rne_compat (x y : Q) : x == y → rne x = rne y.
Proof.
  intros H. unfold rne. cbv zeta. rewrite (Qfloor_comp _ _ H).
  assert ((x - inject_Z (Qfloor y) ?= 1 # 2) = (y - inject_Z (Qfloor y) ?= 1 # 2))
    as ->; [|reflexivity].
  apply Qcompare_comp; [rewrite H|]; reflexivity.
Qed.

Lemma mantissa_upper (q : Q) (e : Z) :
  0 < q → e = Z.max (ilog2 q - 52) (-1074) → (0 <= rne (q / 2 ^ e) <= 2 ^ 53)%Z.
Proof.
  intros Hq He. destruct (ilog2_spec q Hq) as [_ Hu]. split.
  - etransitivity; [|apply rne_bounds].
    change 0%Z with (Qfloor 0). apply Qfloor_resp_le.
    apply Qle_shift_div_l; [apply pow2_pos|]. rewrite Qmult_0_l.
    apply Qlt_le_weak, Hq.
  - rewrite <- (rne_Z (2 ^ 53)). apply rne_mono.
    apply Qle_shift_div_r; [apply pow2_pos|].
    rewrite (pow2_Z 53) by lia. rewrite <- pow2_plus.
    apply Qlt_le_weak. eapply Qlt_le_trans; [exact Hu|]. apply pow2_le. lia.
Qed.

(** A number with a 53-bit significand is its own rounding. *)
Lemma nearest_exact (q : Q) (m e : Z) :
  (0 < m < 2 ^ 53)%Z → (-1074 <= e)%Z → q == inject_Z m * 2 ^ e →
  nearest q == q.
Proof.
  intros Hm He Hq. pose proof (pow2_pos e) as Hpe.
  assert (0 < inject_Z m) as Hm0.
  { change 0 with (inject_Z 0). rewrite <- Zlt_Qlt. lia. }
  assert (inject_Z m < 2 ^ 53) as Hm1.
  { rewrite <- (pow2_Z 53) by lia. rewrite <- Zlt_Qlt. lia. }
  assert (0 < q) as Hq0 by (rewrite Hq; nra).
  destruct (ilog2_spec q Hq0) as [Hl _].
  assert (ilog2 q < 53 + e)%Z as Hlog.
  { apply pow2_lt_inv. eapply Qle_lt_trans; [exact Hl|].
    rewrite pow2_plus, Hq. nra. }
  unfold nearest. cbv zeta. set (E := Z.max (ilog2 q - 52) (-1074)).
  assert (E <= e)%Z as HE by lia.
  assert (2 ^ e == inject_Z (2 ^ (e - E)) * 2 ^ E) as Hsplit.
  { rewrite pow2_Z by lia. rewrite <- pow2_plus. replace (e - E + E)%Z with e by lia.
    reflexivity. }
  assert (q / 2 ^ E == inject_Z (m * 2 ^ (e - E))) as Hint.
  { rewrite inject_Z_mult, Hq, Hsplit. field.
    intros H. pose proof (pow2_pos E) as HpE. rewrite H in HpE. discriminate. }
  rewrite (rne_compat _ _ Hint), rne_Z, inject_Z_mult, Hq, Hsplit.
  ring.
Qed.

Lemma representable_pos (q : Q) (m e : Z) :
  (0 < m <= 2 ^ 53)%Z → (-1074 <= e)%Z → q < 2 ^ 1024 →
  q == inject_Z m * 2 ^ e → ∃ x, round_pos (Qred q) = Num x ∧ x == q.
Proof.
  intros Hm He Hlt Hq.
  assert (nearest (Qred q) == q) as Hn.
  { destruct (Z.eq_dec m (2 ^ 53)) as [->|Hne].
    - rewrite (nearest_exact (Qred q) (2 ^ 52) (e + 1)), Qred_correct;
        [reflexivity|lia|lia|].
      rewrite Qred_correct, Hq, pow2_plus. 
      assert (inject_Z (2 ^ 53) == inject_Z (2 ^ 52) * 2 ^ 1) as -> by reflexivity.
      ring.
    - rewrite (nearest_exact (Qred q) m e), Qred_correct;
        [reflexivity|lia|lia|]. rewrite Qred_correct. exact Hq. }
  unfold round_pos. cbv zeta.
  destruct (Qle_bool (2 ^ 1024) (nearest (Qred q))) eqn:E.
  - apply Qle_bool_iff in E. rewrite Hn in E. lra.
  - eexists. split; [reflexivity|]. rewrite Qred_correct. exact Hn.
Qed.

Lemma binary64_opp (q : Q) : binary64 q → binary64 (- q).
Proof.
  intros (x & Hx & Ex). exists (- x). rewrite round64_opp, Hx. split; [reflexivity|].
  rewrite Ex. reflexivity.
Qed.

Lemma representable_binary64 (q : Q) : representable q → binary64 q.
Proof.
  assert (∀ q m e, (0 < m)%Z → (Z.abs m <= 2 ^ 53)%Z → (-1074 <= e)%Z →
            Qabs q < 2 ^ 1024 → q == inject_Z m * 2 ^ e → binary64 q) as Hpos.
  { intros p m e Hm Hm' He Hlt Hp. pose proof (pow2_pos e) as Hpe.
    assert (0 < inject_Z m) as Hm0.
    { change 0 with (inject_Z 0). rewrite <- Zlt_Qlt. lia. }
    assert (0 < p) as Hp0 by (rewrite Hp; nra).
    rewrite Qabs_pos in Hlt by lra.
    destruct (representable_pos p m e) as (x & Hx & Ex); [lia|assumption..|].
    exists x. split; [|exact Ex].
    destruct (round64_cases p) as [[E _]|[[_ ->]|[E _]]]; [lra|exact Hx|lra]. }
  intros (m & e & Hm & He & Hlt & Hq).
  destruct (Z.lt_trichotomy m 0) as [Hneg|[->|Hp]].
  - assert (q == - - q) as Hqq by lra.
    destruct (binary64_opp (- q)) as (x & Hx & Ex).
    { apply (Hpos (- q) (- m)%Z e); [lia|lia|assumption| |].
      - rewrite Qabs_opp. exact Hlt.
      - rewrite inject_Z_opp, Hq. ring. }
    exists x. split; [|lra]. rewrite <- Hx. apply round64_compat, Hqq.
  - exists 0. split; [|rewrite Hq; ring].
    rewrite (round64_compat q 0); [reflexivity|rewrite Hq; ring].
  - apply (Hpos q m e); assumption || lia.
Qed.

Lemma round_pos_representable (q x : Q) :
  0 < q → round_pos q = Num x → representable x ∧ 0 <= x.
Proof.
  intros Hq. unfold round_pos. cbv zeta.
  destruct (Qle_bool (2 ^ 1024) (nearest q)) eqn:E; [discriminate|].
  intros [= <-]. pose proof (nearest_nonneg q Hq) as H0.
  split; [|rewrite Qred_correct; exact H0].
  assert (¬ 2 ^ 1024 <= nearest q) as Hlt by (rewrite <- Qle_bool_iff; congruence).
  apply Qnot_le_lt in Hlt.
  destruct (mantissa_upper q _ Hq eq_refl) as [Hm0 Hm1].
  exists (rne (q / 2 ^ Z.max (ilog2 q - 52) (-1074))), (Z.max (ilog2 q - 52) (-1074)).
  split; [lia|]. split; [lia|].
  split; [rewrite Qred_correct, Qabs_pos; assumption|].
  rewrite Qred_correct. reflexivity.
Qed.

Lemma representable_opp (q : Q) : representable q → representable (- q).
Proof.
  intros (m & e & Hm & He & Hlt & Hq). exists (- m)%Z, e.
  split; [lia|]. split; [exact He|]. split; [rewrite Qabs_opp; exact Hlt|].
  rewrite inject_Z_opp, Hq. ring.
Qed.

(** The finite results of [round64] are binary64 numbers. *)
Lemma round64_representable (q x : Q) : round64 q = Num x → representable x.
Proof.
  destruct (round64_cases q) as [[E ->]|[[E ->]|[E ->]]].
  - intros [= <-]. exists 0%Z, 0%Z. repeat split; try lia; reflexivity.
  - intros H. apply (round_pos_representable (Qred q)); [|exact H].
    rewrite Qred_correct. exact E.
  - destruct (round_pos (Qred (- q))) as [y|s|] eqn:Ey; try discriminate.
    intros [= <-]. apply representable_opp.
    apply (round_pos_representable (Qred (- q))); [|exact Ey].
    rewrite Qred_correct. lra.
Qed.

Lemma representable_compat (q q' : Q) : q == q' → representable q → representable q'.
Proof.
  intros H (m & e & Hm & He & Hlt & Hq). exists m, e.
  rewrite <- H. repeat split; assumption.
Qed.

(** [binary64] holds of the binary64 numbers and of no other rational:
    [round64] returns its argument exactly on these. *)
Lemma binary64_iff (q : Q) : binary64 q ↔ representable q.
Proof.
  split; [|apply representable_binary64].
  intros (x & Hx & Ex). apply (representable_compat x q Ex).
  apply (round64_representable q x Hx).
Qed.

Lemma round64_idempotent (q x : Q) : round64 q = Num x → binary64 x.
Proof. intros H. apply representable_binary64, (round64_representable q x H). Qed.


Lemma Qabs_diff (a b : Q) : Qabs a <= Qabs b + Qabs (a - b).
Proof.
  assert (a == b + (a - b)) as H by ring. rewrite H at 1. apply Qabs_triangle.
Qed.

Lemma level64_finite (lo hi : Q) (i : Z) (x : Q) :
  (1 <= i <= 8)%Z → level64 lo hi i = Num x →
  ∃ t m d, round64 (hi - lo) = Num t ∧ round64 (inject_Z i * t) = Num m ∧
           round64 (m / 8) = Num d ∧ round64 (lo + d) = Num x.
Proof.
  intros Hi. unfold level64, fmul_int. rewrite of_int_small by lia.
  destruct (positive_int i) as [Ei Li]; [lia|].
  cbn [fsub]. destruct (round64 (hi - lo)) as [t|s|] eqn:Et; cbn [fmul].
  - destruct (round64 (inject_Z i * t)) as [m|s|] eqn:Em;
      rewrite ?fdiv_int_Num, ?fdiv_int_Inf; [|discriminate..].
    destruct (round64 (m / 8)) as [d|s|] eqn:Ed; cbn [fadd]; [|discriminate..].
    intros Hx. exists t, m, d. repeat split; assumption.
  - rewrite Ei, fdiv_int_Inf. discriminate.
  - unfold fdiv_int. rewrite of_int_8. discriminate.
Qed.

(** A finite level is the exact [lo + i * (hi - lo) / 8] up to the error
    of four roundings. *)
Lemma level64_accurate (lo hi : Q) (i : Z) (x : Q) :
  (1 <= i <= 8)%Z → level64 lo hi i = Num x →
  Qabs (x - gann_level lo hi i) <=
    (Qabs lo + Qabs hi) * 2 ^ (-50) + 2 ^ (-1072).
Proof.
  intros Hi Hx.
  destruct (level64_finite lo hi i x Hi Hx) as (t & m & d & Ht & Hm & Hd & Hl).
  apply round64_accurate in Ht, Hm, Hd, Hl.
  assert (2 ^ (-1072) == 8 * 2 ^ (-1075)) as -> by reflexivity.
  pose proof (pow2_pos (-1075)) as Heta. set (eta := 2 ^ (-1075)) in *.
  assert (2 ^ (-53) == 1 # 9007199254740992) as Hu by reflexivity.
  assert (2 ^ (-50) == 1 # 1125899906842624) as Hv by reflexivity.
  rewrite Hu in Ht, Hm, Hd, Hl. rewrite Hv. clear Hu Hv.
  pose proof (Qabs_triangle hi (- lo)) as T1. rewrite Qabs_opp in T1.
  change (hi + - lo) with (hi - lo) in T1.
  pose proof (Qabs_diff t (hi - lo)) as T2.
  assert (Qabs (inject_Z i * t) <= 8 * Qabs t) as T3.
  { rewrite Qabs_Qmult. apply Qmult_le_compat_r; [|apply Qabs_nonneg].
    rewrite Qabs_pos; [|change 0 with (inject_Z 0); rewrite <- Zle_Qle; lia].
    change 8 with (inject_Z 8). rewrite <- Zle_Qle. lia. }
  pose proof (Qabs_diff m (inject_Z i * t)) as T4.
  assert (Qabs (m / 8) == Qabs m * (1 # 8)) as T5.
  { unfold Qdiv. rewrite Qabs_Qmult. reflexivity. }
  pose proof (Qabs_diff d (m / 8)) as T6.
  pose proof (Qabs_triangle lo d) as T7.
  assert (x - gann_level lo hi i ==
          (x - (lo + d)) + (d - m / 8) + (m - inject_Z i * t) * (1 # 8) +
          inject_Z i * (1 # 8) * (t - (hi - lo))) as ->.
  { unfold gann_level. change (inject_Z 8) with 8. field. }
  eapply Qle_trans; [apply Qabs_triangle|].
  eapply Qle_trans; [apply Qplus_le_compat; [apply Qabs_triangle|apply Qle_refl]|].
  eapply Qle_trans;
    [apply Qplus_le_compat;
       [apply Qplus_le_compat; [apply Qabs_triangle|apply Qle_refl]
       |apply Qle_refl]|].
  assert (Qabs (inject_Z i * (1 # 8) * (t - (hi - lo))) <= Qabs (t - (hi - lo)))
    as T8.
  { rewrite Qabs_Qmult. rewrite <- (Qmult_1_l (Qabs (t - _))) at 2.
    apply Qmult_le_compat_r; [|apply Qabs_nonneg].
    assert (0 <= inject_Z i ∧ inject_Z i <= 8) as [H0 H8].
    { split; [change 0 with (inject_Z 0)|change 8 with (inject_Z 8)];
        rewrite <- Zle_Qle; lia. }
    rewrite Qabs_pos; lra. }
  assert (Qabs ((m - inject_Z i * t) * (1 # 8)) ==
          Qabs (m - inject_Z i * t) * (1 # 8)) as T9.
  { rewrite Qabs_Qmult. reflexivity. }
  rewrite T9. rewrite T5 in Hd, T6.
  pose proof (Qabs_nonneg lo). pose proof (Qabs_nonneg hi).
  set (A1 := Qabs (t - (hi - lo))) in *.
  set (A2 := Qabs (m - inject_Z i * t)) in *.
  set (A3 := Qabs (d - m / 8)) in *.
  set (A4 := Qabs (x - (lo + d))) in *.
  set (B0 := Qabs (hi - lo)) in *. set (B1 := Qabs t) in *.
  set (B2 := Qabs (inject_Z i * t)) in *. set (B3 := Qabs m) in *.
  set (B5 := Qabs d) in *. set (B6 := Qabs (lo + d)) in *.
  set (B7 := Qabs (inject_Z i * (1 # 8) * (t - (hi - lo)))) in *.
  set (L := Qabs lo) in *. set (H' := Qabs hi) in *.
  lra.
Qed.

End Rounding.

(** *** The machine's floats agree

    On the machine the eight levels between 20.04 and 100.01, between 0.1
    and 0.3, between 1e16 and 1e16 + 2 and between 100 and 200 are the
    ones [level64] gives. *)
Lemma level64_on_machine :
  map (λ i, of_prim (prim_level (prim_ratio 2004 100) (prim_ratio 10001 100) i))
      [1; 2; 3; 4; 5; 6; 7; 8] =
    map (level64 (price 20.04) (price 100.01)) [1; 2; 3; 4; 5; 6; 7; 8] ∧
  map (λ i, of_prim (prim_level (prim_ratio 1 10) (prim_ratio 3 10) i))
      [1; 2; 3; 4; 5; 6; 7; 8] =
    map (level64 (price 0.1) (price 0.3)) [1; 2; 3; 4; 5; 6; 7; 8] ∧
  map (λ i, of_prim (prim_level (prim_int 10000000000000000)
                                (prim_int 10000000000000002) i))
      [1; 2; 3; 4; 5; 6; 7; 8] =
    map (level64 10000000000000000 10000000000000002)
        [1; 2; 3; 4; 5; 6; 7; 8] ∧
  map (λ i, of_prim (prim_level (prim_int 100) (prim_int 200) i))
      [1; 2; 3; 4; 5; 6; 7; 8] =
    map (level64 100 200) [1; 2; 3; 4; 5; 6; 7; 8].
Proof. repeat split; vm_compute; reflexivity. Qed.

(** Rounding a decimal is the machine's division of its numerator by its
    denominator. *)
Lemma round64_on_machine :
  of_prim (prim_ratio 2004 100) = round64 20.04 ∧
  of_prim (prim_ratio 10001 100) = round64 100.01 ∧
  of_prim (prim_ratio 1 3) = round64 (1 # 3) ∧
  of_prim (PrimFloat.opp (prim_ratio 2 3)) = round64 (- (2 # 3)).
Proof. repeat split; vm_compute; reflexivity. Qed.

(** So do the operations where they overflow, where two floats are
    equally near (the even one is taken) and among the subnormal
    numbers. *)
Lemma arithmetic_on_machine :
  of_prim (PrimFloat.mul (prim_pow2 1 1000) (prim_pow2 1 100)) =
    fmul (Num (2 ^ 1000)) (Num (2 ^ 100)) ∧
  of_prim (PrimFloat.sub (PrimFloat.opp (prim_pow2 1 1023))
                         (prim_pow2 1 1023)) =
    fsub (Num (- 2 ^ 1023)) (Num (2 ^ 1023)) ∧
  of_prim (PrimFloat.add (prim_pow2 9007199254740991 971)
                         (prim_pow2 1 969)) =
    fadd (Num (9007199254740991 * 2 ^ 971)) (Num (2 ^ 969)) ∧
  of_prim (PrimFloat.add (prim_pow2 9007199254740991 971)
                         (prim_pow2 1 970)) =
    fadd (Num (9007199254740991 * 2 ^ 971)) (Num (2 ^ 970)) ∧
  of_prim (PrimFloat.add (prim_int 9007199254740992) (prim_int 1)) =
    fadd (Num 9007199254740992) (Num 1) ∧
  of_prim (PrimFloat.add (prim_int 9007199254740994) (prim_int 1)) =
    fadd (Num 9007199254740994) (Num 1) ∧
  of_prim (PrimFloat.div (prim_pow2 3 (-1074)) (prim_int 2)) =
    fdiv (Num (3 * 2 ^ (-1074))) (Num 2) ∧
  of_prim (PrimFloat.div (prim_pow2 5 (-1074)) (prim_int 2)) =
    fdiv (Num (5 * 2 ^ (-1074))) (Num 2) ∧
  of_prim (PrimFloat.div (prim_int 1) (prim_int 0)) =
    fdiv (Num 1) (Num 0) ∧
  of_prim (PrimFloat.div (prim_int 0) (prim_int 0)) =
    fdiv (Num 0) (Num 0).
Proof. repeat split; vm_compute; reflexivity. Qed.

(** *** The levels [calculate_gann_levels] returns *)

(** When a series has a bar, [calculate_gann_levels] returns the eight
    rounded levels between its least Low and its greatest High. *)
Lemma gann_levels_spec (data : DataFrame) :
  data ≠ [] →
  ∃ lo hi, is_min lo (col_Low data) ∧ is_max hi (col_High data) ∧
    DataFetcher.calculate_gann_levels data =
      Returned (map (level64 lo hi) [1; 2; 3; 4; 5; 6; 7; 8]).
Proof.
  intros Hne.
  destruct (series_min_spec (col_Low data)) as (lo & Hlo & Hmin).
  { destruct data; [congruence|discriminate]. }
  destruct (series_max_spec (col_High data)) as (hi & Hhi & Hmax).
  { destruct data; [congruence|discriminate]. }
  exists lo, hi. split; [exact Hmin|]. split; [exact Hmax|].
  unfold DataFetcher.calculate_gann_levels. rewrite Hlo, Hhi. reflexivity.
Qed.

(** The levels of a series with no bar: eight [nan], no exception. *)
Lemma gann_levels_empty :
  DataFetcher.calculate_gann_levels [] =
    Returned [NaN; NaN; NaN; NaN; NaN; NaN; NaN; NaN].
Proof. vm_compute. reflexivity. Qed.

Lemma level_numbers_range : Forall (λ i, 1 <= i <= 8) level_numbers.
Proof. repeat constructor; lia. Qed.


Lemma levels_defined (lo hi : Q) :
  Forall (λ y, y ≠ NaN) (map (level64 lo hi) [1; 2; 3; 4; 5; 6; 7; 8]).
Proof.
  apply List.Forall_map.
  eapply Forall_impl; [apply level_numbers_range|].
  intros i Hi. apply level64_defined, Hi.
Qed.




Lemma levels_compat (lo lo' hi hi' : Q) (l : list Z) :
  (lo == lo')%Q → (hi == hi')%Q →
  map (level64 lo hi) l = map (level64 lo' hi') l.
Proof.
  intros Hl Hh. apply map_ext. intros i. apply level64_compat; assumption.
Qed.

(** Between 100 and 200 no operation rounds. *)
Lemma span_levels :
  map (level64 100 200) [1; 2; 3; 4; 5; 6; 7; 8] =
    map Num [225 # 2; 125; 275 # 2; 150; 325 # 2; 175; 375 # 2; 200]%Q.
Proof. vm_compute. reflexivity. Qed.

Lemma levels_accurate (lo hi : Q) :
  Forall2 (λ y i, ∀ x, y = Num x →
             (Qabs (x - gann_level lo hi i) <=
                (Qabs lo + Qabs hi) * 2 ^ (-50) + 2 ^ (-1072))%Q)
          (map (level64 lo hi) [1; 2; 3; 4; 5; 6; 7; 8])
          [1; 2; 3; 4; 5; 6; 7; 8].
Proof.
  cbn [map]. repeat constructor; intros x Hx;
    (apply level64_accurate; [lia|exact Hx]).
Qed.

Lemma levels_exact (lo hi : Q) :
  Forall2 (λ y i, exact_level lo hi i →
                  ∃ x, y = Num x ∧ (x == gann_level lo hi i)%Q)
          (map (level64 lo hi) [1; 2; 3; 4; 5; 6; 7; 8])
          [1; 2; 3; 4; 5; 6; 7; 8].
Proof.
  cbn [map]. repeat constructor; intros; apply level64_exact; (assumption || lia).
Qed.










(** ** [detect_patterns] as a whole *)

Lemma Main_detect_patterns_hs (data : DataFrame) :
  Main.detect_patterns data "Head and Shoulders" =
    Returned (map (hs_match data) (hs_hits data)).
Proof.
  unfold Main.detect_patterns. simpl.
  rewrite Main_detect_hs_spec. reflexivity.
Qed.

Lemma Main_detect_patterns_other (data : DataFrame) (k : string) :
  k ≠ "Head and Shoulders" → Main.detect_patterns data k = Returned [].
Proof.
  intros Hk. unfold Main.detect_patterns.
  destruct (String.eqb_spec k "Head and Shoulders"); [congruence|reflexivity].
Qed.

Lemma DataFetcher_detect_patterns_hs (data : DataFrame) :
  DataFetcher.detect_patterns data ["Head and Shoulders"] =
    Returned {["Head and Shoulders" := map (hs_match data) (hs_hits data)]}.
Proof.
  unfold DataFetcher.detect_patterns.
  rewrite for_in_cons, dispatch_head_and_shoulders. reflexivity.
Qed.

Lemma DataFetcher_detect_patterns_raises (data : DataFrame) (ks : list string) :
  Exists other_kind ks →
  raises "AttributeError" (DataFetcher.detect_patterns data ks).
Proof.
  intros He. pose proof (detect_patterns_loop data ks ∅) as H.
  rewrite decide_True in H by assumption. exact H.
Qed.

(** The only exception [detect_patterns] can end with. *)
Lemma DataFetcher_detect_patterns_exn (data : DataFrame) (ks : list string)
    (cls : string) :
  raises cls (DataFetcher.detect_patterns data ks) → cls = "AttributeError".
Proof.
  unfold DataFetcher.detect_patterns.
  pose proof (detect_patterns_loop data ks ∅) as H.
  destruct (decide (Exists other_kind ks)).
  - destruct (for_in ks ∅ (DataFetcher.dispatch data)) as [?|?]; simpl in *;
      [tauto|intros <-; assumption].
  - rewrite H. simpl. tauto.
Qed.

(** A returned dict holds at most the Head and Shoulders key, bound to the
    matches of the scan. *)
Lemma DataFetcher_detect_patterns_returned (data : DataFrame)
    (ks : list string) (d : gmap string (list PatternMatch)) :
  DataFetcher.detect_patterns data ks = Returned d →
  Forall (λ k, ¬ other_kind k) ks ∧
  d = if decide ("Head and Shoulders" ∈ ks)
      then {["Head and Shoulders" := map (hs_match data) (hs_hits data)]}
      else ∅.
Proof.
  unfold DataFetcher.detect_patterns. intros Hd.
  pose proof (detect_patterns_loop data ks ∅) as H. rewrite Hd in H.
  destruct (decide (Exists other_kind ks)) as [?|Hne]; [destruct H|].
  split; [apply not_Exists_Forall; [intros; apply _|assumption]|].
  injection H as ->. destruct (decide _); reflexivity.
Qed.

Lemma DataFetcher_detect_patterns_lookup (data : DataFrame)
    (ks : list string) (d : gmap string (list PatternMatch))
    (k : string) (l : list PatternMatch) :
  DataFetcher.detect_patterns data ks = Returned d → d !! k = Some l →
  k = "Head and Shoulders" ∧ l = map (hs_match data) (hs_hits data).
Proof.
  intros Hd Hl. apply DataFetcher_detect_patterns_returned in Hd as [_ ->].
  destruct (decide _).
  - apply lookup_singleton_Some in Hl as [<- <-]. split; reflexivity.
  - rewrite lookup_empty in Hl. discriminate.
Qed.

(** ** Series of five bars with given Highs *)

Lemma five_Highs (data : DataFrame) (h0 h1 h2 h3 h4 : Q) :
  has_Highs data [h0; h1; h2; h3; h4] →
  len data = 5 ∧ (High_at data 2 == h2)%Q ∧
  hs_hits data =
    if Qltb h0 h1 && Qltb h1 h2 && Qltb h3 h1 && (Qltb h3 h4 && Qltb h4 h2)
    then [2] else [].
Proof.
  unfold has_Highs. intros H.
  destruct data as [|b0 [|b1 [|b2 [|b3 [|b4 [|b5 data]]]]]];
    repeat match goal with
    | H : Forall2 _ _ _ |- _ => inversion H; clear H; subst
    end.
  split; [reflexivity|]. split; [assumption|].
  unfold hs_hits, hs_test, High_at. simpl.
  rewrite (Qltb_compat (High b0) h0 (High b1) h1),
          (Qltb_compat (High b1) h1 (High b2) h2),
          (Qltb_compat (High b3) h3 (High b1) h1),
          (Qltb_compat (High b3) h3 (High b4) h4),
          (Qltb_compat (High b4) h4 (High b2) h2) by assumption.
  reflexivity.
Qed.

(** ** Empty series, empty and unknown requests *)

Lemma Main_detect_patterns_nil (k : string) :
  Main.detect_patterns [] k = Returned [].
Proof.
  destruct (decide (k = "Head and Shoulders")) as [->|Hk].
  - reflexivity.
  - apply Main_detect_patterns_other, Hk.
Qed.

(** Names outside the catalog are skipped by the loop. *)
Lemma for_in_dispatch_skips (data : DataFrame) (ks : list string) :
  ∀ d : gmap string (list PatternMatch),
  for_in ks d (DataFetcher.dispatch data) =
  for_in (filter (λ k, k ∈ available_patterns) ks) d
         (DataFetcher.dispatch data).
Proof.
  induction ks as [|k ks IH]; intros d; [reflexivity|].
  destruct (decide (k ∈ available_patterns)) as [Hk|Hk].
  - rewrite filter_cons_True, !for_in_cons by assumption.
    destruct (DataFetcher.dispatch data d k) as [d'|e]; [|reflexivity].
    rewrite !bind_Returned. apply IH.
  - rewrite filter_cons_False, for_in_cons by assumption.
    rewrite dispatch_unknown, bind_Returned by assumption. apply IH.
Qed.

(** ** The claims *)

(** C1. For a series of at least 5 bars and a bar [i] with
    [2 <= i <= len - 3], both files' Head and Shoulders scans return, and
    at bar [i] the loop records a match exactly when
    [High[i-2] < High[i-1] < High[i]], [High[i-1] > High[i+1]] and
    [High[i+1] < High[i+2] < High[i]]: if the test holds the turn appends
    the match with bar [i]'s timestamp and [High[i]] as anchor price, and
    that match is in the result; if it fails the turn appends nothing, and
    (timestamps being distinct) no match of the result sits at bar [i]. *)
Theorem C1_head_and_shoulders_rule (data : DataFrame) (i : Z) :
  5 <= len data → 2 <= i <= len data - 3 →
  ∃ out,
    Main.detect_head_and_shoulders data = Returned out ∧
    DataFetcher.detect_head_and_shoulders data = Returned out ∧
    (hs_rule data i →
       (∀ acc, Main.hs_body data acc i =
          Returned (acc ++ [MkMatch (time_at data i) "Head and Shoulders"
                                    (High_at data i)])) ∧
       (∀ acc, DataFetcher.hs_body data acc i =
          Returned (acc ++ [MkMatch (time_at data i) "Head and Shoulders"
                                    (High_at data i)])) ∧
       MkMatch (time_at data i) "Head and Shoulders" (High_at data i) ∈ out) ∧
    (¬ hs_rule data i →
       (∀ acc, Main.hs_body data acc i = Returned acc) ∧
       (∀ acc, DataFetcher.hs_body data acc i = Returned acc) ∧
       (NoDup (index data) →
        ∀ m, m ∈ out → anchor_timestamp m ≠ time_at data i)).
Proof.
  intros Hlen Hi. exists (map (hs_match data) (hs_hits data)).
  split; [apply Main_detect_hs_spec|].
  split; [apply DataFetcher_detect_hs_spec|].
  split.
  - intros Hrule. pose proof Hrule as Ht. apply hs_test_rule in Ht.
    repeat split.
    + intros acc. rewrite Main_hs_body_spec, Ht by lia. reflexivity.
    + intros acc. rewrite DataFetcher_hs_body_spec, Ht by lia. reflexivity.
    + apply (list_elem_of_fmap_2 (hs_match data)).
      apply hs_hits_elem. split; [lia|assumption].
  - intros Hrule.
    assert (hs_test data i = false) as Ht.
    { destruct (hs_test data i) eqn:E; [|reflexivity].
      apply hs_test_rule in E. contradiction. }
    repeat split.
    + intros acc. rewrite Main_hs_body_spec, Ht by lia. reflexivity.
    + intros acc. rewrite DataFetcher_hs_body_spec, Ht by lia. reflexivity.
    + intros Hnd m Hm Heq.
      apply list_elem_of_fmap in Hm as (j & -> & Hj).
      apply hs_hits_elem in Hj as [Hj Hrj]. simpl in Heq.
      apply time_at_inj in Heq; [|assumption|lia..].
      subst j. contradiction.
Qed.

Lemma C1_witness :
  5 <= len head_series ∧ 2 <= 2 <= len head_series - 3 ∧
  ∃ out,
    Main.detect_head_and_shoulders head_series = Returned out ∧
    MkMatch 2 "Head and Shoulders" 15 ∈ out.
Proof.
  split; [vm_compute; discriminate|].
  split; [vm_compute; split; discriminate|].
  destruct (C1_head_and_shoulders_rule head_series 2)
    as (out & Hmain & _ & Hyes & _).
  - vm_compute; discriminate.
  - vm_compute; split; discriminate.
  - exists out. split; [exact Hmain|].
    apply Hyes. unfold hs_rule. vm_compute. repeat split; reflexivity.
Defined.

(** C2, as the code has it.  On a series with Highs 10, 12, 15, 13, 11
    detection of Head and Shoulders alone finds no match in either file
    (at bar 2 the test of C1 fails: 12 > 13 and 13 < 11 are false).  A
    series with Highs 10, 12, 15, 11, 13 is one on which it finds exactly
    one match, at bar 2 with anchor price 15. *)
Theorem C2_peak_has_no_match (data : DataFrame) :
  (has_Highs data [10; 12; 15; 13; 11]%Q →
     Main.detect_patterns data "Head and Shoulders" = Returned [] ∧
     DataFetcher.detect_patterns data ["Head and Shoulders"] =
       Returned {["Head and Shoulders" := []]}) ∧
  (has_Highs data [10; 12; 15; 11; 13]%Q →
     ∃ m, anchor_timestamp m = time_at data 2 ∧
          kind m = "Head and Shoulders" ∧
          anchor_price m = High_at data 2 ∧ (anchor_price m == 15)%Q ∧
          Main.detect_patterns data "Head and Shoulders" = Returned [m] ∧
          DataFetcher.detect_patterns data ["Head and Shoulders"] =
            Returned {["Head and Shoulders" := [m]]}).
Proof.
  split; intros H; apply five_Highs in H as (_ & Hp & Hhits).
  - rewrite Main_detect_patterns_hs, DataFetcher_detect_patterns_hs, Hhits.
    split; reflexivity.
  - exists (hs_match data 2).
    rewrite Main_detect_patterns_hs, DataFetcher_detect_patterns_hs, Hhits.
    repeat split; assumption.
Qed.

Lemma C2_witness :
  has_Highs peak_series [10; 12; 15; 13; 11]%Q ∧
  Main.detect_patterns peak_series "Head and Shoulders" = Returned [] ∧
  has_Highs head_series [10; 12; 15; 11; 13]%Q ∧
  Main.detect_patterns head_series "Head and Shoulders" =
    Returned [MkMatch 2 "Head and Shoulders" 15].
Proof.
  assert (has_Highs peak_series [10; 12; 15; 13; 11]%Q) as Hpeak
    by (repeat constructor).
  assert (has_Highs head_series [10; 12; 15; 11; 13]%Q) as Hhead
    by (repeat constructor).
  split; [exact Hpeak|].
  split; [exact (proj1 (proj1 (C2_peak_has_no_match peak_series) Hpeak))|].
  split; [exact Hhead|].
  destruct (proj2 (C2_peak_has_no_match head_series) Hhead)
    as ([t k p] & Ht & Hk & Hp & _ & Hmain & _).
  simpl in Ht, Hk, Hp. rewrite Hmain, Ht, Hk, Hp. reflexivity.
Defined.

(** The claim of C2 fails on the code: on the series with Highs
    10, 12, 15, 13, 11 the result is empty, not a single match. *)
Lemma C2_counterexample :
  has_Highs peak_series [10; 12; 15; 13; 11]%Q ∧
  Main.detect_patterns peak_series "Head and Shoulders" = Returned [] ∧
  DataFetcher.detect_patterns peak_series ["Head and Shoulders"] =
    Returned {["Head and Shoulders" := []]} ∧
  ¬ (∃ m, Main.detect_patterns peak_series "Head and Shoulders" =
            Returned [m]) ∧
  ¬ (∃ m, DataFetcher.detect_patterns peak_series ["Head and Shoulders"] =
            Returned {["Head and Shoulders" := [m]]}).
Proof.
  assert (Main.detect_patterns peak_series "Head and Shoulders" = Returned [])
    as Hmain by reflexivity.
  assert (DataFetcher.detect_patterns peak_series ["Head and Shoulders"] =
            Returned {["Head and Shoulders" := []]}) as Hdf by reflexivity.
  split; [repeat constructor|]. split; [exact Hmain|]. split; [exact Hdf|].
  split; intros [m Hm].
  - rewrite Hmain in Hm. discriminate.
  - rewrite Hdf in Hm. apply Returned_inj in Hm.
    apply (f_equal (λ d : gmap string (list PatternMatch),
                      d !! "Head and Shoulders")) in Hm.
    rewrite !lookup_singleton_eq in Hm. discriminate.
Qed.

(** C3.  A series with Lows 15, 13, 10, 14, 12 has five bars and passes
    the Inverted Head and Shoulders test of the specification at bar 2,
    yet requesting that kind alone brings back no match: [detect_patterns]
    of [src/main.py] returns the empty list, and [detect_patterns] of
    [src/data_fetcher.py], which calls
    [detect_inverted_head_and_shoulders], raises [AttributeError], the
    class defining no such method. *)
Theorem C3_inverted_detector_missing (data : DataFrame) :
  has_Lows data [15; 13; 10; 14; 12]%Q →
  len data = 5 ∧ spec_inverted_rule data 2 ∧
  Main.detect_patterns data "Inverted Head and Shoulders" = Returned [] ∧
  DataFetcher.detect_patterns data ["Inverted Head and Shoulders"] =
    Raised (AttributeError "PatternDetector"
                           "detect_inverted_head_and_shoulders") ∧
  ¬ (∃ m, Main.detect_patterns data "Inverted Head and Shoulders" =
            Returned [m]) ∧
  ¬ (∃ d, DataFetcher.detect_patterns data
            ["Inverted Head and Shoulders"] = Returned d).
Proof.
  unfold has_Lows. intros H.
  destruct data as [|b0 [|b1 [|b2 [|b3 [|b4 [|b5 data]]]]]];
    repeat match goal with
    | H : Forall2 _ _ _ |- _ => inversion H; clear H; subst
    end.
  split; [reflexivity|]. split.
  { unfold spec_inverted_rule, Low_at. simpl. repeat split; lra. }
  split; [reflexivity|]. split; [reflexivity|].
  split; intros [x Hx]; discriminate.
Qed.

Lemma C3_witness :
  has_Lows valley_series [15; 13; 10; 14; 12]%Q ∧
  spec_inverted_rule valley_series 2 ∧
  Main.detect_patterns valley_series "Inverted Head and Shoulders" =
    Returned [] ∧
  raises "AttributeError"
    (DataFetcher.detect_patterns valley_series
                                 ["Inverted Head and Shoulders"]).
Proof.
  assert (has_Lows valley_series [15; 13; 10; 14; 12]%Q) as H
    by (repeat constructor).
  destruct (C3_inverted_detector_missing valley_series H)
    as (_ & Hrule & Hmain & Hdf & _).
  split; [exact H|]. split; [exact Hrule|]. split; [exact Hmain|].
  rewrite Hdf. reflexivity.
Defined.

(** The series of the claim itself, with Lows 15, 13, 10, 12, 14, brings
    back no match either. *)
Lemma trough_series_no_match :
  has_Lows trough_series [15; 13; 10; 12; 14]%Q ∧
  ¬ (∃ m, Main.detect_patterns trough_series "Inverted Head and Shoulders" =
            Returned [m]) ∧
  ¬ (∃ d, DataFetcher.detect_patterns trough_series
            ["Inverted Head and Shoulders"] = Returned d).
Proof.
  split; [repeat constructor|].
  split; intros [x Hx]; vm_compute in Hx; discriminate.
Qed.

(** The test the specification words for Inverted Head and Shoulders
    rejects the series of the claim: 13 < 12 is false. *)
Lemma spec_inverted_rule_rejects_trough (data : DataFrame) :
  has_Lows data [15; 13; 10; 12; 14]%Q → ¬ spec_inverted_rule data 2.
Proof.
  unfold has_Lows. intros H.
  destruct data as [|b0 [|b1 [|b2 [|b3 [|b4 [|b5 data]]]]]];
    repeat match goal with
    | H : Forall2 _ _ _ |- _ => inversion H; clear H; subst
    end.
  unfold spec_inverted_rule, Low_at. simpl. intros (_ & _ & Hlt & _).
  lra.
Qed.

(** C4, as the code has it.  For a series with at least one bar
    [calculate_gann_levels] returns exactly 8 levels, none of them [nan];
    the [i]-th is [min_Low + i * (max_High - min_Low) / 8] evaluated in
    binary64 arithmetic, each of its four operations rounded to the
    nearest float.  A finite level is within
    [(|min_Low| + |max_High|) * 2^-50 + 2^-1072] of the exact value, and is
    the exact value when no operation rounds: when the minimum Low is 100
    and the maximum High is 200 the levels are 112.5, 125, 137.5, 150,
    162.5, 175, 187.5 and 200. *)
Theorem C4_gann_levels (data : DataFrame) :
  data ≠ [] →
  ∃ lo hi levels,
    is_min lo (col_Low data) ∧ is_max hi (col_High data) ∧
    DataFetcher.calculate_gann_levels data = Returned levels ∧
    length levels = 8%nat ∧
    levels = map (level64 lo hi) [1; 2; 3; 4; 5; 6; 7; 8] ∧
    Forall (λ y, y ≠ NaN) levels ∧
    Forall2 (λ y i, ∀ x, y = Num x →
               (Qabs (x - gann_level lo hi i) <=
                  (Qabs lo + Qabs hi) * 2 ^ (-50) + 2 ^ (-1072))%Q)
            levels [1; 2; 3; 4; 5; 6; 7; 8] ∧
    Forall2 (λ y i, exact_level lo hi i →
                    ∃ x, y = Num x ∧ (x == gann_level lo hi i)%Q)
            levels [1; 2; 3; 4; 5; 6; 7; 8] ∧
    ((lo == 100)%Q → (hi == 200)%Q →
     ∃ xs, levels = map Num xs ∧
           Forall2 Qeq xs
             [112.5; 125; 137.5; 150; 162.5; 175; 187.5; 200]%Q).
Proof.
  intros Hne. destruct (gann_levels_spec data Hne) as (lo & hi & Hlo & Hhi & H).
  exists lo, hi, (map (level64 lo hi) [1; 2; 3; 4; 5; 6; 7; 8]).
  split; [assumption|]. split; [assumption|]. split; [exact H|].
  split; [reflexivity|]. split; [reflexivity|].
  split; [apply levels_defined|]. split; [apply levels_accurate|].
  split; [apply levels_exact|].
  intros Hl Hh. rewrite (levels_compat lo 100 hi 200 _ Hl Hh), span_levels.
  eexists. split; [reflexivity|].
  repeat constructor; reflexivity.
Qed.

Lemma C4_witness :
  span_series ≠ [] ∧
  ∃ levels,
    DataFetcher.calculate_gann_levels span_series = Returned (map Num levels) ∧
    Forall2 Qeq levels [112.5; 125; 137.5; 150; 162.5; 175; 187.5; 200]%Q.
Proof.
  assert (span_series ≠ []) as Hne by discriminate.
  split; [exact Hne|].
  destruct (C4_gann_levels span_series Hne)
    as (lo & hi & levels & [Hlo _] & [Hhi _] & Hret & _ & _ & _ & _ & _ & Hval).
  destruct Hlo as [<-|[]]. destruct Hhi as [<-|[]].
  destruct Hval as (xs & -> & Hxs); [reflexivity..|].
  exists xs. split; [exact Hret|exact Hxs].
Defined.

(** The claim of C4 fails on the code: for one bar from 20.04 to 100.01
    the eighth level is not [min + 8 * (max - min) / 8], which is the
    maximum High, but the float below it (100.00999999999999). *)
Lemma C4_counterexample :
  uneven_series ≠ [] ∧
  is_min (price 20.04) (col_Low uneven_series) ∧
  is_max (price 100.01) (col_High uneven_series) ∧
  ∃ levels top,
    DataFetcher.calculate_gann_levels uneven_series =
      Returned (map Num levels) ∧
    length levels = 8%nat ∧
    last levels = Some top ∧
    ¬ (top == gann_level (price 20.04) (price 100.01) 8)%Q ∧
    (top < price 100.01)%Q ∧
    (top == 439848631575511 # 4398046511104)%Q.
Proof.
  split; [discriminate|].
  split; [split; [left; reflexivity|repeat constructor; apply Qle_refl]|].
  split; [split; [left; reflexivity|repeat constructor; apply Qle_refl]|].
  exists (map value (gann_list uneven_series)),
         (value (level64 (price 20.04) (price 100.01) 8)).
  split; [vm_compute; reflexivity|]. split; [reflexivity|].
  split; [vm_compute; reflexivity|].
  split; [intros H; vm_compute in H; discriminate|].
  split; vm_compute; reflexivity.
Qed.

(** C5, as the code has it.  A series with zero bars makes neither
    operation fail with [EmptySeries]: [detect_patterns] of [src/main.py]
    returns the empty list for every name, [detect_patterns] of
    [src/data_fetcher.py] returns the dict binding Head and Shoulders to
    the empty list when that kind alone is requested and never ends with
    [EmptySeries], and [calculate_gann_levels] returns eight [nan]. *)
Theorem C5_empty_series_returns :
  (∀ k, Main.detect_patterns [] k = Returned []) ∧
  DataFetcher.detect_patterns [] ["Head and Shoulders"] =
    Returned {["Head and Shoulders" := []]} ∧
  (∀ ks, ¬ raises "EmptySeries" (DataFetcher.detect_patterns [] ks)) ∧
  DataFetcher.calculate_gann_levels [] =
    Returned [NaN; NaN; NaN; NaN; NaN; NaN; NaN; NaN].
Proof.
  split; [exact Main_detect_patterns_nil|].
  split; [reflexivity|].
  split; [|exact gann_levels_empty].
  intros ks H. apply DataFetcher_detect_patterns_exn in H. discriminate.
Qed.

(** The claim of C5 fails on the code: on the empty series all three calls
    return a value. *)
Lemma C5_counterexample :
  len [] = 0 ∧
  ¬ raises "EmptySeries" (Main.detect_patterns [] "Head and Shoulders") ∧
  ¬ raises "EmptySeries"
      (DataFetcher.detect_patterns [] ["Head and Shoulders"]) ∧
  ¬ raises "EmptySeries" (DataFetcher.calculate_gann_levels []).
Proof. repeat split; intros H; exact H. Qed.

(** C6, as the code has it.  [detect_patterns] never fails with
    [InvalidRequest].  In [src/data_fetcher.py] an empty request returns the
    empty dict and names outside the catalog are skipped (the call behaves
    as on the request without them, so a request of unknown names only
    returns the empty dict); in [src/main.py] a name outside the catalog
    returns the empty list. *)
Theorem C6_no_invalid_request (data : DataFrame) (ks : list string)
    (k : string) :
  ¬ raises "InvalidRequest" (DataFetcher.detect_patterns data ks) ∧
  ¬ raises "InvalidRequest" (Main.detect_patterns data k) ∧
  DataFetcher.detect_patterns data [] = Returned ∅ ∧
  DataFetcher.detect_patterns data ks =
    DataFetcher.detect_patterns data
      (filter (λ k, k ∈ available_patterns) ks) ∧
  (Forall (λ k, k ∉ available_patterns) ks →
     DataFetcher.detect_patterns data ks = Returned ∅) ∧
  (k ∉ available_patterns → Main.detect_patterns data k = Returned []).
Proof.
  split.
  { intros H. apply DataFetcher_detect_patterns_exn in H. discriminate. }
  split.
  { destruct (decide (k = "Head and Shoulders")) as [->|Hk].
    - rewrite Main_detect_patterns_hs. simpl. tauto.
    - rewrite Main_detect_patterns_other by assumption. simpl. tauto. }
  split; [reflexivity|].
  split; [apply for_in_dispatch_skips|].
  split.
  - intros Hall. unfold DataFetcher.detect_patterns.
    rewrite for_in_dispatch_skips.
    replace (filter (λ k, k ∈ available_patterns) ks) with (@nil string);
      [reflexivity|].
    symmetry. induction Hall as [|x l Hx Hl IH]; [reflexivity|].
    rewrite filter_cons_False by assumption. exact IH.
  - intros Hk. apply Main_detect_patterns_other.
    intros ->. apply Hk, list_elem_of_In. simpl. tauto.
Qed.

Lemma C6_witness :
  Forall (λ k, k ∉ available_patterns) ["Cup and Handle"; "Flag"] ∧
  DataFetcher.detect_patterns head_series ["Cup and Handle"; "Flag"] =
    Returned ∅ ∧
  Main.detect_patterns head_series "Flag" = Returned [].
Proof.
  assert (∀ k, k = "Cup and Handle" ∨ k = "Flag" → k ∉ available_patterns)
    as Hout.
  { intros k Hk Hin. apply list_elem_of_In in Hin. simpl in Hin.
    destruct Hk as [-> | ->];
      repeat (destruct Hin as [Hin|Hin]; [discriminate|]); exact Hin. }
  assert (Forall (λ k, k ∉ available_patterns) ["Cup and Handle"; "Flag"])
    as Hall by (repeat constructor; apply Hout; auto).
  destruct (C6_no_invalid_request head_series ["Cup and Handle"; "Flag"]
              "Flag") as (_ & _ & _ & _ & Hdf & Hmain).
  split; [exact Hall|]. split; [exact (Hdf Hall)|].
  apply Hmain, Hout. right; reflexivity.
Defined.

(** The claim of C6 fails on the code: an empty request and a request for
    a name outside the catalog both return. *)
Lemma C6_counterexample :
  DataFetcher.detect_patterns peak_series [] = Returned ∅ ∧
  ("Cup and Handle" ∉ available_patterns) ∧
  DataFetcher.detect_patterns peak_series ["Cup and Handle"] = Returned ∅ ∧
  Main.detect_patterns peak_series "Cup and Handle" = Returned [] ∧
  ¬ raises "InvalidRequest" (DataFetcher.detect_patterns peak_series []) ∧
  ¬ raises "InvalidRequest"
      (DataFetcher.detect_patterns peak_series ["Cup and Handle"]) ∧
  ¬ raises "InvalidRequest"
      (Main.detect_patterns peak_series "Cup and Handle").
Proof.
  split; [reflexivity|].
  split.
  { intros H. apply list_elem_of_In in H. simpl in H.
    repeat (destruct H as [H|H]; [discriminate|]). exact H. }
  split; [reflexivity|]. split; [reflexivity|].
  repeat split; intros H; exact H.
Qed.




(** C8. Whatever window size ([lookback + lookahead + 1]) is assigned to
    the kinds, 5 being that of Head and Shoulders, detection of a catalog
    kind on a series with fewer bars than its window yields no match:
    [src/main.py] returns the empty list; in [src/data_fetcher.py] the Head
    and Shoulders scan returns the empty list, a request for another kind
    raises [AttributeError], and any dict that is returned binds the kind
    to nothing but the empty list. *)
Theorem C8_short_series_no_match (window : string → Z) (data : DataFrame)
    (k : string) :
  window "Head and Shoulders" = 2 + 2 + 1 →
  k ∈ available_patterns →
  len data < window k →
  Main.detect_patterns data k = Returned [] ∧
  (k = "Head and Shoulders" →
     Main.detect_head_and_shoulders data = Returned [] ∧
     DataFetcher.detect_head_and_shoulders data = Returned [] ∧
     DataFetcher.detect_patterns data [k] = Returned {[k := []]}) ∧
  (k ≠ "Head and Shoulders" →
     raises "AttributeError" (DataFetcher.detect_patterns data [k])) ∧
  (∀ ks d l, DataFetcher.detect_patterns data ks = Returned d →
             d !! k = Some l → l = []).
Proof.
  intros Hw Hk Hlen.
  assert (k = "Head and Shoulders" → hs_hits data = []) as Hshort.
  { intros ->. apply hs_hits_short. lia. }
  split; [|split; [|split]].
  - destruct (decide (k = "Head and Shoulders")) as [Heq|Hne].
    + rewrite Heq at 1. rewrite Main_detect_patterns_hs, Hshort by assumption.
      reflexivity.
    + apply Main_detect_patterns_other, Hne.
  - intros Heq. specialize (Hshort Heq). subst k.
    rewrite Main_detect_hs_spec, DataFetcher_detect_hs_spec,
      DataFetcher_detect_patterns_hs, Hshort.
    repeat split; reflexivity.
  - intros Hne. apply DataFetcher_detect_patterns_raises.
    left. split; assumption.
  - intros ks d l Hd Hl.
    destruct (DataFetcher_detect_patterns_lookup _ _ _ _ _ Hd Hl) as [Heq ->].
    rewrite Hshort by assumption. reflexivity.
Qed.

Lemma C8_witness :
  len (take 4 peak_series) < 5 ∧
  Main.detect_patterns (take 4 peak_series) "Head and Shoulders" =
    Returned [] ∧
  DataFetcher.detect_patterns (take 4 peak_series) ["Head and Shoulders"] =
    Returned {["Head and Shoulders" := []]}.
Proof.
  split; [reflexivity|].
  destruct (C8_short_series_no_match (λ _, 5) (take 4 peak_series)
              "Head and Shoulders") as (Hmain & Hhs & _).
  - reflexivity.
  - left.
  - reflexivity.
  - split; [exact Hmain|]. apply Hhs. reflexivity.
Defined.

(** C9. On a series with strictly increasing timestamps the match list
    returned for a kind is in non-decreasing order of anchor timestamp and
    holds no two matches with the same anchor timestamp: so for the list
    [src/main.py] returns for any name, for every list bound in a dict
    [src/data_fetcher.py] returns, and for the list it returns for Head and
    Shoulders. *)
Theorem C9_matches_chronological (data : DataFrame) (k : string) :
  increasing_timestamps data →
  (∃ l, Main.detect_patterns data k = Returned l ∧ chronological l) ∧
  (∀ ks d l, DataFetcher.detect_patterns data ks = Returned d →
             d !! k = Some l → chronological l) ∧
  (∃ l, DataFetcher.detect_patterns data ["Head and Shoulders"] =
          Returned {["Head and Shoulders" := l]} ∧ chronological l).
Proof.
  intros Hinc.
  assert (chronological (map (hs_match data) (hs_hits data))) as Hchr.
  { pose proof (hs_matches_sorted data Hinc) as Hs.
    split; [apply StronglySorted_lt_le|apply StronglySorted_lt_NoDup];
      exact Hs. }
  assert (chronological []) as Hnil by (split; constructor).
  split; [|split].
  - destruct (decide (k = "Head and Shoulders")) as [->|Hne].
    + eexists. split; [apply Main_detect_patterns_hs|exact Hchr].
    + exists []. split; [apply Main_detect_patterns_other, Hne|exact Hnil].
  - intros ks d l Hd Hl.
    destruct (DataFetcher_detect_patterns_lookup _ _ _ _ _ Hd Hl) as [_ ->].
    exact Hchr.
  - eexists. split; [apply DataFetcher_detect_patterns_hs|exact Hchr].
Qed.

Lemma C9_witness :
  increasing_timestamps head_series ∧
  ∃ l, Main.detect_patterns head_series "Head and Shoulders" = Returned l ∧
       chronological l.
Proof.
  assert (increasing_timestamps head_series) as Hinc.
  { unfold increasing_timestamps. simpl. repeat constructor. }
  split; [exact Hinc|].
  exact (proj1 (C9_matches_chronological head_series "Head and Shoulders"
                  Hinc)).
Defined.

(** C10. For each of the 10 catalog kinds other than Head and Shoulders
    (Inverted Head and Shoulders among them), on every series:
    [detect_patterns] of [src/data_fetcher.py] looks up a detection method
    the class does not have and raises [AttributeError], for that kind
    alone and for any request that holds it; [detect_patterns] of
    [src/main.py] returns the empty list. *)
Theorem C10_other_kinds_undetected (data : DataFrame) (k : string) :
  k ∈ available_patterns → k ≠ "Head and Shoulders" →
  (∃ attr, DataFetcher.detect_patterns data [k] =
             Raised (AttributeError "PatternDetector" attr) ∧
           attr ≠ "detect_head_and_shoulders" ∧
           DataFetcher.getattr attr =
             Raised (AttributeError "PatternDetector" attr)) ∧
  (∀ ks, k ∈ ks → raises "AttributeError" (DataFetcher.detect_patterns data ks)) ∧
  Main.detect_patterns data k = Returned [] ∧
  length (filter (λ k, k ≠ "Head and Shoulders") available_patterns) = 10%nat.
Proof.
  intros Hk Hne. split; [|split; [|split]].
  - apply list_elem_of_In in Hk. simpl in Hk.
    repeat (destruct Hk as [<-|Hk];
            [first [congruence
                   |eexists; split;
                    [reflexivity|split; [discriminate|reflexivity]]]|]).
    destruct Hk.
  - intros ks Hin. apply DataFetcher_detect_patterns_raises.
    apply Exists_exists. exists k. split; [assumption|split; assumption].
  - apply Main_detect_patterns_other, Hne.
  - reflexivity.
Qed.

Lemma C10_witness :
  ("Doji" ∈ available_patterns) ∧ "Doji" ≠ "Head and Shoulders" ∧
  raises "AttributeError" (DataFetcher.detect_patterns head_series ["Doji"]) ∧
  Main.detect_patterns head_series "Doji" = Returned [].
Proof.
  assert ("Doji" ∈ available_patterns) as Hin
    by (apply list_elem_of_In; simpl; tauto).
  assert ("Doji" ≠ "Head and Shoulders") as Hne by discriminate.
  destruct (C10_other_kinds_undetected head_series "Doji" Hin Hne)
    as (_ & Hall & Hmain & _).
  split; [exact Hin|]. split; [exact Hne|].
  split; [apply Hall; left|exact Hmain].
Defined.

(** ** Further properties of the Head and Shoulders scan *)

Lemma hs_rule_apart (data : DataFrame) (i j : Z) :
  hs_rule data i → hs_rule data j → i < j → i + 3 <= j.
Proof.
  intros Hi Hj Hij.
  assert (j = i + 1 ∨ j = i + 2 ∨ i + 3 <= j) as [->|[->|?]] by lia;
    [exfalso..|assumption]; unfold hs_rule in *.
  - replace (i + 1 - 2) with (i - 1) in Hj by lia.
    replace (i + 1 - 1) with i in Hj by lia. lra.
  - replace (i + 2 - 2) with i in Hj by lia.
    replace (i + 2 - 1) with (i + 1) in Hj by lia. lra.
Qed.

Lemma StronglySorted_filter_pairs {A} (R R' : relation A) (p : A → bool)
    (l : list A) :
  StronglySorted R l →
  (∀ x y, p x = true → p y = true → R x y → R' x y) →
  StronglySorted R' (List.filter p l).
Proof.
  intros Hs Hp. induction Hs as [|a l Hs IH Ha]; simpl; [constructor|].
  destruct (p a) eqn:Hpa; [|assumption]. constructor; [assumption|].
  rewrite Forall_forall in Ha. rewrite Forall_forall. intros b Hb.
  apply list_elem_of_In, filter_In in Hb as [Hb Hpb].
  apply Hp; [assumption..|]. apply Ha, list_elem_of_In, Hb.
Qed.

Lemma hs_hits_apart (data : DataFrame) :
  StronglySorted (λ i j, i + 3 <= j) (hs_hits data).
Proof.
  unfold hs_hits.
  apply (StronglySorted_filter_pairs Z.lt); [apply StronglySorted_seqZ|].
  intros i j Hi Hj Hij. apply hs_test_rule in Hi. apply hs_test_rule in Hj.
  eapply hs_rule_apart; eassumption.
Qed.

Lemma apart_count (l : list Z) (lo hi : Z) :
  StronglySorted (λ i j, i + 3 <= j) l →
  Forall (λ i, lo <= i <= hi) l → l ≠ [] →
  3 * Z.of_nat (length l) <= hi - lo + 3.
Proof.
  intros Hs. revert lo. induction Hs as [|a l Hs IH Ha]; intros lo Hb Hne.
  - congruence.
  - clear Hne. apply Forall_cons in Hb as [Hlo Hb]. destruct l as [|b l].
    + simpl. lia.
    + assert (3 * Z.of_nat (length (b :: l)) <= hi - (a + 3) + 3) as Hrec.
      { apply IH; [|discriminate].
        rewrite Forall_forall in Hb, Ha. rewrite Forall_forall.
        intros x Hx. specialize (Hb x Hx). specialize (Ha x Hx). lia. }
      change (length (a :: b :: l)) with (S (length (b :: l))). lia.
Qed.

Lemma detect_hs_either (data : DataFrame) (out : list PatternMatch) :
  Main.detect_head_and_shoulders data = Returned out ∨
  DataFetcher.detect_head_and_shoulders data = Returned out →
  out = map (hs_match data) (hs_hits data).
Proof.
  rewrite Main_detect_hs_spec, DataFetcher_detect_hs_spec.
  intros [H|H]; apply Returned_inj in H; congruence.
Qed.

(** X1. Every match either file's scan returns sits at a bar [i] with two
    bars on each side, carries that bar's timestamp and High, and that High
    is strictly above the Highs of the four other bars of the window. *)
Theorem hs_anchor_tops_window (data : DataFrame) (out : list PatternMatch)
    (m : PatternMatch) :
  Main.detect_head_and_shoulders data = Returned out ∨
  DataFetcher.detect_head_and_shoulders data = Returned out →
  m ∈ out →
  ∃ i, 2 <= i <= len data - 3 ∧
       m = MkMatch (time_at data i) "Head and Shoulders" (High_at data i) ∧
       ∀ j, i - 2 <= j <= i + 2 → j ≠ i →
            (High_at data j < High_at data i)%Q.
Proof.
  intros Hout Hm. apply detect_hs_either in Hout. subst out.
  apply list_elem_of_fmap in Hm as (i & -> & Hi).
  apply hs_hits_elem in Hi as [Hi Hrule].
  exists i. split; [lia|]. split; [reflexivity|].
  intros j Hj Hne. unfold hs_rule in Hrule.
  assert (j = i - 2 ∨ j = i - 1 ∨ j = i + 1 ∨ j = i + 2)
    as [->|[->|[->| ->]]] by lia; lra.
Qed.

Lemma hs_anchor_tops_window_witness :
  ∃ i, 2 <= i <= len head_series - 3 ∧
       MkMatch 2 "Head and Shoulders" 15 =
         MkMatch (time_at head_series i) "Head and Shoulders"
                 (High_at head_series i) ∧
       ∀ j, i - 2 <= j <= i + 2 → j ≠ i →
            (High_at head_series j < High_at head_series i)%Q.
Proof.
  apply (hs_anchor_tops_window head_series
           [MkMatch 2 "Head and Shoulders" 15]).
  - left. reflexivity.
  - left.
Defined.

(** X2. The matches of a scan sit at bars that are at least three apart
    (and have two bars on each side), so a series of [n] bars yields at
    most [(n - 2) / 3] matches. *)
Theorem hs_matches_sparse (data : DataFrame) :
  ∃ out bars,
    Main.detect_head_and_shoulders data = Returned out ∧
    DataFetcher.detect_head_and_shoulders data = Returned out ∧
    out = map (λ i, MkMatch (time_at data i) "Head and Shoulders"
                            (High_at data i)) bars ∧
    Forall (λ i, 2 <= i <= len data - 3) bars ∧
    StronglySorted (λ i j, i + 3 <= j) bars ∧
    3 * Z.of_nat (length out) <= Z.max 0 (len data - 2).
Proof.
  exists (map (hs_match data) (hs_hits data)), (hs_hits data).
  assert (Forall (λ i, 2 <= i <= len data - 3) (hs_hits data)) as Hin.
  { rewrite Forall_forall. intros i Hi.
    apply (proj1 (hs_hits_elem data i)) in Hi. lia. }
  split; [apply Main_detect_hs_spec|].
  split; [apply DataFetcher_detect_hs_spec|].
  split; [reflexivity|]. split; [exact Hin|].
  split; [apply hs_hits_apart|].
  rewrite length_map. destruct (hs_hits data) as [|a l] eqn:E; [simpl; lia|].
  rewrite <- E in *.
  assert (3 * Z.of_nat (length (hs_hits data)) <= (len data - 3) - 2 + 3).
  { apply apart_count; [apply hs_hits_apart|exact Hin|rewrite E; discriminate]. }
  lia.
Qed.

Lemma High_at_app (data more : DataFrame) (i : Z) :
  0 <= i < len data → High_at (data ++ more) i = High_at data i.
Proof.
  intros Hi. unfold High_at, col_High, len in *.
  rewrite map_app, lookup_app_l by (rewrite length_map; lia). reflexivity.
Qed.

Lemma time_at_app (data more : DataFrame) (i : Z) :
  0 <= i < len data → time_at (data ++ more) i = time_at data i.
Proof.
  intros Hi. unfold time_at, index, len in *.
  rewrite map_app, lookup_app_l by (rewrite length_map; lia). reflexivity.
Qed.

Lemma hs_hits_app (data more : DataFrame) :
  ∃ later,
    hs_hits (data ++ more) = hs_hits data ++ later ∧
    map (hs_match (data ++ more)) (hs_hits data) =
      map (hs_match data) (hs_hits data).
Proof.
  exists (List.filter (hs_test (data ++ more))
            (py_range (Z.max 2 (len data - 2)) (len (data ++ more) - 2))).
  assert (len (data ++ more) = len data + len more) as Hlen.
  { unfold len. rewrite length_app. lia. }
  assert (0 <= len more) as Hmore by (unfold len; lia).
  split.
  - unfold hs_hits.
    assert (py_range 2 (len (data ++ more) - 2) =
            py_range 2 (len data - 2) ++
            py_range (Z.max 2 (len data - 2)) (len (data ++ more) - 2)) as ->.
    { destruct (Z.le_gt_cases (len data - 2) 2) as [Hle|Hgt].
      - rewrite (py_range_empty 2 (len data - 2)) by lia.
        rewrite Z.max_l by lia. reflexivity.
      - rewrite Z.max_r by lia. unfold py_range.
        replace (len (data ++ more) - 2 - 2)
          with ((len data - 2 - 2) + len more) by lia.
        rewrite seqZ_app by lia. do 3 f_equal; lia. }
    rewrite List.filter_app. f_equal. apply List.filter_ext_in. intros i Hi.
    apply list_elem_of_In, py_range_elem in Hi.
    unfold hs_test. rewrite !High_at_app by lia. reflexivity.
  - apply List.map_ext_in. intros i Hi.
    apply list_elem_of_In, hs_hits_elem in Hi as [Hi _].
    unfold hs_match. rewrite High_at_app, time_at_app by lia. reflexivity.
Qed.

(** X3. Appending bars to a series never changes the matches already
    found: the result on the longer series starts with the result on the
    shorter one. *)
Theorem hs_scan_prefix_stable (data more : DataFrame) :
  ∃ out later,
    Main.detect_head_and_shoulders data = Returned out ∧
    Main.detect_head_and_shoulders (data ++ more) = Returned (out ++ later) ∧
    DataFetcher.detect_head_and_shoulders data = Returned out ∧
    DataFetcher.detect_head_and_shoulders (data ++ more) =
      Returned (out ++ later).
Proof.
  destruct (hs_hits_app data more) as (later & Hhits & Hsame).
  exists (map (hs_match data) (hs_hits data)),
         (map (hs_match (data ++ more)) later).
  assert (map (hs_match (data ++ more)) (hs_hits (data ++ more)) =
          map (hs_match data) (hs_hits data) ++
          map (hs_match (data ++ more)) later) as Hlong
    by (rewrite Hhits, map_app, Hsame; reflexivity).
  split; [apply Main_detect_hs_spec|].
  split; [rewrite <- Hlong; apply Main_detect_hs_spec|].
  split; [apply DataFetcher_detect_hs_spec|].
  rewrite <- Hlong. apply DataFetcher_detect_hs_spec.
Qed.

(** X4. When [detect_patterns] of [src/data_fetcher.py] returns, the keys of
    the dict are exactly the requested names that are catalog names, the
    request held no catalog name but Head and Shoulders, and the list under
    a key is the one [detect_patterns] of [src/main.py] returns for it. *)
Theorem detect_patterns_keys (data : DataFrame) (ks : list string)
    (d : gmap string (list PatternMatch)) :
  DataFetcher.detect_patterns data ks = Returned d →
  (∀ k, is_Some (d !! k) ↔ k ∈ ks ∧ k ∈ available_patterns) ∧
  (∀ k, k ∈ ks → k ∈ available_patterns → k = "Head and Shoulders") ∧
  (∀ k l, d !! k = Some l → Main.detect_patterns data k = Returned l).
Proof.
  intros Hd.
  destruct (DataFetcher_detect_patterns_returned _ _ _ Hd) as [Hall Heq].
  rewrite Forall_forall in Hall.
  assert (∀ k, k ∈ ks → k ∈ available_patterns → k = "Head and Shoulders")
    as Hhs.
  { intros k Hk Hin. destruct (decide (k = "Head and Shoulders")); [done|].
    destruct (Hall k Hk). split; assumption. }
  split; [|split; [exact Hhs|]].
  - intros k. subst d. destruct (decide ("Head and Shoulders" ∈ ks)) as [Hin|Hnin].
    + rewrite lookup_singleton_is_Some. split.
      * intros <-. split; [assumption|]. apply list_elem_of_In. simpl. tauto.
      * intros [Hk Hcat]. symmetry. apply Hhs; assumption.
    + rewrite lookup_empty. split; [intros [? ?]; discriminate|].
      intros [Hk Hcat]. rewrite (Hhs k Hk Hcat) in Hk. contradiction.
  - intros k l Hl.
    destruct (DataFetcher_detect_patterns_lookup _ _ _ _ _ Hd Hl) as [-> ->].
    apply Main_detect_patterns_hs.
Qed.

Lemma detect_patterns_keys_witness :
  DataFetcher.detect_patterns head_series ["Flag"; "Head and Shoulders"] =
    Returned {["Head and Shoulders" := [MkMatch 2 "Head and Shoulders" 15]]} ∧
  Main.detect_patterns head_series "Head and Shoulders" =
    Returned [MkMatch 2 "Head and Shoulders" 15].
Proof.
  assert (DataFetcher.detect_patterns head_series
            ["Flag"; "Head and Shoulders"] =
          Returned {["Head and Shoulders" :=
                       [MkMatch 2 "Head and Shoulders" 15]]}) as Hrun
    by reflexivity.
  split; [exact Hrun|].
  apply (proj2 (proj2 (detect_patterns_keys head_series
                         ["Flag"; "Head and Shoulders"] _ Hrun))).
  apply lookup_singleton_eq.
Defined.

(** ** The ticker field and the selection of patterns *)

Lemma chars_rev_app (s1 s2 : string) :
  chars (String.rev_app s1 s2) = rev (chars s1) ++ chars s2.
Proof.
  revert s2. induction s1 as [|c s1 IH]; intros s2; simpl; [reflexivity|].
  rewrite IH. simpl. rewrite <- app_assoc. reflexivity.
Qed.

Lemma chars_rev (s : string) : chars (String.rev s) = rev (chars s).
Proof. unfold String.rev. rewrite chars_rev_app, app_nil_r. reflexivity. Qed.

Lemma chars_nil (s : string) : chars s = [] ↔ s = "".
Proof. destruct s; simpl; split; congruence. Qed.

Lemma lstrip_chars (s : string) :
  ∃ pre, chars s = pre ++ chars (lstrip s) ∧
         Forall (λ c, py_isspace c = true) pre.
Proof.
  induction s as [|c s (pre & Hs & Hpre)]; simpl.
  - exists []. split; [reflexivity|constructor].
  - destruct (py_isspace c) eqn:Hc.
    + exists (c :: pre). split; [simpl; rewrite Hs; reflexivity|].
      constructor; assumption.
    + exists []. split; [reflexivity|constructor].
Qed.

Lemma lstrip_empty (s : string) :
  lstrip s = "" ↔ Forall (λ c, py_isspace c = true) (chars s).
Proof.
  induction s as [|c s IH]; simpl.
  - split; [constructor|reflexivity].
  - destruct (py_isspace c) eqn:Hc.
    + rewrite IH. split; [constructor; assumption|].
      intros H. apply Forall_cons in H as [_ H]. exact H.
    + split; [discriminate|]. intros H. apply Forall_cons in H as [H _].
      congruence.
Qed.

Lemma lstrip_idle (s : string) :
  Forall (λ c, py_isspace c = true) (chars (lstrip s)) → lstrip s = "".
Proof.
  induction s as [|c s IH]; simpl; [reflexivity|].
  destruct (py_isspace c) eqn:Hc; [exact IH|].
  intros H. apply Forall_cons in H as [H _]. congruence.
Qed.

Lemma rstrip_chars (s : string) :
  ∃ post, chars s = chars (rstrip s) ++ post ∧
          Forall (λ c, py_isspace c = true) post.
Proof.
  destruct (lstrip_chars (String.rev s)) as (pre & Hs & Hpre).
  exists (rev pre). split; [|apply Forall_rev; exact Hpre].
  unfold rstrip. rewrite chars_rev, <- rev_app_distr, <- Hs.
  rewrite chars_rev, rev_involutive. reflexivity.
Qed.

Lemma strip_chars (P : ascii → Prop) (s : string) :
  (∀ c, py_isspace c = true → P c) →
  Forall P (chars (strip s)) ↔ Forall P (chars s).
Proof.
  intros HP. unfold strip.
  destruct (lstrip_chars s) as (pre & Hs & Hpre).
  destruct (rstrip_chars (lstrip s)) as (post & Ht & Hpost).
  rewrite Hs, Ht, !Forall_app.
  assert (Forall P pre) by (eapply Forall_impl; [exact Hpre|exact HP]).
  assert (Forall P post) by (eapply Forall_impl; [exact Hpost|exact HP]).
  tauto.
Qed.

Lemma strip_empty (s : string) :
  strip s = "" ↔ Forall (λ c, py_isspace c = true) (chars s).
Proof.
  rewrite <- (strip_chars (λ c, py_isspace c = true)) by auto.
  split; [intros ->; constructor|].
  intros Hall. unfold strip, rstrip in *.
  rewrite chars_rev in Hall. apply Forall_rev in Hall.
  rewrite rev_involutive in Hall. apply lstrip_idle in Hall.
  rewrite Hall. reflexivity.
Qed.

Lemma py_split_cons (sep : ascii) (s : string) :
  ∃ piece rest, py_split sep s = piece :: rest.
Proof.
  destruct s as [|c s]; simpl; [eauto|].
  destruct (Ascii.eqb c sep); [eauto|].
  destruct (py_split sep s); eauto.
Qed.

Lemma py_split_blank (s : string) :
  Forall (λ piece, Forall (λ c, py_isspace c = true) (chars piece))
         (py_split "," s) ↔
  Forall (λ c, py_isspace c = true ∨ c = ","%char) (chars s).
Proof.
  induction s as [|c s IH]; simpl.
  - split; repeat constructor.
  - destruct (Ascii.eqb_spec c ",") as [->|Hc].
    + rewrite !Forall_cons, IH. split; [intros [_ H]; auto|].
      intros [_ H]. split; [constructor|exact H].
    + destruct (py_split_cons "," s) as (piece & rest & Hs).
      rewrite Hs in IH. rewrite Hs. simpl.
      rewrite Forall_cons in IH. rewrite !Forall_cons, <- IH.
      change (String.list_ascii_of_string (String c piece))
        with (c :: String.list_ascii_of_string piece).
      rewrite Forall_cons. intuition congruence.
Qed.

Lemma no_ticker_blank (entry : string) :
  no_ticker (parse_tickers entry) = true ↔ blank_entry entry.
Proof.
  unfold blank_entry, parse_tickers.
  rewrite <- (strip_chars (λ c, py_isspace c = true ∨ c = ","%char))
    by auto.
  rewrite <- py_split_blank.
  destruct (py_split_cons "," (strip entry)) as (piece & rest & Hs).
  rewrite Hs. unfold no_ticker. rewrite forallb_forall, Forall_forall.
  split; intros H t Ht.
  - apply list_elem_of_In, H, String.eqb_eq, strip_empty in Ht. exact Ht.
  - apply String.eqb_eq, strip_empty, H, list_elem_of_In, Ht.
Qed.

Lemma no_ticker_not_blank (entry : string) :
  no_ticker (parse_tickers entry) = false ↔ ¬ blank_entry entry.
Proof.
  rewrite <- no_ticker_blank. destruct (no_ticker _); split; congruence.
Qed.

(** ** Dicts in insertion order *)

Lemma od_set_keys {V} (k : string) (v : V) (d : odict V) :
  (od_set k v d).*1 = if decide (k ∈ d.*1) then d.*1 else d.*1 ++ [k].
Proof.
  induction d as [|[k' v'] d IH].
  - simpl. destruct (decide (k ∈ [])) as [H|_]; [|reflexivity].
    destruct (not_elem_of_nil _ H).
  - cbn [od_set]. destruct (String.eqb_spec k k') as [->|Hne];
      rewrite !fmap_cons; cbn [fst].
    + rewrite decide_True by constructor. reflexivity.
    + rewrite IH. destruct (decide (k ∈ d.*1)) as [Hin|Hnin].
      * rewrite decide_True by (right; assumption). reflexivity.
      * rewrite decide_False; [reflexivity|].
        rewrite elem_of_cons. intros [?|?]; congruence.
Qed.

Lemma od_set_elem {V} (k : string) (v : V) (d : odict V) (k' : string)
    (v' : V) :
  (k', v') ∈ od_set k v d → (k', v') = (k, v) ∨ (k', v') ∈ d.
Proof.
  induction d as [|[k0 v0] d IH]; simpl.
  - intros H. apply list_elem_of_singleton in H. auto.
  - destruct (String.eqb k k0); rewrite !elem_of_cons; intuition.
Qed.

Lemma od_set_key_in {V} (k : string) (v : V) (d : odict V) :
  k ∈ (od_set k v d).*1.
Proof.
  rewrite od_set_keys. destruct (decide _); [assumption|].
  apply elem_of_app. right. constructor.
Qed.

Lemma od_set_keys_mono {V} (k : string) (v : V) (d : odict V) (k' : string) :
  k' ∈ d.*1 → k' ∈ (od_set k v d).*1.
Proof.
  rewrite od_set_keys. destruct (decide _); [auto|].
  intros H. apply elem_of_app. left. exact H.
Qed.

Lemma od_set_NoDup {V} (k : string) (v : V) (d : odict V) :
  NoDup d.*1 → NoDup (od_set k v d).*1.
Proof.
  rewrite od_set_keys. destruct (decide _) as [|Hnin]; [auto|].
  intros H. apply NoDup_app. split; [assumption|].
  split; [|apply NoDup_singleton].
  intros x Hx Hk. apply list_elem_of_singleton in Hk. congruence.
Qed.

Lemma od_set_length_fresh {V} (k : string) (v : V) (d : odict V) :
  k ∉ d.*1 → length (od_set k v d) = S (length d).
Proof.
  intros Hk. rewrite <- (length_fmap fst (od_set k v d)), od_set_keys.
  rewrite decide_False by assumption.
  rewrite length_app, length_fmap. simpl. lia.
Qed.

Lemma od_get_elem {V} (k : string) (v : V) (d : odict V) :
  od_get k d = Some v → (k, v) ∈ d.
Proof.
  induction d as [|[k' v'] d IH]; simpl; [discriminate|].
  destruct (String.eqb_spec k k') as [->|Hne].
  - intros [= ->]. left.
  - intros H. right. auto.
Qed.

Lemma od_get_key {V} (k : string) (d : odict V) :
  k ∈ d.*1 → is_Some (od_get k d).
Proof.
  induction d as [|[k' v'] d IH]; simpl.
  - intros H. destruct (not_elem_of_nil _ H).
  - destruct (String.eqb_spec k k') as [->|Hne]; [eauto|].
    rewrite elem_of_cons. intros [?|?]; [congruence|auto].
Qed.

(** ** Traces *)

Lemma downloads_app (tr1 tr2 : list event) :
  downloads (tr1 ++ tr2) = (downloads tr1 + downloads tr2)%nat.
Proof. unfold downloads. rewrite List.filter_app, length_app. reflexivity. Qed.

Lemma boxes_app (tr1 tr2 : list event) :
  boxes (tr1 ++ tr2) = boxes tr1 ++ boxes tr2.
Proof. apply List.filter_app. Qed.

Lemma boxes_elem (ev : event) (tr : list event) : ev ∈ boxes tr → ev ∈ tr.
Proof.
  unfold boxes. rewrite !list_elem_of_In, filter_In. tauto.
Qed.

Lemma bind_returned {A B} (m : prog A) (f : A → prog B) (tr tr' : list event)
    (a : A) :
  m tr = (Returned a, tr') → (m ≫= f) tr = f a tr'.
Proof. intros H. unfold mbind, prog_bind. rewrite H. reflexivity. Qed.

Lemma bind_raised {A B} (m : prog A) (f : A → prog B) (tr tr' : list event)
    (e : exn) :
  m tr = (Raised e, tr') → (m ≫= f) tr = (Raised e, tr').
Proof. intros H. unfold mbind, prog_bind. rewrite H. reflexivity. Qed.

(** ** [fetch_data] *)

(** From one turn to the whole loop. *)
Lemma fetch_loop (tries : nat) (body : odict DataFrame → string →
                                       prog (odict DataFrame)) :
  (1 <= tries)%nat →
  (∀ data ticker tr, ∃ data' new,
     body data ticker tr = (Returned data', tr ++ new) ∧
     fetched_one tries ticker data data' new) →
  ∀ tickers data tr, ∃ data' new,
    for_each tickers data body tr = (Returned data', tr ++ new) ∧
    fetched tries tickers data data' new.
Proof.
  intros Htries Hbody tickers.
  induction tickers as [|t ts IH]; intros data tr.
  - exists data, []. split; [simpl; rewrite app_nil_r; reflexivity|].
    unfold fetched. repeat split; try (simpl; lia); auto.
    + intros t Ht. destruct (not_elem_of_nil _ Ht).
    + rewrite Nat.mul_0_r. constructor.
  - destruct (Hbody data t tr) as (data1 & new1 & Hrun1 & Hev1 & Hone).
    destruct (IH data1 (tr ++ new1))
      as (data' & new2 & Hrun2 & Hev2 & Hel & Hmono & Hnd & Hrep & Hcnt & Hsum).
    exists data', (new1 ++ new2). split.
    { simpl. rewrite (bind_returned _ _ _ _ _ Hrun1), Hrun2, app_assoc.
      reflexivity. }
    assert (∀ k, k ∈ data.*1 → k ∈ data1.*1) as Hmono1.
    { destruct Hone as [(df & _ & -> & _)|[-> _]]; [|auto].
      intros k. apply od_set_keys_mono. }
    unfold fetched. rewrite downloads_app, boxes_app, length_app.
    split; [apply Forall_app; split; assumption|].
    split; [|split; [|split; [|split; [|split]]]].
    + intros k df Hk. destruct (Hel k df Hk) as [Hin|[Hin Hdf]].
      * destruct Hone as [(df1 & Hdf1 & -> & _)|[-> _]]; [|auto].
        apply od_set_elem in Hin as [[= -> ->]|Hin]; [|auto].
        right. split; [left|assumption].
      * right. split; [right; assumption|assumption].
    + intros k Hk. apply Hmono, Hmono1, Hk.
    + intros Hd. apply Hnd.
      destruct Hone as [(df1 & _ & -> & _)|[-> _]]; [|assumption].
      apply od_set_NoDup, Hd.
    + intros t' Ht'. apply elem_of_cons in Ht' as [->|Ht'].
      * destruct Hone as [(df1 & _ & -> & _)|[-> [[msg Hbox] _]]].
        -- left. apply Hmono, od_set_key_in.
        -- right. exists msg. apply elem_of_app. left.
           apply boxes_elem. rewrite Hbox. left.
      * destruct (Hrep t' Ht') as [?|[msg Hmsg]]; [auto|].
        right. exists msg. apply elem_of_app. right. exact Hmsg.
    + simpl.
      assert (1 <= downloads new1 <= tries)%nat
        by (destruct Hone as [(? & _ & _ & _ & ?)|(_ & _ & ?)]; lia).
      lia.
    + intros Hndt Hfresh.
      apply NoDup_cons in Hndt as [Hnt Hndt].
      apply Forall_cons in Hfresh as [Hft Hfresh].
      assert ((length data' + length (boxes new2) =
               length data1 + length ts)%nat) as Hrec.
      { apply Hsum; [assumption|]. rewrite Forall_forall in Hfresh.
        rewrite Forall_forall. intros x Hx.
        destruct Hone as [(df1 & _ & -> & _)|[-> _]]; [|auto].
        rewrite od_set_keys, decide_False by assumption.
        rewrite elem_of_app, list_elem_of_singleton.
        intros [Hin| ->]; [|contradiction]. exact (Hfresh x Hx Hin). }
      destruct Hone as [(df1 & _ & -> & Hb & _)|[-> [[msg Hb] _]]];
        rewrite Hb; simpl.
      * rewrite od_set_length_fresh in Hrec by assumption. lia.
      * lia.
Qed.

Section Fetch.
Context (yf_download : list event → string → string → outcome DataFrame).

Ltac fetch_cases :=
  repeat match goal with
  | |- context [yf_download ?tr ?sym ?start] =>
      destruct (yf_download tr sym start) as [[|? ?]|?]; simpl
  end.

Ltac fetch_done :=
  rewrite <- ?app_assoc; cbn [app];
  eexists _, _; split; [reflexivity|];
  split; [repeat constructor|];
  first
    [ left;
      refine (ex_intro _ _ (conj _ (conj eq_refl (conj eq_refl _))));
      [discriminate|unfold downloads; simpl; lia]
    | right; split; [reflexivity|];
      split; [eexists; reflexivity|reflexivity] ].

Lemma Main_fetch_turn (start : string) (data : odict DataFrame)
    (ticker : string) (tr : list event) :
  ∃ data' new,
    try_except
      (ticker_data ← Main.download yf_download (strip ticker) start;
       match ticker_data with
       | [] => throw (ValueError_no_data ticker)
       | _ :: _ => mret (od_set ticker ticker_data data)
       end)
      (λ e,
       emit (LogError ("Error fetching data for '" +:+ ticker +:+ "': "
                       +:+ exn_msg e));;
       emit (ShowError "Data Error"
                       ("Error fetching data for '" +:+ ticker +:+ "': "
                        +:+ exn_msg e));;
       mret data) tr = (Returned data', tr ++ new) ∧
    fetched_one 1 ticker data data' new.
Proof.
  unfold try_except, Main.download, mbind, prog_bind, emit, throw, mret,
    prog_ret.
  fetch_cases; fetch_done.
Qed.

Lemma Main_fetch_data_fetched (tickers : list string) (start : string)
    (tr : list event) :
  ∃ data new,
    Main.fetch_data yf_download tickers start tr = (Returned data, tr ++ new) ∧
    fetched 1 tickers [] data new.
Proof.
  unfold Main.fetch_data. apply (fetch_loop 1); [lia|].
  intros data ticker tr0. apply Main_fetch_turn.
Qed.

Lemma DataFetcher_fetch_turn (start : string) (data : odict DataFrame)
    (ticker : string) (tr : list event) :
  ∃ data' new,
    DataFetcher.fetch_attempts yf_download start ticker data (py_range 0 3) tr
      = (Returned data', tr ++ new) ∧
    fetched_one 3 ticker data data' new.
Proof.
  change (py_range 0 3) with [0; 1; 2].
  unfold DataFetcher.fetch_attempts, try_except, DataFetcher.download,
    mbind, prog_bind, emit, throw, mret, prog_ret.
  fetch_cases; fetch_done.
Qed.

Lemma DataFetcher_fetch_data_fetched (tickers : list string) (start : string)
    (tr : list event) :
  ∃ data new,
    DataFetcher.fetch_data yf_download tickers start tr =
      (Returned data, tr ++ new) ∧
    fetched 3 tickers [] data new.
Proof.
  unfold DataFetcher.fetch_data. apply (fetch_loop 3); [lia|].
  intros data ticker tr0. apply DataFetcher_fetch_turn.
Qed.

End Fetch.

Lemma for_each_ext {A B} (xs : list A) (body1 body2 : B → A → prog B) :
  (∀ acc x tr, body1 acc x tr = body2 acc x tr) →
  ∀ acc tr, for_each xs acc body1 tr = for_each xs acc body2 tr.
Proof.
  intros Hext. induction xs as [|x xs IH]; intros acc tr; [reflexivity|].
  simpl. unfold mbind, prog_bind. rewrite Hext.
  destruct (body2 acc x tr) as [[acc'|e] tr']; [apply IH|reflexivity].
Qed.

Lemma for_each_idle {A B} (xs : list A) (body : B → A → prog B)
    (out : A → list event) :
  (∀ acc x tr, body acc x tr = (Returned acc, tr ++ out x)) →
  ∀ acc tr, for_each xs acc body tr = (Returned acc, tr ++ flat_map out xs).
Proof.
  intros Hbody. induction xs as [|x xs IH]; intros acc tr; simpl.
  - rewrite app_nil_r. reflexivity.
  - rewrite (bind_returned _ _ _ _ _ (Hbody acc x tr)), IH, app_assoc.
    reflexivity.
Qed.

(** X5. [fetch_data] of [src/main.py] never raises, whatever the download
    does.  It downloads once per ticker; the dict it returns has distinct
    keys, all of them among the tickers given, and no frame without bars;
    a ticker that is not a key of the result was reported in an error box;
    and the only events are downloads, log entries and boxes. *)
Theorem Main_fetch_data_safe
    (yf_download : list event → string → string → outcome DataFrame)
    (tickers : list string) (start : string) (tr : list event) :
  ∃ data new,
    Main.fetch_data yf_download tickers start tr = (Returned data, tr ++ new) ∧
    NoDup data.*1 ∧
    (∀ k df, (k, df) ∈ data → k ∈ tickers ∧ df ≠ []) ∧
    (∀ t, t ∈ tickers → t ∈ data.*1 ∨ ∃ msg, fetch_box t msg ∈ new) ∧
    downloads new = length tickers ∧
    Forall (λ ev, is_fetch_event ev = true) new.
Proof.
  destruct (Main_fetch_data_fetched yf_download tickers start tr)
    as (data & new & Hrun & Hev & Hel & _ & Hnd & Hrep & Hcnt & _).
  exists data, new. split; [exact Hrun|].
  split; [apply Hnd; constructor|]. split; [|split; [exact Hrep|split]].
  - intros k df Hk. destruct (Hel k df Hk) as [Hnil|?]; [|assumption].
    destruct (not_elem_of_nil _ Hnil).
  - lia.
  - exact Hev.
Qed.

(** X6. [fetch_data] of [src/data_fetcher.py] never raises either, with the
    same guarantees on the dict and on the reporting; it downloads at least
    once and at most three times per ticker. *)
Theorem DataFetcher_fetch_data_safe
    (yf_download : list event → string → string → outcome DataFrame)
    (tickers : list string) (start : string) (tr : list event) :
  ∃ data new,
    DataFetcher.fetch_data yf_download tickers start tr =
      (Returned data, tr ++ new) ∧
    NoDup data.*1 ∧
    (∀ k df, (k, df) ∈ data → k ∈ tickers ∧ df ≠ []) ∧
    (∀ t, t ∈ tickers → t ∈ data.*1 ∨ ∃ msg, fetch_box t msg ∈ new) ∧
    (length tickers <= downloads new <= 3 * length tickers)%nat ∧
    Forall (λ ev, is_fetch_event ev = true) new.
Proof.
  destruct (DataFetcher_fetch_data_fetched yf_download tickers start tr)
    as (data & new & Hrun & Hev & Hel & _ & Hnd & Hrep & Hcnt & _).
  exists data, new. split; [exact Hrun|].
  split; [apply Hnd; constructor|]. split; [|split; [exact Hrep|split]].
  - intros k df Hk. destruct (Hel k df Hk) as [Hnil|?]; [|assumption].
    destruct (not_elem_of_nil _ Hnil).
  - exact Hcnt.
  - exact Hev.
Qed.

(** X7. When the tickers given are distinct, each of them either becomes a
    key of the result or gets one error box, never both and never neither:
    keys and boxes add up to the number of tickers, in both files. *)
Theorem fetch_data_accounts_for_tickers
    (yf_download : list event → string → string → outcome DataFrame)
    (tickers : list string) (start : string) (tr : list event) :
  NoDup tickers →
  (∃ data new,
     Main.fetch_data yf_download tickers start tr = (Returned data, tr ++ new) ∧
     (length data + length (boxes new) = length tickers)%nat) ∧
  (∃ data new,
     DataFetcher.fetch_data yf_download tickers start tr =
       (Returned data, tr ++ new) ∧
     (length data + length (boxes new) = length tickers)%nat).
Proof.
  intros Hnd.
  assert (Forall (λ t : string, t ∉ (([] : odict DataFrame).*1)) tickers)
    as Hfresh by (apply Forall_forall; intros t _; apply not_elem_of_nil).
  split.
  - destruct (Main_fetch_data_fetched yf_download tickers start tr)
      as (data & new & Hrun & _ & _ & _ & _ & _ & _ & Hsum).
    exists data, new. split; [exact Hrun|]. apply (Hsum Hnd Hfresh).
  - destruct (DataFetcher_fetch_data_fetched yf_download tickers start tr)
      as (data & new & Hrun & _ & _ & _ & _ & _ & _ & Hsum).
    exists data, new. split; [exact Hrun|]. apply (Hsum Hnd Hfresh).
Qed.

Lemma fetch_data_accounts_for_tickers_witness :
  NoDup ["AAPL"; "MSFT"] ∧
  ∃ data new,
    Main.fetch_data (always head_series) ["AAPL"; "MSFT"] "2024-01-01" [] =
      (Returned data, [] ++ new) ∧
    (length data + length (boxes new) = 2)%nat.
Proof.
  assert (NoDup ["AAPL"; "MSFT"]) as Hnd.
  { apply NoDup_cons. split; [|apply NoDup_singleton].
    intros H. apply list_elem_of_singleton in H. discriminate. }
  split; [exact Hnd|].
  exact (proj1 (fetch_data_accounts_for_tickers (always head_series)
                  ["AAPL"; "MSFT"] "2024-01-01" [] Hnd)).
Defined.

Section FetchCases.
Context (yf_download : list event → string → string → outcome DataFrame).

Lemma good_turns (start : string) (data : odict DataFrame) (ticker : string)
    (tr : list event) :
  (∀ tr sym st, ∃ b df, yf_download tr sym st = Returned (b :: df)) →
  ∃ df,
    DataFetcher.fetch_attempts yf_download start ticker data (py_range 0 3) tr
      = (Returned (od_set ticker df data),
         tr ++ [Download (strip ticker) start]) ∧
    try_except
      (ticker_data ← Main.download yf_download (strip ticker) start;
       match ticker_data with
       | [] => throw (ValueError_no_data ticker)
       | _ :: _ => mret (od_set ticker ticker_data data)
       end)
      (λ e,
       emit (LogError ("Error fetching data for '" +:+ ticker +:+ "': "
                       +:+ exn_msg e));;
       emit (ShowError "Data Error"
                       ("Error fetching data for '" +:+ ticker +:+ "': "
                        +:+ exn_msg e));;
       mret data) tr
      = (Returned (od_set ticker df data),
         tr ++ [Download (strip ticker) start]).
Proof.
  intros Hgood. destruct (Hgood tr (strip ticker) start) as (b & df & Hdl).
  exists (b :: df). change (py_range 0 3) with [0; 1; 2].
  unfold DataFetcher.fetch_attempts, try_except, DataFetcher.download,
    Main.download, mbind, prog_bind, emit, throw, mret, prog_ret.
  rewrite Hdl. split; reflexivity.
Qed.

Lemma good_loop (start : string) (tickers : list string) :
  (∀ tr sym st, ∃ b df, yf_download tr sym st = Returned (b :: df)) →
  ∀ data tr, ∃ data',
    for_each tickers data (λ data ticker,
      DataFetcher.fetch_attempts yf_download start ticker data (py_range 0 3))
      tr = (Returned data',
            tr ++ map (λ t, Download (strip t) start) tickers) ∧
    (∀ t, t ∈ tickers → t ∈ data'.*1).
Proof.
  intros Hgood. induction tickers as [|t ts IH]; intros data tr.
  - exists data. split; [simpl; rewrite app_nil_r; reflexivity|].
    intros t Ht. destruct (not_elem_of_nil _ Ht).
  - destruct (good_turns start data t tr Hgood) as (df & Hrun & _).
    destruct (IH (od_set t df data) (tr ++ [Download (strip t) start]))
      as (data' & Hrest & Hkeys).
    exists data'. split.
    + cbn [for_each map].
      rewrite (bind_returned _ _ _ _ _ Hrun), Hrest, <- app_assoc.
      reflexivity.
    + intros t' Ht'. apply elem_of_cons in Ht' as [->|Ht']; [|auto].
      destruct (fetch_loop 3 (λ data ticker,
                  DataFetcher.fetch_attempts yf_download start ticker data
                    (py_range 0 3)))
        with (tickers := ts) (data := od_set t df data)
             (tr := tr ++ [Download (strip t) start])
        as (data2 & new2 & Hrun2 & _ & _ & Hmono & _); [lia| |].
      { intros d k tr0. apply DataFetcher_fetch_turn. }
      rewrite Hrest in Hrun2. injection Hrun2 as <- _.
      apply Hmono, od_set_key_in.
Qed.

End FetchCases.

(** X8. When every download brings a frame with bars, the two files'
    [fetch_data] do the same: one download per ticker, in order, for the
    stripped symbol; no log entry and no box; the same dict, whose keys are
    exactly the tickers given. *)
Theorem fetch_data_good_case
    (yf_download : list event → string → string → outcome DataFrame)
    (tickers : list string) (start : string) (tr : list event) :
  (∀ tr sym st, ∃ b df, yf_download tr sym st = Returned (b :: df)) →
  ∃ data,
    Main.fetch_data yf_download tickers start tr =
      (Returned data, tr ++ map (λ t, Download (strip t) start) tickers) ∧
    DataFetcher.fetch_data yf_download tickers start tr =
      (Returned data, tr ++ map (λ t, Download (strip t) start) tickers) ∧
    (∀ t, t ∈ data.*1 ↔ t ∈ tickers).
Proof.
  intros Hgood.
  destruct (good_loop yf_download start tickers Hgood [] tr)
    as (data & Hrun & Hkeys).
  exists data. split; [|split; [exact Hrun|]].
  - rewrite <- Hrun. unfold Main.fetch_data. apply for_each_ext.
    intros acc t tr0.
    destruct (good_turns yf_download start acc t tr0 Hgood) as (df & H1 & H2).
    exact (eq_trans H2 (eq_sym H1)).
  - intros t. split; [|apply Hkeys].
    destruct (DataFetcher_fetch_data_safe yf_download tickers start tr)
      as (data2 & new2 & Hrun2 & _ & Hel & _).
    pose proof (eq_trans (eq_sym Hrun) Hrun2) as Heq.
    injection Heq as <- _. intros Ht.
    apply list_elem_of_fmap in Ht as ([k df] & -> & Hk).
    apply (Hel k df Hk).
Qed.

Lemma fetch_data_good_case_witness :
  ∃ data,
    Main.fetch_data (always head_series) [" AAPL"; "MSFT "] "2024-01-01" [] =
      (Returned data,
       [] ++ map (λ t, Download (strip t) "2024-01-01") [" AAPL"; "MSFT "]) ∧
    DataFetcher.fetch_data (always head_series) [" AAPL"; "MSFT "]
      "2024-01-01" [] =
      (Returned data,
       [] ++ map (λ t, Download (strip t) "2024-01-01") [" AAPL"; "MSFT "]) ∧
    (∀ t, t ∈ data.*1 ↔ t ∈ [" AAPL"; "MSFT "]).
Proof.
  apply (fetch_data_good_case (always head_series)).
  intros tr sym st. unfold always, head_series. eauto.
Defined.

(** X9. When every download fails with the same exception, both files'
    [fetch_data] return an empty dict.  [src/main.py] tries each ticker
    once, logs the failure and shows a box; [src/data_fetcher.py] tries
    three times, logs each failure with its attempt number, and shows the
    box once, after the third. *)
Theorem fetch_data_all_fail (e : exn) (tickers : list string) (start : string)
    (tr : list event) :
  Main.fetch_data (λ _ _ _, Raised e) tickers start tr =
    (Returned [],
     tr ++ flat_map (λ t,
             [Download (strip t) start;
              LogError ("Error fetching data for '" +:+ t +:+ "': "
                        +:+ exn_msg e);
              fetch_box t (exn_msg e)]) tickers) ∧
  DataFetcher.fetch_data (λ _ _ _, Raised e) tickers start tr =
    (Returned [],
     tr ++ flat_map (λ t,
             [Download (strip t) start;
              LogError ("Error fetching data for '" +:+ t +:+ "' (attempt 1): "
                        +:+ exn_msg e);
              Download (strip t) start;
              LogError ("Error fetching data for '" +:+ t +:+ "' (attempt 2): "
                        +:+ exn_msg e);
              Download (strip t) start;
              LogError ("Error fetching data for '" +:+ t +:+ "' (attempt 3): "
                        +:+ exn_msg e);
              fetch_box t (exn_msg e)]) tickers).
Proof.
  split.
  - unfold Main.fetch_data. apply for_each_idle. intros acc t tr0.
    unfold try_except, Main.download, mbind, prog_bind, emit, throw, mret,
      prog_ret. rewrite <- !app_assoc. reflexivity.
  - unfold DataFetcher.fetch_data. apply for_each_idle. intros acc t tr0.
    change (py_range 0 3) with [0; 1; 2].
    unfold DataFetcher.fetch_attempts, try_except, DataFetcher.download,
      mbind, prog_bind, emit, throw, mret, prog_ret.
    cbn [Z.eqb Z.add Pos.eqb]. rewrite <- !app_assoc. reflexivity.
Qed.

(** ** The selection of patterns *)

Lemma picked_sublist {A} (bs : list bool) (l : list A) :
  map snd (List.filter fst (combine bs l)) `sublist_of` l.
Proof.
  revert bs. induction l as [|a l IH]; intros [|b bs]; simpl;
    try apply sublist_nil_l.
  destruct b; simpl; [apply sublist_skip|apply sublist_cons]; apply IH.
Qed.

Lemma picked_elem {A} (bs : list bool) (l : list A) (i : nat) (k : A) :
  NoDup l → l !! i = Some k →
  (k ∈ map snd (List.filter fst (combine bs l)) ↔ bs !! i = Some true).
Proof.
  revert bs i. induction l as [|a l IH]; intros bs i Hnd Hi.
  - rewrite lookup_nil in Hi. discriminate.
  - apply NoDup_cons in Hnd as [Ha Hnd]. destruct bs as [|b bs].
    + simpl. rewrite lookup_nil. split; [intros H|discriminate].
      destruct (not_elem_of_nil _ H).
    + assert (a ∉ map snd (List.filter fst (combine bs l))) as Ha'.
      { intros H. apply Ha. eapply elem_of_sublist; [exact H|].
        apply picked_sublist. }
      destruct i as [|i]; simpl in Hi.
      * injection Hi as ->. destruct b; simpl.
        -- split; [reflexivity|intros _; left].
        -- split; [contradiction|discriminate].
      * assert (k ≠ a) as Hne.
        { intros ->. apply Ha. eapply list_elem_of_lookup_2. exact Hi. }
        specialize (IH bs i Hnd Hi). destruct b; simpl.
        -- rewrite elem_of_cons. tauto.
        -- exact IH.
Qed.

Lemma available_patterns_NoDup : NoDup available_patterns.
Proof. apply (bool_decide_unpack _). vm_compute. reflexivity. Qed.

(** X10. The names [selected_patterns] reads off the check boxes are
    catalog names, without repetition and in catalog order; the name at
    catalog position [i] is selected exactly when box [i] is checked.  So a
    request built from the form never holds an unknown name. *)
Theorem selected_patterns_catalog (pattern_vars : list bool) :
  DataFetcher.selected_patterns pattern_vars `sublist_of` available_patterns ∧
  NoDup (DataFetcher.selected_patterns pattern_vars) ∧
  Forall (λ k, k ∈ available_patterns)
         (DataFetcher.selected_patterns pattern_vars) ∧
  (∀ i k, available_patterns !! i = Some k →
     (k ∈ DataFetcher.selected_patterns pattern_vars ↔
      pattern_vars !! i = Some true)).
Proof.
  assert (DataFetcher.selected_patterns pattern_vars
            `sublist_of` available_patterns) as Hsub
    by apply picked_sublist.
  split; [exact Hsub|]. split; [|split].
  - eapply sublist_NoDup; [apply available_patterns_NoDup|exact Hsub].
  - apply Forall_forall. intros k Hk. eapply elem_of_sublist; eassumption.
  - intros i k Hi. apply picked_elem; [apply available_patterns_NoDup|exact Hi].
Qed.

(** ** The ticker field *)

Lemma forallb_false {A} (f : A → bool) (l : list A) :
  forallb f l = false → Exists (λ x, f x = false) l.
Proof.
  induction l as [|x l IH]; simpl; [discriminate|].
  destruct (f x) eqn:Hx; simpl; [|intros _; left; exact Hx].
  intros H. right. exact (IH H).
Qed.

Lemma no_ticker_false (tickers : list string) :
  no_ticker tickers = false → Exists (λ t, strip t ≠ "") tickers.
Proof.
  destruct tickers as [|t ts]; [discriminate|]. unfold no_ticker.
  intros H. apply forallb_false in H.
  eapply Exists_impl; [exact H|]. intros x Hx. simpl in Hx.
  intros Heq. rewrite Heq in Hx. discriminate.
Qed.

(** X11. A ticker field that holds only white space and commas is turned
    down by all four handlers: they show the box asking for a ticker and
    do nothing else (no download, no thread, no file).  Any other field
    passes: [analyze_stock] of [src/main.py] then sets the status and
    starts the thread, with the pieces between the commas as tickers, one
    of them at least not blank. *)
Theorem ticker_field_validation
    (yf_download : list event → string → string → outcome DataFrame)
    (ask_filename : list event → string) (strftime : Z → string)
    (ticker_entry start_date selected_pattern : string)
    (pattern_vars : list bool) (tr : list event) :
  (blank_entry ticker_entry →
     Main.analyze_stock ticker_entry start_date selected_pattern tr =
       (Returned None, tr ++ [no_ticker_box]) ∧
     Main.export_results yf_download ask_filename strftime ticker_entry
       start_date selected_pattern tr = (Returned (), tr ++ [no_ticker_box]) ∧
     DataFetcher.analyze_stock ticker_entry start_date pattern_vars tr =
       (Returned None, tr ++ [no_ticker_box]) ∧
     DataFetcher.export_results yf_download ask_filename ticker_entry
       start_date pattern_vars tr = (Returned (), tr ++ [no_ticker_box])) ∧
  (¬ blank_entry ticker_entry →
     Main.analyze_stock ticker_entry start_date selected_pattern tr =
       (Returned (Some (parse_tickers ticker_entry)),
        tr ++ [SetStatus "Analyzing..."; StartThread]) ∧
     Exists (λ t, strip t ≠ "") (parse_tickers ticker_entry)).
Proof.
  split.
  - intros Hblank. apply no_ticker_blank in Hblank.
    unfold Main.analyze_stock, Main.export_results, DataFetcher.analyze_stock,
      DataFetcher.export_results.
    rewrite Hblank. repeat split; reflexivity.
  - intros Hfull. apply no_ticker_not_blank in Hfull.
    split; [|apply no_ticker_false, Hfull].
    unfold Main.analyze_stock. rewrite Hfull.
    unfold mbind, prog_bind, emit, mret, prog_ret.
    rewrite <- app_assoc. reflexivity.
Qed.

Lemma ticker_field_validation_witness :
  blank_entry " , ," ∧
  Main.analyze_stock " , ," "2024-01-01" "Doji" [] =
    (Returned None, [] ++ [no_ticker_box]) ∧
  ¬ blank_entry "AAPL, MSFT" ∧
  Main.analyze_stock "AAPL, MSFT" "2024-01-01" "Doji" [] =
    (Returned (Some ["AAPL"; " MSFT"]),
     [] ++ [SetStatus "Analyzing..."; StartThread]).
Proof.
  assert (blank_entry " , ,") as Hblank.
  { unfold blank_entry. simpl.
    repeat (apply List.Forall_cons;
            [first [left; reflexivity|right; reflexivity]|]).
    apply List.Forall_nil. }
  assert (¬ blank_entry "AAPL, MSFT") as Hfull.
  { unfold blank_entry. simpl. intros H. apply Forall_cons in H as [[H|H] _];
      discriminate. }
  split; [exact Hblank|]. split.
  - exact (proj1 (proj1 (ticker_field_validation always_nothing (λ _, "")
                           (λ _, "") " , ," "2024-01-01" "Doji" [] [])
                    Hblank)).
  - split; [exact Hfull|].
    exact (proj1 (proj2 (ticker_field_validation always_nothing (λ _, "")
                           (λ _, "") "AAPL, MSFT" "2024-01-01" "Doji" [] [])
                    Hfull)).
Defined.

(** X12. [analyze_stock] of [src/data_fetcher.py] starts the thread only
    for a ticker field that is not blank and a selection that is not
    empty; the selection it hands over holds distinct catalog names.  With
    a ticker but no box checked it shows the box asking for a pattern and
    stops. *)
Theorem DataFetcher_analyze_stock_starts (ticker_entry start_date : string)
    (pattern_vars : list bool) (tr : list event) :
  (∀ tickers selected tr',
     DataFetcher.analyze_stock ticker_entry start_date pattern_vars tr =
       (Returned (Some (tickers, selected)), tr') →
     ¬ blank_entry ticker_entry ∧ tickers = parse_tickers ticker_entry ∧
     selected = DataFetcher.selected_patterns pattern_vars ∧
     selected ≠ [] ∧ NoDup selected ∧
     Forall (λ k, k ∈ available_patterns) selected ∧
     tr' = tr ++ [SetStatus "Analyzing..."; HistoryClear; StartThread]) ∧
  (¬ blank_entry ticker_entry →
   DataFetcher.selected_patterns pattern_vars = [] →
   DataFetcher.analyze_stock ticker_entry start_date pattern_vars tr =
     (Returned None, tr ++ [no_pattern_box])) ∧
  (¬ blank_entry ticker_entry →
   DataFetcher.selected_patterns pattern_vars ≠ [] →
   DataFetcher.analyze_stock ticker_entry start_date pattern_vars tr =
     (Returned (Some (parse_tickers ticker_entry,
                      DataFetcher.selected_patterns pattern_vars)),
      tr ++ [SetStatus "Analyzing..."; HistoryClear; StartThread])).
Proof.
  destruct (selected_patterns_catalog pattern_vars) as (_ & Hnd & Hcat & _).
  unfold DataFetcher.analyze_stock.
  destruct (no_ticker (parse_tickers ticker_entry)) eqn:Hno.
  - split; [intros ? ? ? [=]|].
    apply no_ticker_blank in Hno. split; intros Hne; contradiction.
  - apply no_ticker_not_blank in Hno.
    destruct (DataFetcher.selected_patterns pattern_vars) as [|k sel] eqn:Hsel.
    + split; [intros ? ? ? [=]|]. split; [reflexivity|congruence].
    + split; [|split; [discriminate|]].
      * intros tickers selected tr'.
        unfold mbind, prog_bind, emit, mret, prog_ret.
        rewrite <- !app_assoc. intros [= <- <- <-].
        repeat split; try assumption; discriminate.
      * intros _ _. unfold mbind, prog_bind, emit, mret, prog_ret.
        rewrite <- !app_assoc. reflexivity.
Qed.

Lemma DataFetcher_analyze_stock_starts_witness :
  ¬ blank_entry "AAPL" ∧
  DataFetcher.selected_patterns [false; false; true] ≠ [] ∧
  DataFetcher.analyze_stock "AAPL" "2024-01-01" [false; false; true] [] =
    (Returned (Some (["AAPL"], ["Double Top"])),
     [] ++ [SetStatus "Analyzing..."; HistoryClear; StartThread]).
Proof.
  assert (¬ blank_entry "AAPL") as Hfull.
  { unfold blank_entry. simpl. intros H. apply Forall_cons in H as [[H|H] _];
      discriminate. }
  assert (DataFetcher.selected_patterns [false; false; true] ≠ []) as Hsel
    by discriminate.
  split; [exact Hfull|]. split; [exact Hsel|].
  exact (proj2 (proj2 (DataFetcher_analyze_stock_starts "AAPL" "2024-01-01"
                         [false; false; true] [])) Hfull Hsel).
Defined.

(** ** Loops over a dict *)

Lemma for_do_out {A} (xs : list A) (body : A → prog unit)
    (out : A → list event) :
  (∀ x, x ∈ xs → ∀ tr, body x tr = (Returned (), tr ++ out x)) →
  ∀ tr, for_do xs body tr = (Returned (), tr ++ flat_map out xs).
Proof.
  induction xs as [|x xs IH]; intros Hbody tr; simpl.
  - rewrite app_nil_r. reflexivity.
  - rewrite (bind_returned _ _ _ _ _ (Hbody x ltac:(left) tr)).
    rewrite IH by (intros; apply Hbody; right; assumption).
    rewrite app_assoc. reflexivity.
Qed.

Lemma for_do_raises {A} (x : A) (xs : list A) (body : A → prog unit)
    (e : exn) (tr tr' : list event) :
  body x tr = (Raised e, tr') → for_do (x :: xs) body tr = (Raised e, tr').
Proof. intros H. simpl. apply (bind_raised _ _ _ _ _ H). Qed.

Lemma od_set_fresh {V} (k : string) (v : V) (d : odict V) :
  k ∉ d.*1 → od_set k v d = d ++ [(k, v)].
Proof.
  induction d as [|[k' v'] d IH]; intros Hk; [reflexivity|].
  cbn [od_set]. rewrite fmap_cons, not_elem_of_cons in Hk.
  destruct Hk as [Hne Hk]. cbn [fst] in Hne.
  destruct (String.eqb_spec k k') as [?|_]; [contradiction|].
  rewrite IH by assumption. reflexivity.
Qed.

Lemma od_item_first {V} (k : string) (v : V) (d : odict V) :
  od_item ((k, v) :: d) k = Returned v.
Proof. unfold od_item. simpl. rewrite String.eqb_refl. reflexivity. Qed.

Lemma od_item_elem {V} (k : string) (v : V) (d : odict V) :
  NoDup d.*1 → (k, v) ∈ d → od_item d k = Returned v.
Proof.
  unfold od_item. induction d as [|[k' v'] d IH]; intros Hnd Hin.
  - destruct (not_elem_of_nil _ Hin).
  - rewrite fmap_cons in Hnd. apply NoDup_cons in Hnd as [Hk' Hnd].
    simpl. destruct (String.eqb_spec k k') as [->|Hne].
    + apply elem_of_cons in Hin as [[= ->]|Hin]; [reflexivity|].
      destruct Hk'. apply list_elem_of_fmap. exists (k', v). auto.
    + apply elem_of_cons in Hin as [[= ? ?]|Hin]; [contradiction|].
      apply IH; assumption.
Qed.

(** A dict comprehension whose keys are distinct. *)
Lemma comprehension {A W} (key : A → string) (val : A → W)
    (body : odict W → A → prog (odict W)) (xs : list A) :
  (∀ acc x, x ∈ xs →
     ∀ tr, body acc x tr = (Returned (od_set (key x) (val x) acc), tr)) →
  NoDup (map key xs) →
  ∀ acc tr, (∀ k, k ∈ acc.*1 → k ∉ map key xs) →
    for_each xs acc body tr =
      (Returned (acc ++ map (λ x, (key x, val x)) xs), tr).
Proof.
  induction xs as [|x xs IH]; intros Hbody Hnd acc tr Hacc.
  - simpl. rewrite app_nil_r. reflexivity.
  - cbn [map] in Hnd. apply NoDup_cons in Hnd as [Hx Hnd].
    cbn [for_each].
    rewrite (bind_returned _ _ _ _ _ (Hbody acc x ltac:(left) tr)).
    rewrite od_set_fresh.
    2:{ intros Hin. apply (Hacc _ Hin). left. }
    rewrite IH; [simpl; rewrite <- app_assoc; reflexivity| |assumption|].
    + intros acc' y Hy. apply Hbody. right. exact Hy.
    + intros k Hk Hin. rewrite fmap_app, elem_of_app in Hk.
      destruct Hk as [Hk|Hk].
      * apply (Hacc _ Hk). right. exact Hin.
      * apply list_elem_of_singleton in Hk. simpl in Hk. subst k.
        contradiction.
Qed.

(** ** Charts and files of [src/main.py] *)

Lemma flat_map_single {A B} (f : A → B) (l : list A) :
  flat_map (λ x, [f x]) l = map f l.
Proof. induction l as [|x l IH]; simpl; [|rewrite IH]; reflexivity. Qed.

Lemma Main_detect_patterns_total (data : DataFrame) (selected_pattern : string) :
  Main.detect_patterns data selected_pattern =
    Returned (Main_matches selected_pattern data).
Proof.
  unfold Main_matches.
  destruct (decide (selected_pattern = "Head and Shoulders")) as [->|Hne].
  - rewrite Main_detect_patterns_hs. reflexivity.
  - rewrite Main_detect_patterns_other by assumption. reflexivity.
Qed.

Lemma add_traces (data : odict DataFrame) (tr : list event) :
  for_do data (λ '(ticker, ticker_data), emit (AddTrace ticker ticker_data)) tr
    = (Returned (), tr ++ map trace_of data).
Proof.
  rewrite (for_do_out _ _ (λ p, [trace_of p])), flat_map_single;
    [reflexivity|].
  intros [ticker ticker_data] _ tr0. reflexivity.
Qed.

Lemma Main_plot_chart_trace (data : odict DataFrame)
    (patterns : odict (list PatternMatch)) (tr : list event) :
  Main.plot_chart data (Some patterns) tr =
    (Returned (),
     tr ++ map trace_of data ++
     flat_map (λ p, map annotation_of p.2) patterns ++
     [UpdateLayout; ShowFigure]).
Proof.
  unfold Main.plot_chart.
  rewrite (bind_returned _ _ _ _ _ (add_traces data tr)).
  assert (∀ tr0,
    match patterns with
    | [] => mret ()
    | _ :: _ =>
        for_do patterns (λ '(ticker, ticker_patterns),
          for_do ticker_patterns (λ pattern_info,
            emit (AddAnnotation (VDate (anchor_timestamp pattern_info))
                                (VNum (anchor_price pattern_info))
                                (VStr (kind pattern_info)))))
    end tr0 =
    (Returned (), tr0 ++ flat_map (λ p, map annotation_of p.2) patterns))
    as Hann.
  { intros tr0. destruct patterns as [|p ps].
    - simpl. rewrite app_nil_r. reflexivity.
    - apply for_do_out. intros [ticker ticker_patterns] _ tr1.
      rewrite (for_do_out _ _ (λ m, [annotation_of m])), flat_map_single;
        [reflexivity|].
      intros m _ tr2. reflexivity. }
  rewrite (bind_returned _ _ _ _ _ (Hann _)).
  unfold mbind, prog_bind, emit. rewrite <- !app_assoc. reflexivity.
Qed.

(** X13. [run_analysis] of [src/main.py] never raises.  After the fetch it
    stops if no frame came back; otherwise it draws one candlestick trace
    per fetched ticker, then one annotation per match [detect_patterns]
    returns for each frame (at the match's date and anchor price, labelled
    with its kind), shows the figure and reports completion.  For a name
    other than Head and Shoulders there is no annotation. *)
Theorem Main_run_analysis_trace
    (yf_download : list event → string → string → outcome DataFrame)
    (tickers : list string) (start_date selected_pattern : string)
    (tr : list event) :
  ∃ data new,
    Main.fetch_data yf_download tickers start_date tr =
      (Returned data, tr ++ new) ∧
    Main.run_analysis yf_download tickers start_date selected_pattern tr =
      (Returned (),
       tr ++ new ++
       match data with
       | [] => []
       | _ :: _ =>
           map trace_of data ++
           flat_map (λ p, map annotation_of
                              (Main_matches selected_pattern p.2)) data ++
           [UpdateLayout; ShowFigure] ++
           completion tickers selected_pattern start_date
       end) ∧
    (selected_pattern ≠ "Head and Shoulders" →
     ∀ df, Main_matches selected_pattern df = []).
Proof.
  destruct (Main_fetch_data_safe yf_download tickers start_date tr)
    as (data & new & Hrun & Hnd & _).
  exists data, new. split; [exact Hrun|]. split.
  - unfold Main.run_analysis. rewrite (bind_returned _ _ _ _ _ Hrun).
    destruct data as [|entry data'] eqn:Hdata.
    { rewrite app_nil_r. reflexivity. }
    rewrite <- Hdata in *. clear Hdata entry data'.
    eapply eq_trans.
    { apply bind_returned.
      apply (comprehension fst (λ x, Main_matches selected_pattern x.2));
        [|exact Hnd|intros k Hk; destruct (not_elem_of_nil _ Hk)].
      intros acc [t df] _ tr0. cbn [fst snd]. unfold mbind, prog_bind, lift.
      rewrite Main_detect_patterns_total. reflexivity. }
    rewrite app_nil_l.
    rewrite (bind_returned _ _ _ _ _ (Main_plot_chart_trace _ _ _)).
    unfold mbind, prog_bind, emit, completion.
    rewrite flat_map_concat_map, map_map, <- flat_map_concat_map.
    cbn [fst snd]. rewrite <- !app_assoc. reflexivity.
  - intros Hne df. unfold Main_matches.
    rewrite Main_detect_patterns_other by assumption. reflexivity.
Qed.

Lemma with_open_returned {A} (filename : string) (body : prog A)
    (tr tr' : list event) (a : A) :
  body (tr ++ [OpenFile filename]) = (Returned a, tr') →
  with_open filename body tr = (Returned a, tr' ++ [CloseFile]).
Proof. intros H. unfold with_open. rewrite H. reflexivity. Qed.

Lemma with_open_raised {A} (filename : string) (body : prog A)
    (tr tr' : list event) (e : exn) :
  body (tr ++ [OpenFile filename]) = (Raised e, tr') →
  with_open filename body tr = (Raised e, tr' ++ [CloseFile]).
Proof. intros H. unfold with_open. rewrite H. reflexivity. Qed.

(** X14. [export_results] of [src/main.py], on a ticker field that is not
    blank, never raises.  If frames came back it asks for a file name, and
    unless the dialog is cancelled it writes the header row, then one row
    per match [detect_patterns] returns for each fetched frame (ticker,
    kind, formatted date, anchor price), in order, closes the file and
    reports success. *)
Theorem Main_export_results_rows
    (yf_download : list event → string → string → outcome DataFrame)
    (ask_filename : list event → string) (strftime : Z → string)
    (ticker_entry start_date selected_pattern : string) (tr : list event) :
  ¬ blank_entry ticker_entry →
  ∃ data new,
    Main.fetch_data yf_download (parse_tickers ticker_entry) start_date tr =
      (Returned data, tr ++ new) ∧
    Main.export_results yf_download ask_filename strftime ticker_entry
      start_date selected_pattern tr =
      (Returned (),
       tr ++ new ++
       match data with
       | [] => []
       | _ :: _ =>
           AskSaveAs ::
           (if String.eqb (ask_filename (tr ++ new)) "" then []
            else
              [OpenFile (ask_filename (tr ++ new)); WriteRow header_row] ++
              flat_map (λ p, map (row_of strftime p.1)
                                 (Main_matches selected_pattern p.2)) data ++
              [CloseFile;
               ShowInfo "Export Successful" "Results exported successfully."])
       end).
Proof.
  intros Hfull. apply no_ticker_not_blank in Hfull.
  destruct (Main_fetch_data_safe yf_download (parse_tickers ticker_entry)
              start_date tr) as (data & new & Hrun & _).
  exists data, new. split; [exact Hrun|].
  unfold Main.export_results. rewrite Hfull.
  rewrite (bind_returned _ _ _ _ _ Hrun).
  destruct data as [|entry data'] eqn:Hdata.
  { rewrite app_nil_r. reflexivity. }
  rewrite <- Hdata. clear Hdata entry data' Hrun.
  unfold mbind at 1, prog_bind at 1, Main.ask_save_as.
  destruct (String.eqb (ask_filename (tr ++ new)) "").
  { unfold mret, prog_ret. rewrite <- app_assoc. reflexivity. }
  eapply eq_trans.
  { apply bind_returned, with_open_returned.
    eapply eq_trans; [apply bind_returned; reflexivity|]. cbv beta.
    apply (for_do_out _ _
             (λ p, map (row_of strftime p.1)
                       (Main_matches selected_pattern p.2))).
    intros [ticker ticker_data] _ tr0. cbn [fst snd].
    unfold mbind at 1, prog_bind at 1, lift.
    rewrite Main_detect_patterns_total.
    rewrite (for_do_out _ _ (λ m, [row_of strftime ticker m])),
      flat_map_single; [reflexivity|].
    intros m _ tr1. reflexivity. }
  unfold emit. rewrite <- !app_assoc. reflexivity.
Qed.

Lemma Main_export_results_rows_witness :
  ¬ blank_entry "AAPL" ∧
  Main.export_results (always head_series) (λ _, "out.csv") (λ _, "date")
    "AAPL" "2024-01-01" "Head and Shoulders" [] =
    (Returned (),
     [Download "AAPL" "2024-01-01"; AskSaveAs; OpenFile "out.csv";
      WriteRow header_row;
      WriteRow [VStr "AAPL"; VStr "Head and Shoulders"; VStr "date"; VNum 15];
      CloseFile;
      ShowInfo "Export Successful" "Results exported successfully."]).
Proof.
  assert (¬ blank_entry "AAPL") as Hfull.
  { unfold blank_entry. simpl. intros H. apply Forall_cons in H as [[H|H] _];
      discriminate. }
  split; [exact Hfull|].
  destruct (Main_export_results_rows (always head_series) (λ _, "out.csv")
              (λ _, "date") "AAPL" "2024-01-01" "Head and Shoulders" [] Hfull)
    as (data & new & Hfetch & Hrun).
  vm_compute in Hfetch. injection Hfetch as <- <-.
  rewrite Hrun. reflexivity.
Defined.

(** ** Charts and files of [src/data_fetcher.py] *)

(** The three ways [detect_patterns] can go for a request, on any frame. *)
Lemma detect_patterns_cases (ks : list string) :
  (Exists other_kind ks ∧
   ∀ data, ∃ e, exn_class e = "AttributeError" ∧
                DataFetcher.detect_patterns data ks = Raised e) ∨
  ("Head and Shoulders" ∈ ks ∧ ¬ Exists other_kind ks ∧
   ∀ data, DataFetcher.detect_patterns data ks =
             Returned {["Head and Shoulders" :=
                          map (hs_match data) (hs_hits data)]}) ∨
  (("Head and Shoulders" ∉ ks) ∧ ¬ Exists other_kind ks ∧
   ∀ data, DataFetcher.detect_patterns data ks = Returned ∅).
Proof.
  destruct (decide (Exists other_kind ks)) as [He|Hne].
  - left. split; [exact He|]. intros data.
    pose proof (DataFetcher_detect_patterns_raises data ks He) as Hr.
    destruct (DataFetcher.detect_patterns data ks) as [d|e]; [destruct Hr|].
    exists e. split; [exact Hr|reflexivity].
  - right.
    assert (∀ data, DataFetcher.detect_patterns data ks =
              Returned (if decide ("Head and Shoulders" ∈ ks)
                        then {["Head and Shoulders" :=
                                 map (hs_match data) (hs_hits data)]}
                        else ∅)) as Hret.
    { intros data. pose proof (detect_patterns_loop data ks ∅) as H.
      rewrite decide_False in H by assumption.
      unfold DataFetcher.detect_patterns. rewrite H.
      destruct (decide _); reflexivity. }
    destruct (decide ("Head and Shoulders" ∈ ks)) as [Hin|Hnin];
      [left|right]; (split; [assumption|split; [assumption|exact Hret]]).
Qed.

Lemma dict_keys_singleton {V} (k : string) (v : V) :
  DataFetcher.dict_keys ({[k := v]} : gmap string V) = [k].
Proof.
  unfold DataFetcher.dict_keys. rewrite map_to_list_singleton. reflexivity.
Qed.

Lemma dict_keys_empty {V} :
  DataFetcher.dict_keys (∅ : gmap string V) = [].
Proof.
  unfold DataFetcher.dict_keys. rewrite map_to_list_empty. reflexivity.
Qed.

Lemma calculate_gann_levels_total (data : DataFrame) :
  DataFetcher.calculate_gann_levels data = Returned (gann_list data).
Proof. reflexivity. Qed.

Lemma add_hlines (data : odict DataFrame) (tr : list event) :
  for_do data (λ '(ticker, ticker_data),
    gann_levels ← lift (DataFetcher.calculate_gann_levels ticker_data);
    for_do gann_levels (λ level, emit (AddHline level))) tr =
  (Returned (), tr ++ flat_map hlines_of data).
Proof.
  apply for_do_out. intros [ticker ticker_data] _ tr0.
  unfold mbind at 1, prog_bind at 1, lift.
  rewrite calculate_gann_levels_total.
  rewrite (for_do_out _ _ (λ level, [AddHline level])), flat_map_single;
    [reflexivity|].
  intros level _ tr1. reflexivity.
Qed.

(** [plot_chart] when every dict of [patterns] holds the key Head and
    Shoulders and no other. *)
Lemma DataFetcher_plot_chart_trace (data : odict DataFrame)
    (patterns : odict (gmap string (list PatternMatch)))
    (show_gann_levels : bool) (tr : list event) :
  Forall (λ p, DataFetcher.dict_keys p.2 = ["Head and Shoulders"]) patterns →
  DataFetcher.plot_chart data (Some patterns) show_gann_levels tr =
    (Returned (),
     tr ++ map trace_of data ++ map (λ _, key_annotation) patterns ++
     (if show_gann_levels then flat_map hlines_of data else []) ++
     [UpdateLayout; ShowFigure]).
Proof.
  intros Hkeys. unfold DataFetcher.plot_chart.
  rewrite (bind_returned _ _ _ _ _ (add_traces data tr)).
  eapply eq_trans.
  { apply bind_returned
      with (a := ()) (tr' := (tr ++ map trace_of data) ++
                             map (λ _, key_annotation) patterns).
    destruct patterns as [|p ps] eqn:Hp.
    { simpl. rewrite app_nil_r. reflexivity. }
    rewrite <- Hp in *. clear Hp p ps.
    rewrite <- (flat_map_single (λ _, key_annotation) patterns).
    apply for_do_out.
    intros [ticker detected_patterns] Hin tr0.
    rewrite Forall_forall in Hkeys. specialize (Hkeys _ Hin).
    cbn [snd] in Hkeys. rewrite Hkeys. reflexivity. }
  cbv beta. eapply eq_trans.
  { apply bind_returned
      with (a := ()) (tr' := ((tr ++ map trace_of data) ++
                              map (λ _, key_annotation) patterns) ++
                             (if show_gann_levels
                              then flat_map hlines_of data else [])).
    destruct show_gann_levels; [apply add_hlines|].
    rewrite app_nil_r. reflexivity. }
  cbv beta. unfold mbind, prog_bind, emit. rewrite <- !app_assoc. reflexivity.
Qed.

(** X15. [run_analysis] of [src/data_fetcher.py] with a selection that
    holds any catalog name other than Head and Shoulders: once a frame has
    been fetched the detection raises [AttributeError], before anything is
    drawn, so that no figure is shown and completion is never reported. *)
Theorem DataFetcher_run_analysis_raises
    (yf_download : list event → string → string → outcome DataFrame)
    (tickers : list string) (start_date : string)
    (selected_patterns : list string) (show_gann_levels : bool)
    (tr : list event) :
  Exists other_kind selected_patterns →
  ∃ data new,
    DataFetcher.fetch_data yf_download tickers start_date tr =
      (Returned data, tr ++ new) ∧
    Forall (λ ev, is_fetch_event ev = true) new ∧
    (data = [] →
     DataFetcher.run_analysis yf_download tickers start_date
       selected_patterns show_gann_levels tr = (Returned (), tr ++ new)) ∧
    (data ≠ [] →
     ∃ e, exn_class e = "AttributeError" ∧
          DataFetcher.run_analysis yf_download tickers start_date
            selected_patterns show_gann_levels tr = (Raised e, tr ++ new)).
Proof.
  intros Hother.
  destruct (DataFetcher_fetch_data_safe yf_download tickers start_date tr)
    as (data & new & Hrun & _ & _ & _ & _ & Hev).
  exists data, new. split; [exact Hrun|]. split; [exact Hev|].
  unfold DataFetcher.run_analysis. rewrite (bind_returned _ _ _ _ _ Hrun).
  split; [intros ->; reflexivity|].
  destruct data as [|[k df] data']; [congruence|]. intros _.
  destruct (detect_patterns_cases selected_patterns)
    as [[_ Hraise]|[[_ [Hno _]]|[_ [Hno _]]]]; [|contradiction..].
  destruct (Hraise df) as (e & He & Hdet). exists e. split; [exact He|].
  apply bind_raised. cbn [map fst for_each]. apply bind_raised.
  unfold mbind, prog_bind, lift. rewrite od_item_first, Hdet. reflexivity.
Qed.

Lemma DataFetcher_run_analysis_raises_witness :
  Exists other_kind ["Head and Shoulders"; "Doji"] ∧
  ∃ e, exn_class e = "AttributeError" ∧
       DataFetcher.run_analysis (always head_series) ["AAPL"] "2024-01-01"
         ["Head and Shoulders"; "Doji"] true [] =
         (Raised e, [Download "AAPL" "2024-01-01"]).
Proof.
  assert (Exists other_kind ["Head and Shoulders"; "Doji"]) as Hother.
  { right. left. split; [|discriminate]. apply list_elem_of_In. simpl. tauto. }
  split; [exact Hother|].
  destruct (DataFetcher_run_analysis_raises (always head_series) ["AAPL"]
              "2024-01-01" ["Head and Shoulders"; "Doji"] true [] Hother)
    as (data & new & Hfetch & _ & _ & Hraise).
  vm_compute in Hfetch. injection Hfetch as <- <-.
  apply Hraise. discriminate.
Defined.

Lemma defined_levels (df : DataFrame) :
  df ≠ [] →
  length (gann_list df) = 8%nat ∧ Forall (λ y, y ≠ NaN) (gann_list df).
Proof.
  intros Hne. destruct (gann_levels_spec df Hne) as (lo & hi & _ & _ & H).
  unfold gann_list. rewrite H. split; [reflexivity|apply levels_defined].
Qed.

(** X16. [run_analysis] of [src/data_fetcher.py] with a selection that
    holds Head and Shoulders and no other catalog name returns.  When
    frames came back it draws one candlestick trace per fetched ticker and
    then one annotation per fetched ticker, made of the letters "H", "a"
    and "e" of the dict key and the same whether or not the scan found a
    match; with Gann levels on, eight horizontal lines per ticker follow,
    none of them [nan]; then the figure is shown and completion
    reported. *)
Theorem DataFetcher_run_analysis_annotations
    (yf_download : list event → string → string → outcome DataFrame)
    (tickers : list string) (start_date : string)
    (selected_patterns : list string) (show_gann_levels : bool)
    (tr : list event) :
  "Head and Shoulders" ∈ selected_patterns →
  ¬ Exists other_kind selected_patterns →
  ∃ data new,
    DataFetcher.fetch_data yf_download tickers start_date tr =
      (Returned data, tr ++ new) ∧
    DataFetcher.run_analysis yf_download tickers start_date
      selected_patterns show_gann_levels tr =
      (Returned (),
       tr ++ new ++
       match data with
       | [] => []
       | _ :: _ =>
           map trace_of data ++ map (λ _, key_annotation) data ++
           (if show_gann_levels then flat_map hlines_of data else []) ++
           [UpdateLayout; ShowFigure] ++
           completion tickers (py_join ", " selected_patterns) start_date
       end) ∧
    (∀ p, p ∈ data →
       ∃ levels, hlines_of p = map AddHline levels ∧
                 length levels = 8%nat ∧ Forall (λ y, y ≠ NaN) levels).
Proof.
  intros Hhs Hno.
  destruct (DataFetcher_fetch_data_safe yf_download tickers start_date tr)
    as (data & new & Hrun & Hnd & Hel & _).
  exists data, new. split; [exact Hrun|]. split.
  2:{ intros [k df] Hp. destruct (Hel k df Hp) as [_ Hdf].
      destruct (defined_levels df Hdf) as [Hlen Hl].
      exists (gann_list df). auto. }
  unfold DataFetcher.run_analysis. rewrite (bind_returned _ _ _ _ _ Hrun).
  destruct data as [|entry data'] eqn:Hdata.
  { rewrite app_nil_r. reflexivity. }
  rewrite <- Hdata in *. clear Hdata entry data' Hrun Hel.
  destruct (detect_patterns_cases selected_patterns)
    as [[? _]|[[_ [_ Hdet]]|[? _]]]; [contradiction| |contradiction].
  pose (val := λ k : string,
          match od_get k data with
          | Some df => ({["Head and Shoulders" :=
                            map (hs_match df) (hs_hits df)]}
                        : gmap string (list PatternMatch))
          | None => ∅
          end).
  eapply eq_trans.
  { apply bind_returned. apply (comprehension id val).
    - intros acc k Hk tr0. unfold id.
      apply list_elem_of_In in Hk. change (In k (map fst data)) with
        (In k (data.*1)) in Hk. apply list_elem_of_In in Hk.
      destruct (od_get_key k data Hk) as [df Hdf].
      unfold mbind, prog_bind, lift, od_item, val. rewrite Hdf, Hdet.
      reflexivity.
    - rewrite map_id. exact Hnd.
    - intros k Hk. destruct (not_elem_of_nil _ Hk). }
  cbv beta. rewrite app_nil_l.
  eapply eq_trans.
  { apply bind_returned. apply DataFetcher_plot_chart_trace.
    apply Forall_forall. intros [k d] Hin.
    apply list_elem_of_In, in_map_iff in Hin as (k' & [= <- <-] & Hk').
    unfold id in *.
    change (In k' (map fst data)) with (In k' (data.*1)) in Hk'.
    apply list_elem_of_In in Hk'.
    destruct (od_get_key k' data Hk') as [df Hdf].
    cbn [snd]. unfold val. rewrite Hdf. apply dict_keys_singleton. }
  cbv beta. unfold mbind, prog_bind, emit, completion.
  rewrite !map_map, <- !app_assoc. reflexivity.
Qed.

Lemma DataFetcher_run_analysis_annotations_witness :
  ("Head and Shoulders" ∈ ["Head and Shoulders"]) ∧
  ¬ Exists other_kind ["Head and Shoulders"] ∧
  DataFetcher.run_analysis (always peak_series) ["AAPL"] "2024-01-01"
    ["Head and Shoulders"] false [] =
    (Returned (),
     [Download "AAPL" "2024-01-01"; AddTrace "AAPL" peak_series;
      key_annotation; UpdateLayout; ShowFigure] ++
     completion ["AAPL"] "Head and Shoulders" "2024-01-01").
Proof.
  assert ("Head and Shoulders" ∈ ["Head and Shoulders"]) as Hin by left.
  assert (¬ Exists other_kind ["Head and Shoulders"]) as Hno.
  { intros H. apply Exists_cons in H as [[_ H]|H]; [congruence|].
    apply Exists_nil in H. exact H. }
  split; [exact Hin|]. split; [exact Hno|].
  destruct (DataFetcher_run_analysis_annotations (always peak_series) ["AAPL"]
              "2024-01-01" ["Head and Shoulders"] false [] Hin Hno)
    as (data & new & Hfetch & Hrun & _).
  vm_compute in Hfetch. injection Hfetch as <- <-.
  rewrite Hrun. reflexivity.
Defined.

Lemma flat_map_nil {A B} (l : list A) : flat_map (λ _ : A, @nil B) l = [].
Proof. induction l; simpl; auto. Qed.

(** The loop of [export_results] over the fetched frames, for a selection
    read off the form: it raises at the first frame, or (nothing being
    selected) writes nothing. *)
Lemma export_loop (selected : list string) (data : odict DataFrame)
    (tr : list event) :
  Forall (λ k, k ∈ available_patterns) selected →
  data ≠ [] →
  let loop :=
    for_do data (λ '(ticker, ticker_data),
      patterns ← lift (DataFetcher.detect_patterns ticker_data selected);
      for_do (DataFetcher.dict_keys patterns) (λ pattern_info,
        label ← lift (str_index pattern_info 1);
        first ← lift (str_index pattern_info 0);
        date ← lift (DataFetcher.str_strftime first);
        price ← lift (str_index pattern_info 2);
        emit (WriteRow [VStr ticker; VStr label; VStr date; VStr price]))) in
  (∃ e, exn_class e = "AttributeError" ∧ loop tr = (Raised e, tr)) ∨
  (selected = [] ∧ loop tr = (Returned (), tr)).
Proof.
  intros Hcat Hdata loop. subst loop.
  destruct (detect_patterns_cases selected)
    as [[_ Hraise]|[[_ [_ Hdet]]|[Hnin [Hno Hdet]]]].
  - left. destruct data as [|[k df] data']; [congruence|].
    destruct (Hraise df) as (e & He & Hd). exists e. split; [exact He|].
    apply for_do_raises. unfold mbind, prog_bind, lift. rewrite Hd.
    reflexivity.
  - left. destruct data as [|[k df] data']; [congruence|].
    exists (AttributeError "str" "strftime"). split; [reflexivity|].
    apply for_do_raises. unfold mbind at 1, prog_bind at 1, lift.
    rewrite Hdet, dict_keys_singleton. reflexivity.
  - right.
    assert (selected = []) as ->.
    { destruct selected as [|k sel]; [reflexivity|]. exfalso.
      apply Forall_cons in Hcat as [Hk _]. apply Hno. left.
      split; [exact Hk|]. intros ->. apply Hnin. left. }
    split; [reflexivity|].
    rewrite (for_do_out _ _ (λ _, [])), flat_map_nil, app_nil_r;
      [reflexivity|].
    intros [k df] _ tr0. unfold mbind at 1, prog_bind at 1, lift.
    rewrite Hdet, dict_keys_empty, app_nil_r. reflexivity.
Qed.

(** X17. [export_results] of [src/data_fetcher.py] never writes a match to
    the file.  After the events of the fetch it does nothing more (blank
    field, nothing fetched), or only asks for a file name (dialog
    cancelled), or writes the header row and raises [AttributeError] with
    the file closed, or, when no pattern is selected, writes the header
    row alone and reports success. *)
Theorem DataFetcher_export_results_header_only
    (yf_download : list event → string → string → outcome DataFrame)
    (ask_filename : list event → string)
    (ticker_entry start_date : string) (pattern_vars : list bool)
    (tr : list event) :
  ∃ r pre tail,
    DataFetcher.export_results yf_download ask_filename ticker_entry
      start_date pattern_vars tr = (r, tr ++ pre ++ tail) ∧
    Forall (λ ev, is_fetch_event ev = true) pre ∧
    header_only_export (DataFetcher.selected_patterns pattern_vars = [])
                       r tail ∧
    (∀ row, WriteRow row ∈ pre ++ tail → row = header_row).
Proof.
  assert (∃ r pre tail,
    DataFetcher.export_results yf_download ask_filename ticker_entry
      start_date pattern_vars tr = (r, tr ++ pre ++ tail) ∧
    Forall (λ ev, is_fetch_event ev = true) pre ∧
    header_only_export (DataFetcher.selected_patterns pattern_vars = [])
                       r tail) as (r & pre & tail & Hrun & Hpre & Hshape).
  { destruct (selected_patterns_catalog pattern_vars) as (_ & _ & Hcat & _).
    destruct (no_ticker (parse_tickers ticker_entry)) eqn:Hno.
    { exists (Returned ()), [no_ticker_box], [].
      split; [|split; [repeat constructor|left; auto]].
      unfold DataFetcher.export_results. rewrite Hno. reflexivity. }
    destruct (DataFetcher_fetch_data_safe yf_download
                (parse_tickers ticker_entry) start_date tr)
      as (data & new & Hrun & _ & _ & _ & _ & Hev).
    destruct data as [|entry data'] eqn:Hdata.
    { exists (Returned ()), new, [].
      split; [|split; [exact Hev|left; auto]].
      unfold DataFetcher.export_results. rewrite Hno.
      rewrite (bind_returned _ _ _ _ _ Hrun), app_nil_r. reflexivity. }
    rewrite <- Hdata in *.
    assert (data ≠ []) as Hne by (rewrite Hdata; discriminate).
    assert (
      DataFetcher.export_results yf_download ask_filename ticker_entry
        start_date pattern_vars tr =
      (if String.eqb (ask_filename (tr ++ new)) "" then mret ()
       else
         with_open (ask_filename (tr ++ new))
           (emit (WriteRow header_row);;
            for_do data (λ '(ticker, ticker_data),
              patterns ← lift (DataFetcher.detect_patterns ticker_data
                                 (DataFetcher.selected_patterns pattern_vars));
              for_do (DataFetcher.dict_keys patterns) (λ pattern_info,
                label ← lift (str_index pattern_info 1);
                first ← lift (str_index pattern_info 0);
                date ← lift (DataFetcher.str_strftime first);
                price ← lift (str_index pattern_info 2);
                emit (WriteRow [VStr ticker; VStr label; VStr date;
                                VStr price]))));;
         emit (ShowInfo "Export Successful"
                        "Results exported successfully."))
        ((tr ++ new) ++ [AskSaveAs])) as Hexp.
    { unfold DataFetcher.export_results. rewrite Hno.
      rewrite (bind_returned _ _ _ _ _ Hrun), Hdata. reflexivity. }
    clear Hdata entry data' Hrun.
    destruct (String.eqb (ask_filename (tr ++ new)) "").
    { exists (Returned ()), new, [AskSaveAs].
      split; [|split; [exact Hev|right; left; auto]].
      rewrite Hexp. unfold mret, prog_ret. rewrite <- app_assoc.
      reflexivity. }
    destruct (export_loop (DataFetcher.selected_patterns pattern_vars) data
                (((tr ++ new) ++ [AskSaveAs]) ++
                 [OpenFile (ask_filename (tr ++ new))] ++
                 [WriteRow header_row]) Hcat Hne)
      as [(e & He & Hloop)|[Hsel Hloop]].
    - exists (Raised e), new,
             [AskSaveAs; OpenFile (ask_filename (tr ++ new));
              WriteRow header_row; CloseFile].
      split; [|split; [exact Hev|right; right; left; eauto]].
      rewrite Hexp. eapply eq_trans.
      { apply bind_raised, with_open_raised.
        eapply eq_trans; [apply bind_returned; reflexivity|]. cbv beta.
        rewrite <- app_assoc. exact Hloop. }
      rewrite <- !app_assoc. reflexivity.
    - exists (Returned ()), new,
             [AskSaveAs; OpenFile (ask_filename (tr ++ new));
              WriteRow header_row; CloseFile;
              ShowInfo "Export Successful" "Results exported successfully."].
      split; [|split; [exact Hev|right; right; right; eauto]].
      rewrite Hexp. eapply eq_trans.
      { apply bind_returned, with_open_returned.
        eapply eq_trans; [apply bind_returned; reflexivity|]. cbv beta.
        rewrite <- app_assoc. exact Hloop. }
      cbv beta. unfold emit. rewrite <- !app_assoc. reflexivity. }
  exists r, pre, tail. split; [exact Hrun|]. split; [exact Hpre|].
  split; [exact Hshape|].
  intros row Hin. apply elem_of_app in Hin as [Hin|Hin].
  { rewrite Forall_forall in Hpre. specialize (Hpre _ Hin). discriminate. }
  destruct Hshape as [[-> _]|[[-> _]|[(f & e & -> & _)|(f & -> & _)]]];
    repeat (apply elem_of_cons in Hin as [Hin|Hin];
            [first [discriminate|injection Hin as ->; reflexivity]|]);
    destruct (not_elem_of_nil _ Hin).
Qed.
